(** * Rosenkoenig client: game store, realtime handlers, board controller

    A shallow embedding of [src/stores/game.ts] (the Pinia game store),
    of the script part of [src/components/game/GameBoard.vue] and of the
    click handler of [src/pages/GamePage.vue].

    - Rows of the hosted database are records ([games.Row], ...), the
      tables a finite map (games, keyed by the primary key) and lists.
    - Every [await] on the Supabase client is a [Request]; an [async]
      function is a [Task]: a state-passing computation over the client
      state that is a finite tree of requests ([Proc]).  [run] answers the
      requests one after the other from one database; [interleave]
      answers the requests of two clients from one shared database in the
      order given by a schedule.
    - JavaScript exceptions are the [Throw] outcome; [try_catch] and
      [finally] are the corresponding statements. *)

From Stdlib Require Import ZArith Lia.
From stdpp Require Import base strings gmap list sorting.

Set Default Proof Using "Type".
Open Scope string_scope.
Open Scope Z_scope.

(** ** Rows ([src/types/supabase.ts]) *)

(** ['A' | 'B'] *)
Inductive Player : Type := A | B.

(** ['none' | 'A' | 'B'] (the type of [games.turn] and [cells.owner]) *)
Inductive Owner : Type := none | seat (p : Player).

Inductive GameStatus : Type := waiting | playing | finished.

Inductive CardKind : Type := influence | hero.

#[global] Instance Player_eq_dec : EqDecision Player.
Proof. solve_decision. Defined.
#[global] Instance Owner_eq_dec : EqDecision Owner.
Proof. solve_decision. Defined.
#[global] Instance GameStatus_eq_dec : EqDecision GameStatus.
Proof. solve_decision. Defined.
#[global] Instance CardKind_eq_dec : EqDecision CardKind.
Proof. solve_decision. Defined.

Module games.
Record Row : Type := mk {
  id : string;
  status : GameStatus;
  season_id : string;
  player_a : option string;
  player_b : option string;
  turn : Owner;
  crown_x : Z;
  crown_y : Z;
  score_a : option Z;
  score_b : option Z;
  winner : option Player;
  created_at : string;
  updated_at : option string;
  finished_at : option string
}.

(** The columns [createGame] passes to [insert]; every other column of
      the row is left to the schema's defaults. *)
Record Insert : Type := mkInsert {
  i_player_a : option string;
  i_status : GameStatus;
  i_turn : Owner;
  i_crown_x : Z;
  i_crown_y : Z
}.

Definition set_id (v : string) (g : Row) : Row :=
  mk v (status g) (season_id g) (player_a g) (player_b g) (turn g)
       (crown_x g) (crown_y g) (score_a g) (score_b g) (winner g)
       (created_at g) (updated_at g) (finished_at g).
Definition set_status (v : GameStatus) (g : Row) : Row :=
  mk (id g) v (season_id g) (player_a g) (player_b g) (turn g)
       (crown_x g) (crown_y g) (score_a g) (score_b g) (winner g)
       (created_at g) (updated_at g) (finished_at g).
Definition set_player_a (v : option string) (g : Row) : Row :=
  mk (id g) (status g) (season_id g) v (player_b g) (turn g)
       (crown_x g) (crown_y g) (score_a g) (score_b g) (winner g)
       (created_at g) (updated_at g) (finished_at g).
Definition set_player_b (v : option string) (g : Row) : Row :=
  mk (id g) (status g) (season_id g) (player_a g) v (turn g)
       (crown_x g) (crown_y g) (score_a g) (score_b g) (winner g)
       (created_at g) (updated_at g) (finished_at g).
Definition set_turn (v : Owner) (g : Row) : Row :=
  mk (id g) (status g) (season_id g) (player_a g) (player_b g) v
       (crown_x g) (crown_y g) (score_a g) (score_b g) (winner g)
       (created_at g) (updated_at g) (finished_at g).
Definition set_crown (vx vy : Z) (g : Row) : Row :=
  mk (id g) (status g) (season_id g) (player_a g) (player_b g) (turn g)
       vx vy (score_a g) (score_b g) (winner g)
       (created_at g) (updated_at g) (finished_at g).
Definition set_winner (v : option Player) (g : Row) : Row :=
  mk (id g) (status g) (season_id g) (player_a g) (player_b g) (turn g)
       (crown_x g) (crown_y g) (score_a g) (score_b g) v
       (created_at g) (updated_at g) (finished_at g).
Definition set_updated_at (v : option string) (g : Row) : Row :=
  mk (id g) (status g) (season_id g) (player_a g) (player_b g) (turn g)
       (crown_x g) (crown_y g) (score_a g) (score_b g) (winner g)
       (created_at g) v (finished_at g).
Definition set_finished_at (v : option string) (g : Row) : Row :=
  mk (id g) (status g) (season_id g) (player_a g) (player_b g) (turn g)
       (crown_x g) (crown_y g) (score_a g) (score_b g) (winner g)
       (created_at g) (updated_at g) v.
End games.

Module cells.
Record Row : Type := mk {
  game_id : string;
  x : Z;
  y : Z;
  owner : Owner
}.
Definition set_owner (v : Owner) (c : Row) : Row :=
  mk (game_id c) (x c) (y c) v.
End cells.

Module cards.
Record Row : Type := mk {
  id : string;
  game_id : string;
  owner : option Player;
  kind : CardKind;
  dx : option Z;
  dy : option Z;
  steps : option Z;
  is_used : bool;
  order_in_deck : option Z
}.

(** What [initializeCards] inserts: a row without its [id]. *)
Record Insert : Type := mkInsert {
  i_game_id : string;
  i_owner : option Player;
  i_kind : CardKind;
  i_dx : option Z;
  i_dy : option Z;
  i_steps : option Z;
  i_is_used : bool;
  i_order_in_deck : option Z
}.

Definition with_id (v : string) (c : Insert) : Row :=
  mk v (i_game_id c) (i_owner c) (i_kind c) (i_dx c) (i_dy c)
       (i_steps c) (i_is_used c) (i_order_in_deck c).
End cards.

Module moves.
Record Row : Type := mk {
  id : Z;
  game_id : string;
  actor : Player;
  used_card : option string;
  from_x : option Z;
  from_y : option Z;
  to_x : Z;
  to_y : Z;
  flipped : bool;
  created_at : string
}.
End moves.

Module profiles.
(** [select('id, nickname')] *)
Record Row : Type := mk {
  id : string;
  nickname : option string
}.
End profiles.

Abbreviation Game := games.Row.
Abbreviation Cell := cells.Row.
Abbreviation Card := cards.Row.
Abbreviation Move := moves.Row.

#[global] Instance Game_eq_dec : EqDecision games.Row.
Proof. solve_decision. Defined.
#[global] Instance Cell_eq_dec : EqDecision cells.Row.
Proof. solve_decision. Defined.
#[global] Instance Card_eq_dec : EqDecision cards.Row.
Proof. solve_decision. Defined.

(** ** JavaScript values *)

(** Truthiness of a [string | null]: [null] and the empty string are falsy. *)
Definition truthy (v : option string) : bool :=
  match v with
  | Some s => negb (String.eqb s "")
  | None => false
  end.

(** What the code throws: [new Error(msg)], or the error object a
    Supabase call returned.  Only [message] is ever read. *)
Inductive Exn : Type :=
| Error (message : string)
| PostgrestError (message : string)
| FunctionsError (message : string).

Definition message (e : Exn) : string :=
  match e with
  | Error m | PostgrestError m | FunctionsError m => m
  end.

#[global] Instance Exn_eq_dec : EqDecision Exn.
Proof. solve_decision. Defined.

(** [err.message || dflt] *)
Definition message_or (e : Exn) (dflt : string) : string :=
  if String.eqb (message e) "" then dflt else message e.

(** The [{ data, error }] pair of a Supabase call. *)
Inductive Response (T : Type) : Type :=
| Data (d : T)
| Err (e : Exn).
Arguments Data {T} d.
Arguments Err {T} e.

(** ** The hosted backend

    The tables behind [supabase.from(...)].  [games] is keyed by its
    primary key; the other tables are kept in insertion order. *)
Record Database : Type := mkDatabase {
  tbl_games : gmap string Game;
  tbl_cells : list Cell;
  tbl_cards : list Card;
  tbl_moves : list Move;
  tbl_profiles : list profiles.Row
}.

(** Body of the [play-turn] edge function call. *)
Record PlayTurnBody : Type := mkBody {
  gameId : string;
  cardId : string;
  toX : Z;
  toY : Z
}.

(** A realtime channel: [supabase.channel(`game:${gameId}`)] with its four
    [postgres_changes] bindings, all filtered on the same game id. *)
Record Channel : Type := mkChannel {
  topic : string;
  channel_gameId : string
}.

(** One constructor per awaited call of the Supabase client in
    [stores/game.ts]; the index is the type of what the call resolves to. *)
Inductive Request : Type -> Type :=
| games_insert_single (row : games.Insert) : Request (Response Game)
    (* from('games').insert([row]).select().single() *)
| games_select_single (id : string) : Request (Response Game)
    (* from('games').select('*').eq('id', id).single() *)
| games_update_single (id : string) (patch : Game -> Game) : Request (Response Game)
    (* from('games').update(patch).eq('id', id).select().single() *)
| games_update (id : string) (patch : Game -> Game) : Request (Response unit)
    (* from('games').update(patch).eq('id', id) *)
| cells_insert (rows : list Cell) : Request (Response unit)
| cards_insert_select (rows : list cards.Insert) : Request (Response (list Card))
| cells_select (game_id : string) : Request (Response (list Cell))
| cards_select (game_id : string) : Request (Response (list Card))
    (* ... .order('order_in_deck', { ascending: true }) *)
| moves_select (game_id : string) : Request (Response (list Move))
    (* ... .order('created_at', { ascending: true }) *)
| profiles_select_in (ids : list string) : Request (Response (list profiles.Row))
| functions_invoke_play_turn (caller : option string) (body : PlayTurnBody)
    : Request (Response string)
| removeChannel (ch : Channel) : Request unit.

(** Ascending order on a nullable column (nulls last). *)
Definition nullable_le (a b : option Z) : bool :=
  match a, b with
  | Some i, Some j => Z.leb i j
  | _, None => true
  | None, Some _ => false
  end.

Definition deck_le (c1 c2 : Card) : Prop :=
  Is_true (nullable_le (cards.order_in_deck c1) (cards.order_in_deck c2)).

Definition created_le (m1 m2 : Move) : Prop :=
  Is_true (String.leb (moves.created_at m1) (moves.created_at m2)).

#[global] Instance deck_le_dec : RelDecision deck_le.
Proof. intros c1 c2. unfold deck_le. apply _. Defined.
#[global] Instance created_le_dec : RelDecision created_le.
Proof. intros c1 c2. unfold created_le. apply _. Defined.

(** Message of the error [.single()] gives when no row matches. *)
Definition NO_ROW : string := "JSON object requested, multiple (or no) rows returned".

Definition cells_of (gid : string) (l : list Cell) : list Cell :=
  filter (fun c => cells.game_id c = gid) l.
Definition cards_of (gid : string) (l : list Card) : list Card :=
  filter (fun c => cards.game_id c = gid) l.
Definition moves_of (gid : string) (l : list Move) : list Move :=
  filter (fun m => moves.game_id m = gid) l.

Definition card_ids (l : list Card) : gset string :=
  list_to_set (cards.id <$> l).

Definition with_games (v : gmap string Game) (db : Database) : Database :=
  mkDatabase v (tbl_cells db) (tbl_cards db) (tbl_moves db) (tbl_profiles db).
Definition with_cells (v : list Cell) (db : Database) : Database :=
  mkDatabase (tbl_games db) v (tbl_cards db) (tbl_moves db) (tbl_profiles db).
Definition with_cards (v : list Card) (db : Database) : Database :=
  mkDatabase (tbl_games db) (tbl_cells db) v (tbl_moves db) (tbl_profiles db).

(** ** Asynchronous code *)

(** A started [async] call: finished with [r], or suspended at an [await]
    on a request, with the rest of the function as continuation. *)
Inductive Proc (R : Type) : Type :=
| Done (r : R)
| Await {X : Type} (req : Request X) (k : X -> Proc R).
Arguments Done {R} r.
Arguments Await {R X} req k.

Fixpoint proc_bind {R S : Type} (p : Proc R) (f : R -> Proc S) : Proc S :=
  match p with
  | Done r => f r
  | Await req k => Await req (fun x => proc_bind (k x) f)
  end.

(** How a JavaScript function ends: [return a] or [throw e]. *)
Inductive Outcome (T : Type) : Type :=
| Return (a : T)
| Throw (e : Exn).
Arguments Return {T} a.
Arguments Throw {T} e.

Section Backend.

(** The two parts of the backend that are not in the repository: the
    [play-turn] edge function (called with the caller's session) and the
    row the schema's column defaults give to an [insert] into [games]. *)
Variable play_turn : option string -> PlayTurnBody -> Database -> Response string * Database.
Variable games_default : Game.

Definition insert_row (i : string) (row : games.Insert) : Game :=
  games.set_crown (games.i_crown_x row) (games.i_crown_y row)
    (games.set_turn (games.i_turn row)
      (games.set_status (games.i_status row)
        (games.set_player_a (games.i_player_a row)
          (games.set_id i games_default)))).

(** One request, answered atomically by the backend. *)
Definition exec {X : Type} (req : Request X) (db : Database) : X * Database :=
  match req in Request X return X * Database with
  | games_insert_single row =>
      let i := fresh (dom (tbl_games db)) in
      let g := insert_row i row in
      (Data g, with_games (<[i := g]> (tbl_games db)) db)
  | games_select_single i =>
      match tbl_games db !! i with
      | Some g => (Data g, db)
      | None => (Err (PostgrestError NO_ROW), db)
      end
  | games_update_single i patch =>
      match tbl_games db !! i with
      | Some g => (Data (patch g), with_games (<[i := patch g]> (tbl_games db)) db)
      | None => (Err (PostgrestError NO_ROW), db)
      end
  | games_update i patch =>
      (Data tt, with_games (alter patch i (tbl_games db)) db)
  | cells_insert rows =>
      (Data tt, with_cells (tbl_cells db ++ rows) db)
  | cards_insert_select rows =>
      let ids := fresh_list (length rows) (card_ids (tbl_cards db)) in
      let new := zip_with cards.with_id ids rows in
      (Data new, with_cards (tbl_cards db ++ new) db)
  | cells_select gid => (Data (cells_of gid (tbl_cells db)), db)
  | cards_select gid => (Data (merge_sort deck_le (cards_of gid (tbl_cards db))), db)
  | moves_select gid => (Data (merge_sort created_le (moves_of gid (tbl_moves db))), db)
  | profiles_select_in ids =>
      (Data (filter (fun p => profiles.id p ∈ ids) (tbl_profiles db)), db)
  | functions_invoke_play_turn caller body => play_turn caller body db
  | removeChannel _ => (tt, db)
  end.

(** All requests of one call answered in order, nothing in between. *)
Fixpoint run {R : Type} (p : Proc R) (db : Database) : R * Database :=
  match p with
  | Done r => (r, db)
  | Await req k => let '(x, db') := exec req db in run (k x) db'
  end.

(** The next request of a call answered (a finished call stays as it is). *)
Definition step {R : Type} (p : Proc R) (db : Database) : Proc R * Database :=
  match p with
  | Done r => (Done r, db)
  | Await req k => let '(x, db') := exec req db in (k x, db')
  end.

(** Two calls from two clients against one database: [true] in the
    schedule answers the next request of the first call, [false] of the
    second; when the schedule is used up the first call runs to its end,
    then the second. *)
Fixpoint interleave {R1 R2 : Type} (sched : list bool)
    (p1 : Proc R1) (p2 : Proc R2) (db : Database) : R1 * R2 * Database :=
  match sched with
  | [] =>
      let '(r1, db1) := run p1 db in
      let '(r2, db2) := run p2 db1 in
      (r1, r2, db2)
  | true :: sched' =>
      let '(p1', db') := step p1 db in interleave sched' p1' p2 db'
  | false :: sched' =>
      let '(p2', db') := step p2 db in interleave sched' p1 p2' db'
  end.

End Backend.

(** ** Client state *)

Inductive Toast : Type :=
| toast_error (msg : string)
| toast_info (msg : string)
| toast_success (msg : string).

(** The refs of [useGameStore]. *)
Record GameStore : Type := mkGameStore {
  currentGame : option Game;
  board : list Cell;
  cards : list Card;
  moves : list Move;
  players : gmap string profiles.Row;
  isLoading : bool;
  error : option string;
  subscription : option Channel
}.

(** What [GameBoard.vue] emits. *)
Inductive Emit : Type :=
| cell_click (x y : Z)
| cell_hover (x y : Z)
| cell_leave
| move_made (from : option (Z * Z)) (to : Z * Z).

(** The [interactive] prop and the refs of [GameBoard.vue]; an [{x, y}]
    object is a pair; [emitted] logs the calls of [emit], newest last. *)
Record GameBoard : Type := mkGameBoard {
  interactive : bool;
  isDragging : bool;
  dragStartCell : option (Z * Z);
  dragEndCell : option (Z * Z);
  hoveredCell : option (Z * Z);
  validMoves : list (Z * Z);
  selectedCard : option string;
  emitted : list Emit
}.

(** One browser client: [authStore.userId], the game store, the mounted
    board component, the [selectedCardId] ref of [GamePage.vue], and the
    toasts shown so far (newest last). *)
Record App : Type := mkApp {
  userId : option string;
  gameStore : GameStore;
  gameBoard : GameBoard;
  selectedCardId : option string;
  toasts : list Toast
}.

Definition with_gameStore (f : GameStore -> GameStore) (s : App) : App :=
  mkApp (userId s) (f (gameStore s)) (gameBoard s) (selectedCardId s) (toasts s).
Definition with_gameBoard (f : GameBoard -> GameBoard) (s : App) : App :=
  mkApp (userId s) (gameStore s) (f (gameBoard s)) (selectedCardId s) (toasts s).
Definition with_selectedCardId (v : option string) (s : App) : App :=
  mkApp (userId s) (gameStore s) (gameBoard s) v (toasts s).
Definition with_toast (t : Toast) (s : App) : App :=
  mkApp (userId s) (gameStore s) (gameBoard s) (selectedCardId s) (toasts s ++ [t]).

Definition put_currentGame (v : option Game) (st : GameStore) : GameStore :=
  mkGameStore v (board st) (cards st) (moves st) (players st)
    (isLoading st) (error st) (subscription st).
Definition put_board (v : list Cell) (st : GameStore) : GameStore :=
  mkGameStore (currentGame st) v (cards st) (moves st) (players st)
    (isLoading st) (error st) (subscription st).
Definition put_cards (v : list Card) (st : GameStore) : GameStore :=
  mkGameStore (currentGame st) (board st) v (moves st) (players st)
    (isLoading st) (error st) (subscription st).
Definition put_moves (v : list Move) (st : GameStore) : GameStore :=
  mkGameStore (currentGame st) (board st) (cards st) v (players st)
    (isLoading st) (error st) (subscription st).
Definition put_players (v : gmap string profiles.Row) (st : GameStore) : GameStore :=
  mkGameStore (currentGame st) (board st) (cards st) (moves st) v
    (isLoading st) (error st) (subscription st).
Definition put_isLoading (v : bool) (st : GameStore) : GameStore :=
  mkGameStore (currentGame st) (board st) (cards st) (moves st) (players st)
    v (error st) (subscription st).
Definition put_error (v : option string) (st : GameStore) : GameStore :=
  mkGameStore (currentGame st) (board st) (cards st) (moves st) (players st)
    (isLoading st) v (subscription st).
Definition put_subscription (v : option Channel) (st : GameStore) : GameStore :=
  mkGameStore (currentGame st) (board st) (cards st) (moves st) (players st)
    (isLoading st) (error st) v.

Definition put_isDragging (v : bool) (b : GameBoard) : GameBoard :=
  mkGameBoard (interactive b) v (dragStartCell b) (dragEndCell b)
    (hoveredCell b) (validMoves b) (selectedCard b) (emitted b).
Definition put_dragStartCell (v : option (Z * Z)) (b : GameBoard) : GameBoard :=
  mkGameBoard (interactive b) (isDragging b) v (dragEndCell b)
    (hoveredCell b) (validMoves b) (selectedCard b) (emitted b).
Definition put_dragEndCell (v : option (Z * Z)) (b : GameBoard) : GameBoard :=
  mkGameBoard (interactive b) (isDragging b) (dragStartCell b) v
    (hoveredCell b) (validMoves b) (selectedCard b) (emitted b).
Definition put_hoveredCell (v : option (Z * Z)) (b : GameBoard) : GameBoard :=
  mkGameBoard (interactive b) (isDragging b) (dragStartCell b) (dragEndCell b)
    v (validMoves b) (selectedCard b) (emitted b).
Definition put_validMoves (v : list (Z * Z)) (b : GameBoard) : GameBoard :=
  mkGameBoard (interactive b) (isDragging b) (dragStartCell b) (dragEndCell b)
    (hoveredCell b) v (selectedCard b) (emitted b).
Definition put_selectedCard (v : option string) (b : GameBoard) : GameBoard :=
  mkGameBoard (interactive b) (isDragging b) (dragStartCell b) (dragEndCell b)
    (hoveredCell b) (validMoves b) v (emitted b).
Definition put_emitted (v : list Emit) (b : GameBoard) : GameBoard :=
  mkGameBoard (interactive b) (isDragging b) (dragStartCell b) (dragEndCell b)
    (hoveredCell b) (validMoves b) (selectedCard b) v.

(** ** Tasks: [async] functions over the client state *)

Definition Task (T : Type) : Type := App -> Proc (Outcome T * App).

Definition ret {T : Type} (a : T) : Task T := fun s => Done (Return a, s).

Definition throw {T : Type} (e : Exn) : Task T := fun s => Done (Throw e, s).

Definition bind {T U : Type} (m : Task T) (f : T -> Task U) : Task U :=
  fun s => proc_bind (m s) (fun r =>
    match r with
    | (Return a, s') => f a s'
    | (Throw e, s') => Done (Throw e, s')
    end).

Declare Scope task_scope.
Delimit Scope task_scope with task.
Bind Scope task_scope with Task.
Notation "x <- m ;; k" := (bind m (fun x => k))
  (at level 100, m at next level, right associativity) : task_scope.
Notation "m ;; k" := (bind m (fun _ => k))
  (at level 100, right associativity) : task_scope.
Open Scope task_scope.

(** [await] of one client call. *)
Definition await {X : Type} (req : Request X) : Task X :=
  fun s => Await req (fun x => Done (Return x, s)).

(** The task run to its end, its exception (if any) caught. *)
Definition attempt {T : Type} (m : Task T) : Task (Outcome T) :=
  fun s => proc_bind (m s) (fun r => Done (Return (fst r), snd r)).

(** [try { body } catch (err) { handler }] *)
Definition try_catch {T : Type} (body : Task T) (handler : Exn -> Task T) : Task T :=
  r <- attempt body ;;
  match r with
  | Return a => ret a
  | Throw err => handler err
  end.

(** [try { body } finally { cleanup }] *)
Definition finally {T : Type} (body : Task T) (cleanup : Task unit) : Task T :=
  r <- attempt body ;;
  cleanup ;;
  match r with
  | Return a => ret a
  | Throw err => throw err
  end.

(** [await Promise.all(tasks)]: every task runs to its end; the first
    rejection, if any, is thrown. *)
Fixpoint promise_all (tasks : list (Task unit)) : Task unit :=
  match tasks with
  | [] => ret tt
  | t :: rest =>
      r <- attempt t ;;
      r' <- attempt (promise_all rest) ;;
      match r, r' with
      | Throw err, _ => throw err
      | _, Throw err => throw err
      | _, _ => ret tt
      end
  end.

Definition get : Task App := fun s => Done (Return s, s).
Definition gets {T : Type} (f : App -> T) : Task T := fun s => Done (Return (f s), s).
Definition modify (f : App -> App) : Task unit := fun s => Done (Return tt, f s).

(** [const { data, error } = await ...; if (error) throw error] *)
Definition check {T : Type} (r : Response T) : Task T :=
  match r with
  | Data d => ret d
  | Err e => throw e
  end.

Definition toast (t : Toast) : Task unit := modify (with_toast t).
Definition store_set (f : GameStore -> GameStore) : Task unit := modify (with_gameStore f).
Definition board_set (f : GameBoard -> GameBoard) : Task unit := modify (with_gameBoard f).
Definition emit (e : Emit) : Task unit :=
  board_set (fun b => put_emitted (emitted b ++ [e]) b).

(** ** [stores/game.ts]: computed properties and helpers *)

Definition isPlayerA (s : App) : bool :=
  match currentGame (gameStore s) with
  | Some g => truthy (userId s) && bool_decide (games.player_a g = userId s)
  | None => false
  end.

Definition isPlayerB (s : App) : bool :=
  match currentGame (gameStore s) with
  | Some g => truthy (userId s) && bool_decide (games.player_b g = userId s)
  | None => false
  end.

Definition currentPlayer (s : App) : option Owner :=
  games.turn <$> currentGame (gameStore s).

Definition isPlayerTurn (s : App) : bool :=
  match currentGame (gameStore s) with
  | Some g =>
      truthy (userId s) &&
      ((isPlayerA s && bool_decide (games.turn g = seat A)) ||
       (isPlayerB s && bool_decide (games.turn g = seat B)))
  | None => false
  end.

Definition gameStatus (s : App) : GameStatus :=
  match currentGame (gameStore s) with
  | Some g => games.status g
  | None => waiting
  end.

Definition getCell (s : App) (x y : Z) : option Cell :=
  List.find (fun cell => Z.eqb (cells.x cell) x && Z.eqb (cells.y cell) y)
    (board (gameStore s)).

Definition getPlayerCards (s : App) (player : Player) : list Card :=
  List.filter
    (fun card => bool_decide (cards.owner card = Some player) && negb (cards.is_used card))
    (cards (gameStore s)).

(** ** [stores/game.ts]: fetches and subscription *)

Definition fetchBoard (gameId : string) : Task unit :=
  r <- await (cells_select gameId) ;;
  d <- check r ;;
  store_set (put_board d).

Definition fetchCards (gameId : string) : Task unit :=
  r <- await (cards_select gameId) ;;
  d <- check r ;;
  store_set (put_cards d).

Definition fetchMoves (gameId : string) : Task unit :=
  r <- await (moves_select gameId) ;;
  d <- check r ;;
  store_set (put_moves d).

Definition fetchPlayers (gameId : string) : Task unit :=
  cur <- gets (fun s => currentGame (gameStore s)) ;;
  match cur with
  | None => ret tt
  | Some g =>
      let playerIds :=
        omap (fun p => if truthy p then p else None) [games.player_a g; games.player_b g] in
      r <- await (profiles_select_in playerIds) ;;
      d <- check r ;;
      let playerMap :=
        foldl (fun m player => <[profiles.id player := player]> m) ∅ d in
      store_set (put_players playerMap)
  end.

Definition subscribeToGame (gameId : string) : Task unit :=
  sub <- gets (fun s => subscription (gameStore s)) ;;
  match sub with
  | Some ch => await (removeChannel ch)
  | None => ret tt
  end ;;
  store_set (put_subscription (Some (mkChannel ("game:" ++ gameId) gameId))).

(** [removeChannel] is started and not awaited: the refs are reset before
    the backend answers the request. *)
Definition resetGame : Task unit :=
  sub <- gets (fun s => subscription (gameStore s)) ;;
  store_set (fun st => mkGameStore None [] [] [] ∅ (isLoading st) None None) ;;
  match sub with
  | Some ch => await (removeChannel ch)
  | None => ret tt
  end.

(** ** [stores/game.ts]: board and deck of a new game *)

(** The two nested loops of [initializeBoard]. *)
Definition grid (gameId : string) : list Cell :=
  flat_map (fun y => map (fun x => cells.mk gameId x y none) (seqZ 0 9)) (seqZ 0 9).

(** [const c = cells.find(p); if (c) { c.owner = v }]: the found object
    is the one held by the array. *)
Fixpoint set_owner_of_found (p : Cell -> bool) (v : Owner) (l : list Cell) : list Cell :=
  match l with
  | [] => []
  | c :: l' => if p c then cells.set_owner v c :: l' else c :: set_owner_of_found p v l'
  end.

Definition initialCells (gameId : string) : list Cell :=
  set_owner_of_found (fun cell => Z.eqb (cells.x cell) 4 && Z.eqb (cells.y cell) 4)
    (seat A) (grid gameId).

Definition initializeBoard (gameId : string) : Task unit :=
  let cells := initialCells gameId in
  r <- await (cells_insert cells) ;;
  check r ;;
  store_set (put_board cells).

Record CardDef : Type := mkCardDef {
  kind : CardKind;
  dx : Z;
  dy : Z;
  steps : Z
}.

Definition cardsToCreate : list CardDef :=
  [ mkCardDef influence 1 0 1;
    mkCardDef influence (-1) 0 1;
    mkCardDef influence 0 1 1;
    mkCardDef influence 0 (-1) 1;
    mkCardDef hero 2 0 1;
    mkCardDef hero (-2) 0 1;
    mkCardDef hero 0 2 1;
    mkCardDef hero 0 (-2) 1;
    mkCardDef hero 1 1 1;
    mkCardDef hero (-1) (-1) 1 ].

(** [{ game_id, owner, ...card, is_used: false, order_in_deck: index }] *)
Definition deck_card (gameId : string) (owner : Player) (index : nat) (card : CardDef)
    : cards.Insert :=
  cards.mkInsert gameId (Some owner) (kind card) (Some (dx card)) (Some (dy card))
    (Some (steps card)) false (Some (Z.of_nat index)).

Definition allCards (gameId : string) : list cards.Insert :=
  imap (deck_card gameId A) cardsToCreate ++ imap (deck_card gameId B) cardsToCreate.

Definition initializeCards (gameId : string) : Task unit :=
  r <- await (cards_insert_select (allCards gameId)) ;;
  d <- check r ;;
  store_set (put_cards d).

(** ** [stores/game.ts]: actions *)

Definition createGame : Task Game :=
  finally
    (try_catch
       (store_set (put_isLoading true) ;;
        store_set (put_error None) ;;
        uid <- gets userId ;;
        r <- await (games_insert_single (games.mkInsert uid waiting (seat A) 4 4)) ;;
        d <- check r ;;
        store_set (put_currentGame (Some d)) ;;
        initializeBoard (games.id d) ;;
        initializeCards (games.id d) ;;
        subscribeToGame (games.id d) ;;
        ret d)
       (fun err =>
          store_set (put_error (Some (message_or err "Failed to create game"))) ;;
          toast (toast_error (message_or err "Failed to create game")) ;;
          throw err))
    (store_set (put_isLoading false)).

Definition NOT_LOGGED_IN : Exn := Error "You must be logged in to join a game".
Definition GAME_FULL : Exn := Error "This game is already full".
Definition NOT_YOUR_TURN : Exn := Error "It's not your turn".
Definition NO_GAME_OR_USER : Exn := Error "No active game or user not authenticated".

(** The object [joinGame] passes to [update]; [now] is
    [new Date().toISOString()]. *)
Definition join_patch (uid : option string) (now : string) (g : Game) : Game :=
  games.set_updated_at (Some now) (games.set_status playing (games.set_player_b uid g)).

Definition joinGame (now : string) (gameId : string) : Task Game :=
  finally
    (try_catch
       (uid <- gets userId ;;
        (if negb (truthy uid) then throw NOT_LOGGED_IN else ret tt) ;;
        store_set (put_isLoading true) ;;
        store_set (put_error None) ;;
        r <- await (games_select_single gameId) ;;
        game <- check r ;;
        (if truthy (games.player_a game) && truthy (games.player_b game)
         then throw GAME_FULL else ret tt) ;;
        r <- await (games_update_single gameId (join_patch uid now)) ;;
        updatedGame <- check r ;;
        store_set (put_currentGame (Some updatedGame)) ;;
        promise_all
          [fetchBoard gameId; fetchCards gameId; fetchMoves gameId; fetchPlayers gameId] ;;
        subscribeToGame gameId ;;
        ret updatedGame)
       (fun err =>
          store_set (put_error (Some (message_or err "Failed to join game"))) ;;
          toast (toast_error (message_or err "Failed to join game")) ;;
          throw err))
    (store_set (put_isLoading false)).

Definition makeMove (cardId : string) (toX toY : Z) : Task string :=
  finally
    (try_catch
       (s <- get ;;
        match currentGame (gameStore s) with
        | Some g =>
            if negb (isPlayerTurn s) then throw NOT_YOUR_TURN else
            store_set (put_isLoading true) ;;
            store_set (put_error None) ;;
            r <- await (functions_invoke_play_turn (userId s)
                          (mkBody (games.id g) cardId toX toY)) ;;
            d <- check r ;;
            ret d
        | None => throw NOT_YOUR_TURN
        end)
       (fun err =>
          store_set (put_error (Some (message_or err "Failed to make move"))) ;;
          toast (toast_error (message_or err "Failed to make move")) ;;
          throw err))
    (store_set (put_isLoading false)).

(** The object [forfeitGame] passes to [update]; [now1] and [now2] are its
    two readings of the clock. *)
Definition forfeit_patch (winner : Player) (now1 now2 : string) (g : Game) : Game :=
  games.set_updated_at (Some now2)
    (games.set_finished_at (Some now1)
      (games.set_winner (Some winner) (games.set_status finished g))).

Definition forfeitGame (now1 now2 : string) : Task unit :=
  try_catch
    (s <- get ;;
     match currentGame (gameStore s) with
     | Some g =>
         if negb (truthy (userId s)) then throw NO_GAME_OR_USER else
         let winner := if isPlayerA s then B else A in
         r <- await (games_update (games.id g) (forfeit_patch winner now1 now2)) ;;
         check r ;;
         toast (toast_info "You have forfeited the game")
     | None => throw NO_GAME_OR_USER
     end)
    (fun err =>
       store_set (put_error (Some (message_or err "Failed to forfeit game"))) ;;
       toast (toast_error (message_or err "Failed to forfeit game")) ;;
       throw err).

(** ** [stores/game.ts]: realtime handlers *)

(** The payload of a [postgres_changes] event, by its [eventType]. *)
Inductive Payload (T : Type) : Type :=
| INSERT (new : T)
| UPDATE (old new : T)
| DELETE (old : T).
Arguments INSERT {T} new.
Arguments UPDATE {T} old new.
Arguments DELETE {T} old.

(** [payload.new]: the new row; [{}] (here [None]) on a [DELETE]. *)
Definition payload_new {T : Type} (payload : Payload T) : option T :=
  match payload with
  | INSERT new | UPDATE _ new => Some new
  | DELETE _ => None
  end.

(** Handler of the [games] binding. *)
Definition on_games (payload : Payload Game) : Task unit :=
  match payload with
  | INSERT new | UPDATE _ new => store_set (put_currentGame (Some new))
  | DELETE _ => ret tt
  end.

(** Handlers of the [cells], [cards] and [moves] bindings; [gameId] is the
    variable of [subscribeToGame] they close over. *)
Definition on_cells (gameId : string) (payload : Payload Cell) : Task unit :=
  fetchBoard gameId.

Definition on_cards (gameId : string) (payload : Payload Card) : Task unit :=
  fetchCards gameId.

Definition on_moves (gameId : string) (payload : Payload Move) : Task unit :=
  fetchMoves gameId.

(** A change event as the channel delivers it. *)
Inductive Change : Type :=
| games_change (payload : Payload Game)
| cells_change (payload : Payload Cell)
| cards_change (payload : Payload Card)
| moves_change (payload : Payload Move).

(** Delivery to the bindings of the open subscription: [event: '*'] on
    games, cells and cards, [event: 'INSERT'] on moves. *)
Definition deliver (c : Change) : Task unit :=
  sub <- gets (fun s => subscription (gameStore s)) ;;
  match sub with
  | None => ret tt
  | Some ch =>
      match c with
      | games_change payload => on_games payload
      | cells_change payload => on_cells (channel_gameId ch) payload
      | cards_change payload => on_cards (channel_gameId ch) payload
      | moves_change (INSERT new) => on_moves (channel_gameId ch) (INSERT new)
      | moves_change _ => ret tt
      end
  end.

(** ** [components/game/GameBoard.vue] *)

Definition isInteractive (s : App) : bool :=
  interactive (gameBoard s) && isPlayerTurn s.

Definition resetDragState : Task unit :=
  board_set (put_isDragging false) ;;
  board_set (put_dragStartCell None) ;;
  board_set (put_dragEndCell None) ;;
  board_set (put_validMoves []).

Definition directions : list (Z * Z) :=
  [ (-1, -1); (0, -1); (1, -1);
    (-1, 0);           (1, 0);
    (-1, 1);  (0, 1);  (1, 1) ].

(** The candidate cells around [(fromX, fromY)]. *)
Definition candidates (s : App) (fromX fromY : Z) : list (Z * Z) :=
  flat_map (fun dir =>
    let x := fromX + fst dir in
    let y := fromY + snd dir in
    if (0 <=? x) && (x <? 9) && (0 <=? y) && (y <? 9) then
      match getCell s x y with
      | None => [(x, y)]
      | Some cell =>
          if bool_decide (cells.owner cell = none)
             || negb (bool_decide (Some (cells.owner cell) = currentPlayer s))
          then [(x, y)] else []
      end
    else []) directions.

Definition updateValidMoves (fromX fromY : Z) : Task unit :=
  s <- get ;;
  match currentGame (gameStore s) with
  | None => ret tt
  | Some _ => board_set (put_validMoves (candidates s fromX fromY))
  end.

(** [playCard] is started by [handleCellClick] and not awaited; nothing
    follows the call there, so its requests are sequenced in place. *)
Definition playCard (cardId : string) (x y : Z) : Task unit :=
  cur <- gets (fun s => currentGame (gameStore s)) ;;
  match cur with
  | None => ret tt
  | Some _ =>
      try_catch
        (makeMove cardId x y ;;
         board_set (put_selectedCard None) ;;
         toast (toast_success "Move made successfully"))
        (fun _ => toast (toast_error "Failed to make move"))
  end.

(** [validMoves.value.some(move => move.x === x && move.y === y)] *)
Definition isValidMove (s : App) (x y : Z) : bool :=
  existsb (fun move => Z.eqb (fst move) x && Z.eqb (snd move) y)
    (validMoves (gameBoard s)).

Definition handleCellClick (x y : Z) : Task unit :=
  s <- get ;;
  if negb (isInteractive s) then ret tt else
  if truthy (selectedCard (gameBoard s)) then
    playCard (default "" (selectedCard (gameBoard s))) x y
  else
    emit (cell_click x y) ;;
    s <- get ;;
    if isValidMove s x y then
      emit (move_made (dragStartCell (gameBoard s)) (x, y)) ;;
      resetDragState
    else
      board_set (put_dragStartCell (Some (x, y))) ;;
      updateValidMoves x y.

Definition handleCellHover (x y : Z) : Task unit :=
  board_set (put_hoveredCell (Some (x, y))) ;;
  emit (cell_hover x y) ;;
  s <- get ;;
  if isDragging (gameBoard s) && bool_decide (is_Some (dragStartCell (gameBoard s)))
  then board_set (put_dragEndCell (Some (x, y)))
  else ret tt.

Definition handleCellLeave : Task unit :=
  board_set (put_hoveredCell None) ;;
  emit cell_leave.

Definition handleMouseDown (x y : Z) : Task unit :=
  s <- get ;;
  if negb (isInteractive s) then ret tt else
  board_set (put_isDragging true) ;;
  board_set (put_dragStartCell (Some (x, y))) ;;
  board_set (put_dragEndCell None) ;;
  updateValidMoves x y.

Definition handleMouseUp (x y : Z) : Task unit :=
  s <- get ;;
  if negb (isDragging (gameBoard s)) then ret tt else
  board_set (put_isDragging false) ;;
  match dragStartCell (gameBoard s) with
  | Some (fromX, fromY) =>
      if negb (Z.eqb fromX x) || negb (Z.eqb fromY y) then
        if isValidMove s x y
        then emit (move_made (Some (fromX, fromY)) (x, y))
        else ret tt
      else ret tt
  | None => ret tt
  end ;;
  resetDragState.

Definition selectCard (cardId : string) : Task unit :=
  s <- get ;;
  board_set (put_selectedCard
    (if bool_decide (selectedCard (gameBoard s) = Some cardId) then None else Some cardId)) ;;
  board_set (put_validMoves []).

Definition arrowKeys : list string :=
  ["ArrowUp"; "ArrowDown"; "ArrowLeft"; "ArrowRight"].

(** The [switch (e.key)] of [handleKeyDown] on the hovered cell [(x, y)]. *)
Definition moveCursor (key : string) (x y : Z) : Task unit :=
  if String.eqb key "ArrowUp" then
    (if 0 <? y then board_set (put_hoveredCell (Some (x, y - 1))) else ret tt)
  else if String.eqb key "ArrowDown" then
    (if y <? 8 then board_set (put_hoveredCell (Some (x, y + 1))) else ret tt)
  else if String.eqb key "ArrowLeft" then
    (if 0 <? x then board_set (put_hoveredCell (Some (x - 1, y))) else ret tt)
  else if String.eqb key "ArrowRight" then
    (if x <? 8 then board_set (put_hoveredCell (Some (x + 1, y))) else ret tt)
  else ret tt.

(** The [keydown] listener; [key] is [e.key].  (Scrolling the hovered cell
    into view touches the document only.) *)
Definition handleKeyDown (key : string) : Task unit :=
  s <- get ;;
  if negb (isInteractive s) then ret tt else
  (if bool_decide (key ∈ arrowKeys) then
     match hoveredCell (gameBoard s) with
     | None => board_set (put_hoveredCell (Some (4, 4)))
     | Some (x, y) => moveCursor key x y
     end
   else ret tt) ;;
  s <- get ;;
  (if String.eqb key "Enter" then
     match hoveredCell (gameBoard s) with
     | Some (x, y) => handleCellClick x y
     | None => ret tt
     end
   else ret tt) ;;
  (if String.eqb key "Escape" then
     resetDragState ;;
     board_set (put_selectedCard None)
   else ret tt).

(** The watcher on [gameStore.currentGame]. *)
Definition watch_currentGame (newGame : option Game) : Task unit :=
  match newGame with
  | Some _ => resetDragState ;; board_set (put_selectedCard None)
  | None => ret tt
  end.

(** A mouse click on the cell [(x, y)] as the listeners of the cell
    receive it ([@mousedown], [@mouseup] and [@click] in the template):
    press, release and click, all on that cell. *)
Definition mouse_click (x y : Z) : Task unit :=
  handleMouseDown x y ;; handleMouseUp x y ;; handleCellClick x y.

Fixpoint mouse_clicks (cells : list (Z * Z)) : Task unit :=
  match cells with
  | [] => ret tt
  | (x, y) :: cells' => mouse_click x y ;; mouse_clicks cells'
  end.

(** ** [pages/GamePage.vue] *)

(** Listener of the board's [cell-click] event. *)
Definition GamePage_handleCellClick (coords : Z * Z) : Task unit :=
  s <- get ;;
  if negb (isPlayerTurn s) || negb (truthy (selectedCardId s)) then ret tt else
  try_catch
    (makeMove (default "" (selectedCardId s)) (fst coords) (snd coords) ;;
     modify (with_selectedCardId None) ;;
     toast (toast_success "Move made successfully"))
    (fun err => toast (toast_error (message_or err "Failed to make move"))).

Definition GamePage_selectCard (cardId : string) : Task unit :=
  s <- get ;;
  modify (with_selectedCardId
    (if bool_decide (selectedCardId s = Some cardId) then None else Some cardId)).

(** [isPlayer] and [isSpectator] of the page. *)
Definition isPlayer (s : App) : bool := isPlayerA s || isPlayerB s.

Definition isSpectator (s : App) : bool :=
  negb (isPlayer s) && bool_decide (is_Some (currentGame (gameStore s))).


(** [currentPlayerCards] and [opponentCards]: the two hands the page
    shows. *)
Definition currentPlayerCards (s : App) : list Card :=
  if isPlayerA s then getPlayerCards s A else getPlayerCards s B.

Definition opponentCards (s : App) : list Card :=
  if isPlayerA s then getPlayerCards s B else getPlayerCards s A.

(** ** [components/game/GameCard.vue] *)

Inductive CardEmit : Type :=
| card_select (cardId : string)
| card_play (cardId : string).

(** [handleClick] with the props [disabled] and [isPlayable]: what the
    card emits, if anything. *)
Definition GameCard_handleClick (disabled isPlayable : bool) (card : Card)
    : option CardEmit :=
  if disabled then None
  else if isPlayable then Some (card_play (cards.id card))
  else Some (card_select (cards.id card)).

(** A click on a card of the current player's hand as [GamePage.vue]
    mounts it: [:is-playable="gameStore.isPlayerTurn && isPlayer"],
    [:disabled="!gameStore.isPlayerTurn || !isPlayer"], and [selectCard]
    as the only listener, on [select]. *)
Definition GamePage_handCardClick (card : Card) : Task unit :=
  s <- get ;;
  match GameCard_handleClick (negb (isPlayerTurn s) || negb (isPlayer s))
          (isPlayerTurn s && isPlayer s) card with
  | Some (card_select cardId) => GamePage_selectCard cardId
  | Some (card_play _) => ret tt
  | None => ret tt
  end.

(** ** Observations and harness *)


(** The channel a started call asks to remove as its first request. *)
Definition first_removed {R : Type} (p : Proc R) : option Channel :=
  match p with
  | Await (removeChannel ch) _ => Some ch
  | _ => None
  end.

(** The eight neighbours of a cell (king's move). *)
Definition adjacent (fromX fromY x y : Z) : Prop :=
  Z.max (Z.abs (x - fromX)) (Z.abs (y - fromY)) = 1.

(** The controller is idle: no drag origin, no drag target, no highlighted
    cell, no selected card. *)
Definition idle (b : GameBoard) : Prop :=
  isDragging b = false /\ dragStartCell b = None /\ dragEndCell b = None
  /\ validMoves b = [] /\ selectedCard b = None.

(** The board after [resetDragState(); selectedCard.value = null]. *)
Definition escaped (b : GameBoard) : GameBoard :=
  mkGameBoard (interactive b) false None None (hoveredCell b) [] None (emitted b).

(** The keyboard cursor, when there is one, is a cell of the grid. *)
Definition cursor_in_grid (s : App) : Prop :=
  match hoveredCell (gameBoard s) with
  | Some (x, y) => 0 <= x <= 8 /\ 0 <= y <= 8
  | None => True
  end.

(** The cursor of an interactive board is at [c], inside the grid. *)
Definition cursor_at (s : App) (c : Z * Z) : Prop :=
  isInteractive s = true /\ hoveredCell (gameBoard s) = Some c
  /\ 0 <= c.1 <= 8 /\ 0 <= c.2 <= 8.

(** The spec's words for an arrow key: one step in its direction, clamped
    to the grid bounds [0,8] x [0,8]. *)
Definition clamped_step (key : string) (c : Z * Z) : Z * Z :=
  if String.eqb key "ArrowUp" then (c.1, Z.max 0 (c.2 - 1))
  else if String.eqb key "ArrowDown" then (c.1, Z.min 8 (c.2 + 1))
  else if String.eqb key "ArrowLeft" then (Z.max 0 (c.1 - 1), c.2)
  else if String.eqb key "ArrowRight" then (Z.min 8 (c.1 + 1), c.2)
  else c.

(** The cursor after a sequence of arrow keys on an interactive board, in
    the spec's words: every key is one clamped step of the cursor; a key
    pressed while there is no cursor puts it on the centre. *)
Fixpoint cursor_after (keys : list string) (cursor : option (Z * Z)) : option (Z * Z) :=
  match keys with
  | [] => cursor
  | key :: keys' =>
      cursor_after keys'
        (Some match cursor with
              | Some c => clamped_step key c
              | None => (4, 4)
              end)
  end.

(** The seat the signed-in user holds in the cached game. *)
Definition seat_of (s : App) : option Player :=
  if isPlayerA s then Some A else if isPlayerB s then Some B else None.

Definition opponent (p : Player) : Player :=
  match p with A => B | B => A end.

(** What distinguishes the cards of a deck: everything but the row id, the
    game and the owner. *)
Definition card_face (c : Card) : CardKind * option Z * option Z * option Z * option Z :=
  (cards.kind c, cards.dx c, cards.dy c, cards.steps c, cards.order_in_deck c).

Definition deck (p : Player) (l : list Card) : list Card :=
  filter (fun c => cards.owner c = Some p) l.

(** Every cell and card row refers to a row of [games] (the foreign keys
    of the schema). *)
Definition references_ok (db : Database) : Prop :=
  (forall c, c ∈ tbl_cells db -> cells.game_id c ∈ dom (tbl_games db))
  /\ (forall c, c ∈ tbl_cards db -> cards.game_id c ∈ dom (tbl_games db)).

Section Harness.
Variable play_turn : option string -> PlayTurnBody -> Database -> Response string * Database.
Variable games_default : Game.

(** Key presses handled one after the other, each to its end. *)
Fixpoint press_keys (keys : list string) (s : App) (db : Database) : App * Database :=
  match keys with
  | [] => (s, db)
  | key :: keys' =>
      let '(_, s', db') := run play_turn games_default (handleKeyDown key s) db in
      press_keys keys' s' db'
  end.

(** A task that only reads the backend and cannot fail. *)
Definition reads_only (t : Task unit) : Prop :=
  forall s db, exists s',
    run play_turn games_default (t s) db = (Return tt, s', db)
    /\ userId s' = userId s
    /\ currentGame (gameStore s') = currentGame (gameStore s)
    /\ gameBoard s' = gameBoard s
    /\ selectedCardId s' = selectedCardId s.

End Harness.

(** ** Sample data *)

Definition demo_play_turn (caller : option string) (body : PlayTurnBody) (db : Database)
    : Response string * Database :=
  (Err (FunctionsError "play-turn is not deployed"), db).

Definition demo_defaults : Game :=
  games.mk "" waiting "S1" None None none 0 0 (Some 0) (Some 0) None
    "2024-05-01T10:00:00.000Z" None None.

Definition empty_db : Database := mkDatabase ∅ [] [] [] [].

Definition new_store : GameStore := mkGameStore None [] [] [] ∅ false None None.

Definition new_board : GameBoard := mkGameBoard true false None None None [] None [].

(** A client just loaded, signed in as [u] (or signed out). *)
Definition client (u : option string) : App := mkApp u new_store new_board None [].

(** Alice's open game, waiting for an opponent. *)
Definition alice_game : Game :=
  games.mk "g1" waiting "S1" (Some "alice") None (seat A) 4 4 (Some 0) (Some 0) None
    "2024-05-01T10:00:00.000Z" None None.

Definition waiting_db : Database := mkDatabase {[ "g1" := alice_game ]} [] [] [] [].

(** Alice against Bob, Alice to move, score 3 : 2. *)
Definition running_game : Game :=
  games.mk "g1" playing "S1" (Some "alice") (Some "bob") (seat A) 4 4 (Some 3) (Some 2) None
    "2024-05-01T10:00:00.000Z" (Some "2024-05-01T10:01:00.000Z") None.

Definition running_db : Database := mkDatabase {[ "g1" := running_game ]} [] [] [] [].

(** The same game after Alice has forfeited: Bob has won. *)
Definition forfeited_game : Game :=
  games.mk "g1" finished "S1" (Some "alice") (Some "bob") (seat A) 4 4 (Some 3) (Some 2)
    (Some B) "2024-05-01T10:00:00.000Z" (Some "2024-05-01T10:05:00.000Z")
    (Some "2024-05-01T10:05:00.000Z").

Definition forfeited_db : Database := mkDatabase {[ "g1" := forfeited_game ]} [] [] [] [].

(** A client of [u] with [running_game] loaded and subscribed. *)
Definition viewer (u : string) : App :=
  mkApp (Some u)
    (mkGameStore (Some running_game) [] [] [] ∅ false None (Some (mkChannel "game:g1" "g1")))
    new_board None [].

(** Alice's client once the realtime update of her forfeit has arrived. *)
Definition alice_after_forfeit : App :=
  with_gameStore (put_currentGame (Some forfeited_game)) (viewer "alice").


(** Alice's client with the cursor in the top left corner. *)
Definition alice_in_corner : App :=
  with_gameBoard (put_hoveredCell (Some (0, 0))) (viewer "alice").

(** Alice's board while a drag is pending and the [interactive] prop has
    been switched off. *)
Definition stuck_drag : App :=
  with_gameBoard (fun _ => mkGameBoard false true (Some (1, 1)) None (Some (1, 1))
                            [(0, 0); (1, 0)] None [cell_click 1 1])
    (viewer "alice").

(** * Properties *)

(** ** Synchronous steps of a task *)

Lemma bind_get {U : Type} (f : App -> Task U) s : bind get f s = f s s.
Proof. reflexivity. Qed.

Lemma bind_gets {T U : Type} (g : App -> T) (f : T -> Task U) s :
  bind (gets g) f s = f (g s) s.
Proof. reflexivity. Qed.

Lemma bind_ret {T U : Type} (a : T) (f : T -> Task U) s : bind (ret a) f s = f a s.
Proof. reflexivity. Qed.

Lemma bind_modify {U : Type} (h : App -> App) (f : unit -> Task U) s :
  bind (modify h) f s = f tt (h s).
Proof. reflexivity. Qed.

Lemma bind_board_set {U : Type} (h : GameBoard -> GameBoard) (f : unit -> Task U) s :
  bind (board_set h) f s = f tt (with_gameBoard h s).
Proof. reflexivity. Qed.

Lemma isPlayerTurn_with_gameBoard h s :
  isPlayerTurn (with_gameBoard h s) = isPlayerTurn s.
Proof. reflexivity. Qed.


Lemma truthy_is_Some v : truthy v = true -> exists c, v = Some c /\ c <> "".
Proof.
  destruct v as [c|]; [|discriminate]. unfold truthy.
  destruct (String.eqb_spec c ""); [discriminate|]. eauto.
Qed.

Lemma isPlayerTurn_currentGame s :
  isPlayerTurn s = true -> exists g, currentGame (gameStore s) = Some g.
Proof.
  unfold isPlayerTurn. destruct (currentGame (gameStore s)); [eauto|discriminate].
Qed.

(** ** The first request of a call *)







Section Properties.
Context (play_turn : option string -> PlayTurnBody -> Database -> Response string * Database).
Context (games_default : Game).
Local Abbreviation run := (run play_turn games_default).
Local Abbreviation exec := (exec play_turn games_default).
Local Abbreviation interleave := (interleave play_turn games_default).
Local Abbreviation press_keys := (press_keys play_turn games_default).
Local Abbreviation reads_only := (reads_only play_turn games_default).

(** ** Running a task against the backend *)

Lemma run_proc_bind {R S : Type} (p : Proc R) (f : R -> Proc S) db :
  run (proc_bind p f) db = run (f (run p db).1) (run p db).2.
Proof.
  revert db. induction p as [r|X req k IH]; intros db; simpl; [reflexivity|].
  destruct (exec req db) as [x db']. apply IH.
Qed.

Lemma run_Done {R : Type} (r : R) db : run (Done r) db = (r, db).
Proof. reflexivity. Qed.

Lemma press_keys_cons key keys s db :
  press_keys (key :: keys) s db
  = press_keys keys (run (handleKeyDown key s) db).1.2 (run (handleKeyDown key s) db).2.
Proof.
  change (press_keys (key :: keys) s db)
    with (let '(_, s', db') := run (handleKeyDown key s) db in press_keys keys s' db').
  by destruct (run (handleKeyDown key s) db) as [[r s'] db'].
Qed.

Lemma run_bind {T U : Type} (m : Task T) (f : T -> Task U) s db :
  run (bind m f s) db =
  match run (m s) db with
  | (Return a, s', db') => run (f a s') db'
  | (Throw e, s', db') => (Throw e, s', db')
  end.
Proof.
  unfold bind. rewrite run_proc_bind.
  destruct (run (m s) db) as [[[a|e] s'] db']; reflexivity.
Qed.

Lemma run_attempt {T : Type} (m : Task T) s db :
  run (attempt m s) db =
  match run (m s) db with (r, s', db') => (Return r, s', db') end.
Proof.
  unfold attempt. rewrite run_proc_bind.
  destruct (run (m s) db) as [[r s'] db']; reflexivity.
Qed.

Lemma run_try_catch {T : Type} (body : Task T) handler s db :
  run (try_catch body handler s) db =
  match run (body s) db with
  | (Return a, s', db') => (Return a, s', db')
  | (Throw e, s', db') => run (handler e s') db'
  end.
Proof.
  unfold try_catch. rewrite run_bind, run_attempt.
  destruct (run (body s) db) as [[[a|e] s'] db']; reflexivity.
Qed.

Lemma run_finally {T : Type} (body : Task T) cleanup s db :
  run (finally body cleanup s) db =
  match run (body s) db with
  | (r, s', db') =>
      match run (cleanup s') db' with
      | (Return _, s'', db'') => (r, s'', db'')
      | (Throw e, s'', db'') => (Throw e, s'', db'')
      end
  end.
Proof.
  unfold finally. rewrite run_bind, run_attempt.
  destruct (run (body s) db) as [[r s'] db'].
  rewrite run_bind.
  destruct (run (cleanup s') db') as [[[a|e] s''] db'']; [|reflexivity].
  destruct r; reflexivity.
Qed.

Lemma run_await {X : Type} (req : Request X) s db :
  run (await req s) db = ((Return (exec req db).1, s), (exec req db).2).
Proof. unfold await. simpl. destruct (exec req db); reflexivity. Qed.

Lemma run_ret {T : Type} (a : T) s db : run (ret a s) db = (Return a, s, db).
Proof. reflexivity. Qed.

Lemma run_throw {T : Type} e s db : run (@throw T e s) db = (Throw e, s, db).
Proof. reflexivity. Qed.

Lemma run_get s db : run (get s) db = (Return s, s, db).
Proof. reflexivity. Qed.

Lemma run_gets {T : Type} (f : App -> T) s db : run (gets f s) db = (Return (f s), s, db).
Proof. reflexivity. Qed.

Lemma run_modify f s db : run (modify f s) db = (Return tt, f s, db).
Proof. reflexivity. Qed.

Lemma run_store_set f s db : run (store_set f s) db = (Return tt, with_gameStore f s, db).
Proof. reflexivity. Qed.

Lemma run_board_set f s db : run (board_set f s) db = (Return tt, with_gameBoard f s, db).
Proof. reflexivity. Qed.

Lemma run_toast t s db : run (toast t s) db = (Return tt, with_toast t s, db).
Proof. reflexivity. Qed.

Lemma run_check {T : Type} (r : Response T) s db :
  run (check r s) db = (match r with Data d => Return d | Err e => Throw e end, s, db).
Proof. destruct r; reflexivity. Qed.

Ltac run_step :=
  first
    [ rewrite run_bind | rewrite run_try_catch | rewrite run_finally
    | rewrite run_await | rewrite run_get | rewrite run_gets | rewrite run_store_set
    | rewrite run_board_set | rewrite run_toast | rewrite run_modify
    | rewrite run_ret | rewrite run_throw | rewrite run_check ];
  cbv beta iota.

Lemma run_fetchBoard gameId s db :
  run (fetchBoard gameId s) db
  = (Return tt, with_gameStore (put_board (cells_of gameId (tbl_cells db))) s, db).
Proof. unfold fetchBoard. repeat run_step. reflexivity. Qed.

Lemma run_fetchCards gameId s db :
  run (fetchCards gameId s) db
  = (Return tt,
     with_gameStore (put_cards (merge_sort deck_le (cards_of gameId (tbl_cards db)))) s, db).
Proof. unfold fetchCards. repeat run_step. reflexivity. Qed.

Lemma run_fetchMoves gameId s db :
  run (fetchMoves gameId s) db
  = (Return tt,
     with_gameStore (put_moves (merge_sort created_le (moves_of gameId (tbl_moves db)))) s, db).
Proof. unfold fetchMoves. repeat run_step. reflexivity. Qed.

Lemma reads_only_fetchBoard gameId : reads_only (fetchBoard gameId).
Proof. intros s db. rewrite run_fetchBoard. eexists. split; [reflexivity|]. by cbn. Qed.

Lemma reads_only_fetchCards gameId : reads_only (fetchCards gameId).
Proof. intros s db. rewrite run_fetchCards. eexists. split; [reflexivity|]. by cbn. Qed.

Lemma reads_only_fetchMoves gameId : reads_only (fetchMoves gameId).
Proof. intros s db. rewrite run_fetchMoves. eexists. split; [reflexivity|]. by cbn. Qed.

Lemma reads_only_fetchPlayers gameId : reads_only (fetchPlayers gameId).
Proof.
  intros s db. unfold fetchPlayers. repeat run_step.
  destruct (currentGame (gameStore s)) as [g|] eqn:Hg.
  - repeat run_step. eexists. split; [reflexivity|]. by cbn.
  - repeat run_step. eexists. split; [reflexivity|]. by cbn.
Qed.

Lemma reads_only_subscribeToGame gameId : reads_only (subscribeToGame gameId).
Proof.
  intros s db. unfold subscribeToGame. repeat run_step.
  destruct (subscription (gameStore s)) as [ch|].
  - repeat run_step. eexists. split; [reflexivity|]. by cbn.
  - repeat run_step. eexists. split; [reflexivity|]. by cbn.
Qed.

Lemma reads_only_promise_all ts : Forall reads_only ts -> reads_only (promise_all ts).
Proof.
  induction 1 as [|t ts Ht _ IH]; intros s db.
  - exists s. by cbn.
  - cbn [promise_all]. rewrite run_bind, run_attempt.
    destruct (Ht s db) as (s1 & -> & ? & ? & ? & ?).
    rewrite run_bind, run_attempt.
    destruct (IH s1 db) as (s2 & -> & ? & ? & ? & ?).
    rewrite run_ret. exists s2. repeat split; congruence.
Qed.

(** ** joinGame *)

Lemma reads_only_joinGame_fetches gameId :
  reads_only (promise_all
    [fetchBoard gameId; fetchCards gameId; fetchMoves gameId; fetchPlayers gameId]).
Proof.
  apply reads_only_promise_all.
  repeat constructor; auto using reads_only_fetchBoard, reads_only_fetchCards,
    reads_only_fetchMoves, reads_only_fetchPlayers.
Qed.

Lemma run_joinGame_full now gameId s db g :
  truthy (userId s) = true ->
  tbl_games db !! gameId = Some g ->
  truthy (games.player_a g) && truthy (games.player_b g) = true ->
  run (joinGame now gameId s) db
  = (Throw GAME_FULL,
     with_gameStore (put_isLoading false)
       (with_toast (toast_error "This game is already full")
          (with_gameStore (put_error (Some "This game is already full"))
             (with_gameStore (put_error None) (with_gameStore (put_isLoading true) s)))),
     db).
Proof.
  intros Hu Hg Hfull. unfold joinGame.
  repeat run_step. rewrite Hu. cbv [negb]. repeat run_step.
  cbn [exec]. rewrite Hg. cbn [fst snd]. repeat run_step.
  rewrite Hfull. repeat run_step. reflexivity.
Qed.

Lemma run_joinGame_open now gameId s db g :
  truthy (userId s) = true ->
  tbl_games db !! gameId = Some g ->
  truthy (games.player_a g) && truthy (games.player_b g) = false ->
  exists s',
    run (joinGame now gameId s) db
    = (Return (join_patch (userId s) now g), s',
       with_games (<[gameId := join_patch (userId s) now g]> (tbl_games db)) db)
    /\ userId s' = userId s
    /\ currentGame (gameStore s') = Some (join_patch (userId s) now g).
Proof.
  intros Hu Hg Hfull. unfold joinGame.
  repeat run_step. rewrite Hu. cbv [negb]. repeat run_step.
  cbn [exec]. rewrite Hg. cbn [fst snd]. repeat run_step.
  rewrite Hfull. repeat run_step.
  cbn [exec]. rewrite Hg. cbn [fst snd]. repeat run_step.
  match goal with
  | |- context [run (promise_all ?ts ?s0) ?db0] =>
      destruct (reads_only_joinGame_fetches gameId s0 db0) as (s1 & -> & Hu1 & Hc1 & _ & _)
  end.
  cbv beta iota. repeat run_step.
  destruct (reads_only_subscribeToGame gameId s1
              (with_games (<[gameId := join_patch (userId s) now g]> (tbl_games db)) db))
    as (s2 & -> & Hu2 & Hc2 & _ & _).
  cbv beta iota. repeat run_step.
  cbn in Hu1, Hc1. eexists. split; [reflexivity|]. cbn. split; congruence.
Qed.

(** C4. For a signed-in joiner and a session the store holds: when both
    seats are filled, [joinGame] throws "This game is already full" (the
    conflict error of the store) and writes nothing; otherwise it puts the
    joiner into seat B and sets the status to [playing], and the turn
    owner and the crown position (as every column but [player_b],
    [status], [updated_at]) stay as they were. *)
Theorem joinGame_full_or_seats_B now gameId s db g :
  truthy (userId s) = true ->
  tbl_games db !! gameId = Some g ->
  if truthy (games.player_a g) && truthy (games.player_b g)
  then exists s', run (joinGame now gameId s) db = (Throw GAME_FULL, s', db)
  else exists s' g',
    run (joinGame now gameId s) db
    = (Return g', s', with_games (<[gameId := g']> (tbl_games db)) db)
    /\ currentGame (gameStore s') = Some g'
    /\ games.player_b g' = userId s
    /\ games.status g' = playing
    /\ games.turn g' = games.turn g
    /\ games.crown_x g' = games.crown_x g
    /\ games.crown_y g' = games.crown_y g
    /\ games.player_a g' = games.player_a g
    /\ games.score_a g' = games.score_a g
    /\ games.score_b g' = games.score_b g
    /\ games.winner g' = games.winner g.
Proof.
  intros Hu Hg.
  destruct (truthy (games.player_a g) && truthy (games.player_b g)) eqn:Hfull.
  - rewrite (run_joinGame_full now gameId s db g Hu Hg Hfull). by eexists.
  - destruct (run_joinGame_open now gameId s db g Hu Hg Hfull) as (s' & E & _ & Hc).
    exists s', (join_patch (userId s) now g). by rewrite E.
Qed.

(** ** makeMove *)

(** C5. When the caller does not hold the turn ([isPlayerTurn] is false,
    which includes having no game loaded), [makeMove] throws "It's not
    your turn" before any request: the call finishes at once, the backend
    is as it was, and the cached session, board, cards and moves, the
    board component and the page's selected card are unchanged (only the
    store's [error] and [isLoading] refs and the toasts are written). *)
Theorem makeMove_out_of_turn cardId toX toY s :
  isPlayerTurn s = false ->
  exists s',
    makeMove cardId toX toY s = Done (Throw NOT_YOUR_TURN, s')
    /\ (forall db, run (makeMove cardId toX toY s) db = (Throw NOT_YOUR_TURN, s', db))
    /\ currentGame (gameStore s') = currentGame (gameStore s)
    /\ board (gameStore s') = board (gameStore s)
    /\ cards (gameStore s') = cards (gameStore s)
    /\ moves (gameStore s') = moves (gameStore s)
    /\ players (gameStore s') = players (gameStore s)
    /\ subscription (gameStore s') = subscription (gameStore s)
    /\ gameBoard s' = gameBoard s
    /\ selectedCardId s' = selectedCardId s
    /\ userId s' = userId s.
Proof.
  intros Hturn.
  assert (exists s', makeMove cardId toX toY s = Done (Throw NOT_YOUR_TURN, s')
    /\ s' = with_gameStore (put_isLoading false)
              (with_toast (toast_error "It's not your turn")
                 (with_gameStore (put_error (Some "It's not your turn")) s)))
    as (s' & E & ->).
  { unfold makeMove, finally, try_catch, attempt, bind, get. cbn.
    destruct (currentGame (gameStore s)) as [g|]; [rewrite Hturn|]; cbn;
      eexists; split; reflexivity. }
  eexists. split; [exact E|]. split; [intros db; by rewrite E|]. by cbn.
Qed.

(** ** The board controller *)




(** Without a card of its own selected, an interactive board forwards
    every click as a [cell-click] event, before it looks at the highlight
    set. *)
Lemma handleCellClick_emits_click x y s :
  isInteractive s = true ->
  selectedCard (gameBoard s) = None ->
  exists s' rest,
    handleCellClick x y s = Done (Return tt, s')
    /\ emitted (gameBoard s') = (emitted (gameBoard s) ++ cell_click x y :: rest)%list.
Proof.
  intros Hi Hc. unfold handleCellClick.
  rewrite bind_get, Hi, Hc. cbn [negb truthy].
  unfold emit at 1. rewrite bind_board_set, bind_get.
  match goal with |- context [isValidMove ?s1 x y] => destruct (isValidMove s1 x y) end.
  - eexists _, [_]. split; [reflexivity|].
    cbn [emitted gameBoard with_gameBoard put_emitted put_validMoves put_dragEndCell
         put_dragStartCell put_isDragging].
    by rewrite <- app_assoc.
  - rewrite bind_board_set. unfold updateValidMoves. rewrite bind_get.
    cbn [currentGame gameStore with_gameBoard].
    destruct (currentGame (gameStore s)); eexists _, []; split; reflexivity.
Qed.


Lemma handleKeyDown_not_interactive key s :
  isInteractive s = false -> handleKeyDown key s = Done (Return tt, s).
Proof. intros Hi. unfold handleKeyDown. rewrite bind_get, Hi. reflexivity. Qed.

Lemma handleKeyDown_Escape s :
  isInteractive s = true ->
  handleKeyDown "Escape" s = Done (Return tt, with_gameBoard escaped s).
Proof.
  intros Hi. unfold handleKeyDown. rewrite bind_get, Hi. reflexivity.
Qed.

(** C8 (amended). Pressing Escape while the board is interactive (the
    [interactive] prop is set and it is the viewer's turn) resets the
    controller to idle: drag origin, drag target and highlight set are
    cleared and the selected card is deselected, the rest of the client
    is untouched; while the board is not interactive, Escape changes
    nothing. *)
Theorem escape_resets_when_interactive s :
  exists s',
    handleKeyDown "Escape" s = Done (Return tt, s')
    /\ if isInteractive s
       then idle (gameBoard s')
            /\ hoveredCell (gameBoard s') = hoveredCell (gameBoard s)
            /\ interactive (gameBoard s') = interactive (gameBoard s)
            /\ emitted (gameBoard s') = emitted (gameBoard s)
            /\ gameStore s' = gameStore s
            /\ selectedCardId s' = selectedCardId s
            /\ userId s' = userId s
            /\ toasts s' = toasts s
       else s' = s.
Proof.
  destruct (isInteractive s) eqn:Hi.
  - rewrite (handleKeyDown_Escape s Hi). eexists. split; [reflexivity|].
    unfold idle. by cbn.
  - rewrite (handleKeyDown_not_interactive _ s Hi). by eexists.
Qed.

(** C8 as stated fails: with a drag pending and the board not
    interactive, Escape leaves the drag origin and the highlight set in
    place. *)
Lemma escape_ignored_when_not_interactive :
  ~ (forall s, exists s',
       handleKeyDown "Escape" s = Done (Return tt, s') /\ idle (gameBoard s')).
Proof.
  intros H. destruct (H stuck_drag) as (s' & E & Hidle & _).
  rewrite handleKeyDown_not_interactive in E by reflexivity.
  injection E as <-. discriminate Hidle.
Qed.

Lemma isInteractive_ext s s' :
  gameStore s' = gameStore s ->
  userId s' = userId s ->
  interactive (gameBoard s') = interactive (gameBoard s) ->
  isInteractive s' = isInteractive s.
Proof.
  intros H1 H2 H3. unfold isInteractive, isPlayerTurn, isPlayerA, isPlayerB.
  by rewrite H1, H2, H3.
Qed.

Lemma moveCursor_clamped key x y s :
  key ∈ arrowKeys ->
  0 <= x <= 8 -> 0 <= y <= 8 ->
  hoveredCell (gameBoard s) = Some (x, y) ->
  exists s',
    moveCursor key x y s = Done (Return tt, s')
    /\ gameStore s' = gameStore s
    /\ userId s' = userId s
    /\ interactive (gameBoard s') = interactive (gameBoard s)
    /\ hoveredCell (gameBoard s') = Some (clamped_step key (x, y)).
Proof.
  intros Hkey Hx Hy Hc. unfold arrowKeys in Hkey.
  repeat (apply elem_of_cons in Hkey as [->|Hkey]); [..|by apply elem_of_nil in Hkey];
    unfold moveCursor, clamped_step; cbn [String.eqb Ascii.eqb Bool.eqb fst snd].
  - destruct (Z.ltb_spec 0 y).
    + eexists. split; [reflexivity|]. cbn. repeat split. do 2 f_equal. lia.
    + exists s. repeat split; try done. rewrite Hc. do 2 f_equal. lia.
  - destruct (Z.ltb_spec y 8).
    + eexists. split; [reflexivity|]. cbn. repeat split. do 2 f_equal. lia.
    + exists s. repeat split; try done. rewrite Hc. do 2 f_equal. lia.
  - destruct (Z.ltb_spec 0 x).
    + eexists. split; [reflexivity|]. cbn. repeat split. do 2 f_equal. lia.
    + exists s. repeat split; try done. rewrite Hc. do 2 f_equal. lia.
  - destruct (Z.ltb_spec x 8).
    + eexists. split; [reflexivity|]. cbn. repeat split. do 2 f_equal. lia.
    + exists s. repeat split; try done. rewrite Hc. do 2 f_equal. lia.
Qed.

Lemma clamped_step_in_grid key x y :
  0 <= x <= 8 -> 0 <= y <= 8 ->
  0 <= (clamped_step key (x, y)).1 <= 8 /\ 0 <= (clamped_step key (x, y)).2 <= 8.
Proof.
  intros Hx Hy. unfold clamped_step.
  repeat match goal with |- context [if ?b then _ else _] => destruct b end;
    cbn [fst snd]; lia.
Qed.

Lemma arrow_not_Enter_Escape key :
  key ∈ arrowKeys -> String.eqb key "Enter" = false /\ String.eqb key "Escape" = false.
Proof.
  unfold arrowKeys. intros Hkey.
  repeat (apply elem_of_cons in Hkey as [->|Hkey]); [..|by apply elem_of_nil in Hkey];
    by split.
Qed.

(** An arrow key on an interactive board: a missing cursor starts at the
    centre, a cursor inside the grid takes one clamped step. *)
Lemma handleKeyDown_arrow key s :
  key ∈ arrowKeys ->
  isInteractive s = true ->
  cursor_in_grid s ->
  exists s',
    handleKeyDown key s = Done (Return tt, s')
    /\ isInteractive s' = true
    /\ hoveredCell (gameBoard s')
       = Some (match hoveredCell (gameBoard s) with
               | None => (4, 4)
               | Some c => clamped_step key c
               end).
Proof.
  intros Hkey Hi Hgrid.
  destruct (arrow_not_Enter_Escape key Hkey) as [HEnter HEsc].
  unfold handleKeyDown. rewrite bind_get, Hi. cbn [negb].
  rewrite (bool_decide_eq_true_2 _ Hkey).
  unfold cursor_in_grid in Hgrid.
  destruct (hoveredCell (gameBoard s)) as [[x y]|] eqn:Hc.
  - destruct Hgrid as [Hx Hy].
    destruct (moveCursor_clamped key x y s Hkey Hx Hy Hc) as (s' & E & H1 & H2 & H3 & H4).
    unfold bind at 1. rewrite E. cbn [proc_bind].
    rewrite bind_get, HEnter, bind_ret, HEsc.
    exists s'. split; [reflexivity|]. split; [|exact H4].
    by rewrite (isInteractive_ext s s').
  - rewrite bind_board_set, bind_get, HEnter, bind_ret, HEsc.
    eexists. split; [reflexivity|]. split; [exact Hi|reflexivity].
Qed.

Lemma handleKeyDown_arrow_in_grid key s :
  key ∈ arrowKeys ->
  cursor_in_grid s ->
  exists s', handleKeyDown key s = Done (Return tt, s') /\ cursor_in_grid s'.
Proof.
  intros Hkey Hgrid. destruct (isInteractive s) eqn:Hi.
  - destruct (handleKeyDown_arrow key s Hkey Hi Hgrid) as (s' & E & _ & Hc).
    exists s'. split; [exact E|]. unfold cursor_in_grid in *. rewrite Hc.
    destruct (hoveredCell (gameBoard s)) as [[x y]|].
    + destruct Hgrid as [Hx Hy].
      destruct (clamped_step key (x, y)) as [x' y'] eqn:E'.
      pose proof (clamped_step_in_grid key x y Hx Hy) as Hin. by rewrite E' in Hin.
    + lia.
  - exists s. split; [by apply handleKeyDown_not_interactive|exact Hgrid].
Qed.

(** C9. Whatever sequence of arrow keys is pressed, a cursor that is
    inside the grid [0,8] x [0,8] (or not yet set) stays inside it, and
    the backend is not touched.  On an interactive board every key moves
    the cursor by one step clamped to the bounds (the first key putting a
    missing cursor on the centre), so the cursor ends where the clamped
    steps lead; a board that is not interactive leaves the cursor where
    it is. *)
Theorem arrow_keys_keep_cursor_in_grid keys s db :
  Forall (fun key => key ∈ arrowKeys) keys ->
  cursor_in_grid s ->
  cursor_in_grid (press_keys keys s db).1
  /\ (press_keys keys s db).2 = db
  /\ hoveredCell (gameBoard (press_keys keys s db).1)
     = (if isInteractive s then cursor_after keys (hoveredCell (gameBoard s))
        else hoveredCell (gameBoard s)).
Proof.
  intros Hkeys. revert s. induction Hkeys as [|key keys Hkey _ IH]; intros s Hgrid.
  - cbn. split; [exact Hgrid|]. split; [reflexivity|]. by destruct (isInteractive s).
  - destruct (handleKeyDown_arrow_in_grid key s Hkey Hgrid) as (s' & E & Hgrid').
    rewrite press_keys_cons, E, run_Done.
    destruct (IH s' Hgrid') as (H1 & H2 & H3).
    split; [exact H1|]. split; [exact H2|]. etrans; [exact H3|].
    destruct (isInteractive s) eqn:Hi.
    + destruct (handleKeyDown_arrow key s Hkey Hi Hgrid) as (s'' & E' & Hi' & Hc).
      rewrite E in E'. injection E' as <-.
      rewrite Hi', Hc. cbn [cursor_after].
      by destruct (hoveredCell (gameBoard s)).
    + rewrite (handleKeyDown_not_interactive key s Hi) in E. injection E as <-.
      by rewrite Hi.
Qed.

(** ** Realtime events *)

(** C7 (amended). On an open subscription: an INSERT or UPDATE event of
    the session row replaces the cached session wholesale by the new row
    of the payload; a DELETE event of the session row leaves the cache as
    it is; every cell event and every card event, whatever its payload,
    re-fetches all cells (all cards, in deck order) of the subscribed
    session; a move insertion re-fetches the move log. *)
Theorem realtime_events_replace_or_refetch c s db ch :
  subscription (gameStore s) = Some ch ->
  run (deliver c s) db =
  (Return tt,
   match c with
   | games_change (INSERT new) | games_change (UPDATE _ new) =>
       with_gameStore (put_currentGame (Some new)) s
   | games_change (DELETE _) => s
   | cells_change _ =>
       with_gameStore (put_board (cells_of (channel_gameId ch) (tbl_cells db))) s
   | cards_change _ =>
       with_gameStore
         (put_cards (merge_sort deck_le (cards_of (channel_gameId ch) (tbl_cards db)))) s
   | moves_change (INSERT _) =>
       with_gameStore
         (put_moves (merge_sort created_le (moves_of (channel_gameId ch) (tbl_moves db)))) s
   | moves_change _ => s
   end,
   db).
Proof.
  intros Hsub. unfold deliver. rewrite run_bind, run_gets, Hsub.
  destruct c as [[]|p|p|[]]; reflexivity.
Qed.

(** ** forfeitGame *)

Lemma run_forfeitGame now1 now2 s db g :
  currentGame (gameStore s) = Some g ->
  truthy (userId s) = true ->
  run (forfeitGame now1 now2 s) db
  = (Return tt,
     with_toast (toast_info "You have forfeited the game") s,
     with_games
       (alter (forfeit_patch (if isPlayerA s then B else A) now1 now2) (games.id g)
          (tbl_games db)) db).
Proof.
  intros Hg Hu. unfold forfeitGame.
  rewrite run_try_catch, run_bind, run_get, Hg, Hu. cbn [negb].
  repeat run_step. reflexivity.
Qed.

Lemma seat_of_opponent s p :
  seat_of s = Some p -> (if isPlayerA s then B else A) = opponent p.
Proof.
  unfold seat_of. destruct (isPlayerA s); [by intros [= <-]|].
  destruct (isPlayerB s); [by intros [= <-]|discriminate].
Qed.

(** A forfeit and its repeat by the same caller.  For a seated, signed-in
    caller whose client holds the playing session, the first
    [forfeitGame] finalizes the session with status [finished], the
    opposing seat as winner and the time of the call as finish timestamp.
    A later call by the same caller, the cache now holding the finished
    row, is not rejected either: it returns normally, keeps status,
    winner and score, and writes the finish timestamp again. *)
Lemma forfeit_then_forfeit_again now1 now2 later1 later2 s db g p :
  currentGame (gameStore s) = Some g ->
  truthy (userId s) = true ->
  seat_of s = Some p ->
  tbl_games db !! games.id g = Some g ->
  games.status g = playing ->
  exists s1 db1 row1,
    run (forfeitGame now1 now2 s) db = (Return tt, s1, db1)
    /\ tbl_games db1 !! games.id g = Some row1
    /\ games.status row1 = finished
    /\ games.winner row1 = Some (opponent p)
    /\ games.finished_at row1 = Some now1
    /\ games.score_a row1 = games.score_a g
    /\ games.score_b row1 = games.score_b g
    /\ exists s2 db2 row2,
         run (forfeitGame later1 later2 (with_gameStore (put_currentGame (Some row1)) s1)) db1
         = (Return tt, s2, db2)
         /\ tbl_games db2 !! games.id g = Some row2
         /\ games.status row2 = finished
         /\ games.winner row2 = games.winner row1
         /\ games.score_a row2 = games.score_a row1
         /\ games.score_b row2 = games.score_b row1
         /\ games.finished_at row2 = Some later1.
Proof.
  intros Hg Hu Hseat Hrow Hplaying.
  rewrite (run_forfeitGame now1 now2 s db g Hg Hu), (seat_of_opponent s p Hseat).
  set (row1 := forfeit_patch (opponent p) now1 now2 g).
  do 2 eexists. exists row1. split; [reflexivity|].
  cbn [tbl_games with_games].
  split; [by rewrite lookup_alter_eq, Hrow|].
  do 5 (split; [reflexivity|]).
  set (s1 := with_gameStore (put_currentGame (Some row1))
               (with_toast (toast_info "You have forfeited the game") s)).
  assert (Hseat1 : seat_of s1 = Some p).
  { unfold seat_of, isPlayerA, isPlayerB in *. cbn.
    by rewrite Hg in Hseat. }
  rewrite (run_forfeitGame later1 later2 s1 _ row1 eq_refl Hu),
    (seat_of_opponent s1 p Hseat1).
  do 2 eexists. exists (forfeit_patch (opponent p) later1 later2 row1).
  split; [reflexivity|]. cbn [tbl_games with_games].
  split; [|done].
  change (games.id row1) with (games.id g).
  by rewrite !lookup_alter_eq, Hrow.
Qed.

(** ** createGame *)

Lemma run_subscribeToGame gameId s db :
  run (subscribeToGame gameId s) db
  = (Return tt,
     with_gameStore (put_subscription (Some (mkChannel ("game:" ++ gameId) gameId))) s, db).
Proof.
  unfold subscribeToGame. rewrite run_bind, run_gets, run_bind.
  destruct (subscription (gameStore s)) as [ch|]; reflexivity.
Qed.

Lemma run_createGame s db :
  let i := fresh (dom (tbl_games db)) in
  let g := insert_row games_default i (games.mkInsert (userId s) waiting (seat A) 4 4) in
  let new := zip_with cards.with_id
               (fresh_list (length (allCards i)) (card_ids (tbl_cards db))) (allCards i) in
  exists s',
    run (createGame s) db
    = (Return g, s',
       mkDatabase (<[i := g]> (tbl_games db)) (tbl_cells db ++ initialCells i)
         (tbl_cards db ++ new) (tbl_moves db) (tbl_profiles db))
    /\ currentGame (gameStore s') = Some g
    /\ board (gameStore s') = initialCells i
    /\ cards (gameStore s') = new.
Proof.
  intros i g new. unfold createGame.
  rewrite run_finally, run_try_catch. repeat run_step.
  cbn [exec fst snd]. repeat run_step.
  unfold initializeBoard. repeat run_step. cbn [exec fst snd]. repeat run_step.
  unfold initializeCards. repeat run_step. cbn [exec fst snd]. repeat run_step.
  rewrite run_subscribeToGame. cbv beta iota. repeat run_step.
  eexists. split; [reflexivity|]. repeat split; reflexivity.
Qed.

Lemma filter_none_of {T : Type} (P : T -> Prop) `{!forall x, Decision (P x)} (l : list T) :
  (forall x, x ∈ l -> ~ P x) -> filter P l = [].
Proof.
  induction l as [|a l IH]; intros Hn; [done|].
  rewrite filter_cons_False by (apply Hn; left).
  apply IH. intros x Hx. apply Hn. by right.
Qed.

Lemma filter_all_of {T : Type} (P : T -> Prop) `{!forall x, Decision (P x)} (l : list T) :
  (forall x, x ∈ l -> P x) -> filter P l = l.
Proof.
  induction l as [|a l IH]; intros Ha; [done|].
  rewrite filter_cons_True by (apply Ha; left).
  f_equal. apply IH. intros x Hx. apply Ha. by right.
Qed.

Lemma all_of_replicate {T U : Type} (f : T -> U) (l : list T) n u x :
  f <$> l = replicate n u -> x ∈ l -> f x = u.
Proof.
  intros E Hx. apply (list_elem_of_fmap_2 f) in Hx. rewrite E in Hx.
  by apply elem_of_replicate in Hx as [-> _].
Qed.

Lemma initialCells_game_id gameId :
  cells.game_id <$> initialCells gameId = replicate 81 gameId.
Proof. reflexivity. Qed.

Lemma initialCells_length gameId : length (initialCells gameId) = 81%nat.
Proof. reflexivity. Qed.

Lemma initialCells_one_per_coordinate gameId x y :
  0 <= x <= 8 -> 0 <= y <= 8 ->
  length (filter (fun c => cells.x c = x /\ cells.y c = y) (initialCells gameId)) = 1%nat.
Proof.
  intros Hx Hy.
  assert (x = 0 \/ x = 1 \/ x = 2 \/ x = 3 \/ x = 4 \/ x = 5 \/ x = 6 \/ x = 7 \/ x = 8)
    as Ex by lia.
  assert (y = 0 \/ y = 1 \/ y = 2 \/ y = 3 \/ y = 4 \/ y = 5 \/ y = 6 \/ y = 7 \/ y = 8)
    as Ey by lia.
  clear Hx Hy.
  repeat (destruct Ex as [->|Ex]); try subst x;
    repeat (destruct Ey as [->|Ey]); try subst y; vm_compute; reflexivity.
Qed.

Lemma initialCells_owned gameId :
  filter (fun c => cells.owner c <> none) (initialCells gameId)
  = [cells.mk gameId 4 4 (seat A)].
Proof. vm_compute. reflexivity. Qed.

Lemma allCards_length gameId : length (allCards gameId) = 20%nat.
Proof. reflexivity. Qed.

(** The twenty inserted cards, whatever ids the backend gives them. *)
Lemma new_cards_decks gameId (ids : list string) :
  length ids = 20%nat ->
  let new := zip_with cards.with_id ids (allCards gameId) in
  cards.game_id <$> new = replicate 20 gameId
  /\ cards.is_used <$> new = replicate 20 false
  /\ length (deck A new) = 10%nat
  /\ length (deck B new) = 10%nat
  /\ card_face <$> deck A new = card_face <$> deck B new
  /\ (deck A new ++ deck B new)%list = new.
Proof.
  intros Hlen.
  do 20 (destruct ids as [|? ids]; [discriminate Hlen|]).
  destruct ids; [|discriminate Hlen].
  repeat split; vm_compute; reflexivity.
Qed.

Lemma fresh_game_id_unreferenced db :
  references_ok db ->
  (forall c, c ∈ tbl_cells db -> cells.game_id c <> fresh (dom (tbl_games db)))
  /\ (forall c, c ∈ tbl_cards db -> cards.game_id c <> fresh (dom (tbl_games db))).
Proof.
  intros [Hcells Hcards].
  split; intros c Hc E; apply (is_fresh (dom (tbl_games db))); rewrite <- E; auto.
Qed.

(** [createGame] never looks at the identity: seat A of the new session is
    whatever [authStore.userId] holds, [null] included. *)
Lemma createGame_ignores_identity s db :
  exists g s' db',
    run (createGame s) db = (Return g, s', db') /\ games.player_a g = userId s.
Proof.
  destruct (run_createGame s db) as (s' & E & _).
  eexists _, s', _. split; [exact E|reflexivity].
Qed.

(** C6. For a backend whose cell and card rows all refer to existing
    games, [createGame] returns a session for which the store then holds
    exactly 81 cells, one for each coordinate pair of [0,8] x [0,8], of
    which exactly one is owned: the centre (4,4), by seat A; and twenty
    cards, none used, ten for each side, the two decks having the same
    composition (kind, direction, steps and deck position).  The client's
    board and cards are these rows. *)
Theorem createGame_board_and_decks s db :
  references_ok db ->
  exists g s' db',
    run (createGame s) db = (Return g, s', db')
    /\ tbl_games db' !! games.id g = Some g
    /\ let cs := cells_of (games.id g) (tbl_cells db') in
       let ds := cards_of (games.id g) (tbl_cards db') in
       length cs = 81%nat
       /\ (forall x y, 0 <= x <= 8 -> 0 <= y <= 8 ->
             length (filter (fun c => cells.x c = x /\ cells.y c = y) cs) = 1%nat)
       /\ filter (fun c => cells.owner c <> none) cs = [cells.mk (games.id g) 4 4 (seat A)]
       /\ board (gameStore s') = cs
       /\ length (deck A ds) = 10%nat
       /\ length (deck B ds) = 10%nat
       /\ card_face <$> deck A ds = card_face <$> deck B ds
       /\ (deck A ds ++ deck B ds)%list = ds
       /\ (forall c, c ∈ ds -> cards.is_used c = false)
       /\ cards (gameStore s') = ds.
Proof.
  intros Hrefs.
  destruct (run_createGame s db) as (s' & E & _ & Hboard & Hcards).
  destruct (fresh_game_id_unreferenced db Hrefs) as [Hcells_old Hcards_old].
  set (i := fresh (dom (tbl_games db))) in *.
  set (g := insert_row games_default i (games.mkInsert (userId s) waiting (seat A) 4 4)) in *.
  set (new := zip_with cards.with_id
                (fresh_list (length (allCards i)) (card_ids (tbl_cards db))) (allCards i)) in *.
  assert (Hid : games.id g = i) by reflexivity.
  destruct (new_cards_decks i (fresh_list (length (allCards i)) (card_ids (tbl_cards db))))
    as (Hgid & Hused & HA & HB & Hfaces & Hsplit).
  { by rewrite length_fresh_list. }
  fold new in Hgid, Hused, HA, HB, Hfaces, Hsplit.
  assert (Hcs : cells_of i (tbl_cells db ++ initialCells i) = initialCells i).
  { unfold cells_of. rewrite filter_app, filter_none_of, filter_all_of; [done| |done].
    intros c Hc. exact (all_of_replicate _ _ _ _ _ (initialCells_game_id i) Hc). }
  assert (Hds : cards_of i (tbl_cards db ++ new) = new).
  { unfold cards_of. rewrite filter_app, filter_none_of, filter_all_of; [done| |done].
    intros c Hc. exact (all_of_replicate _ _ _ _ _ Hgid Hc). }
  eexists g, s', _. split; [exact E|].
  cbn [tbl_games tbl_cells tbl_cards]. rewrite Hid.
  split; [by rewrite lookup_insert_eq|].
  cbv zeta. rewrite Hcs, Hds.
  split; [apply initialCells_length|].
  split; [apply initialCells_one_per_coordinate|].
  split; [apply initialCells_owned|].
  split; [exact Hboard|].
  do 4 (split; [assumption|]).
  split; [|exact Hcards].
  intros c Hc. exact (all_of_replicate _ _ _ _ _ Hused Hc).
Qed.

End Properties.

(** ** The properties at the sample data *)

Lemma joinGame_full_or_seats_B_witness :
  truthy (userId (client (Some "bob"))) = true
  /\ tbl_games waiting_db !! "g1" = Some alice_game
  /\ exists s' g',
       run demo_play_turn demo_defaults
         (joinGame "2024-05-01T10:01:00.000Z" "g1" (client (Some "bob"))) waiting_db
       = (Return g', s', with_games (<["g1" := g']> (tbl_games waiting_db)) waiting_db)
       /\ currentGame (gameStore s') = Some g'
       /\ games.player_b g' = Some "bob"
       /\ games.status g' = playing
       /\ games.turn g' = seat A
       /\ games.crown_x g' = 4
       /\ games.crown_y g' = 4
       /\ games.player_a g' = Some "alice"
       /\ games.score_a g' = Some 0
       /\ games.score_b g' = Some 0
       /\ games.winner g' = None.
Proof.
  split; [reflexivity|]. split; [reflexivity|].
  exact (joinGame_full_or_seats_B demo_play_turn demo_defaults
           "2024-05-01T10:01:00.000Z" "g1" (client (Some "bob")) waiting_db alice_game
           eq_refl eq_refl).
Defined.

Lemma makeMove_out_of_turn_witness :
  isPlayerTurn (viewer "bob") = false
  /\ exists s',
       makeMove "c1" 3 4 (viewer "bob") = Done (Throw NOT_YOUR_TURN, s')
       /\ (forall db, run demo_play_turn demo_defaults (makeMove "c1" 3 4 (viewer "bob")) db
                     = (Throw NOT_YOUR_TURN, s', db))
       /\ currentGame (gameStore s') = currentGame (gameStore (viewer "bob"))
       /\ board (gameStore s') = board (gameStore (viewer "bob"))
       /\ cards (gameStore s') = cards (gameStore (viewer "bob"))
       /\ moves (gameStore s') = moves (gameStore (viewer "bob"))
       /\ players (gameStore s') = players (gameStore (viewer "bob"))
       /\ subscription (gameStore s') = subscription (gameStore (viewer "bob"))
       /\ gameBoard s' = gameBoard (viewer "bob")
       /\ selectedCardId s' = selectedCardId (viewer "bob")
       /\ userId s' = userId (viewer "bob").
Proof.
  split; [reflexivity|].
  exact (makeMove_out_of_turn demo_play_turn demo_defaults "c1" 3 4 (viewer "bob") eq_refl).
Defined.

Lemma createGame_board_and_decks_witness :
  references_ok waiting_db
  /\ exists g s' db',
       run demo_play_turn demo_defaults (createGame (client (Some "bob"))) waiting_db
       = (Return g, s', db')
       /\ tbl_games db' !! games.id g = Some g
       /\ let cs := cells_of (games.id g) (tbl_cells db') in
          let ds := cards_of (games.id g) (tbl_cards db') in
          length cs = 81%nat
          /\ (forall x y, 0 <= x <= 8 -> 0 <= y <= 8 ->
                length (filter (fun c => cells.x c = x /\ cells.y c = y) cs) = 1%nat)
          /\ filter (fun c => cells.owner c <> none) cs = [cells.mk (games.id g) 4 4 (seat A)]
          /\ board (gameStore s') = cs
          /\ length (deck A ds) = 10%nat
          /\ length (deck B ds) = 10%nat
          /\ card_face <$> deck A ds = card_face <$> deck B ds
          /\ (deck A ds ++ deck B ds)%list = ds
          /\ (forall c, c ∈ ds -> cards.is_used c = false)
          /\ cards (gameStore s') = ds.
Proof.
  assert (Hrefs : references_ok waiting_db).
  { split; intros c Hc; cbn in Hc; by apply elem_of_nil in Hc. }
  split; [exact Hrefs|].
  exact (createGame_board_and_decks demo_play_turn demo_defaults
           (client (Some "bob")) waiting_db Hrefs).
Defined.

Lemma arrow_keys_keep_cursor_in_grid_witness :
  Forall (fun key => key ∈ arrowKeys) ["ArrowUp"; "ArrowLeft"; "ArrowLeft"; "ArrowDown"]
  /\ cursor_in_grid alice_in_corner
  /\ cursor_in_grid
       (press_keys demo_play_turn demo_defaults
          ["ArrowUp"; "ArrowLeft"; "ArrowLeft"; "ArrowDown"] alice_in_corner running_db).1
  /\ (press_keys demo_play_turn demo_defaults
        ["ArrowUp"; "ArrowLeft"; "ArrowLeft"; "ArrowDown"] alice_in_corner running_db).2
     = running_db
  /\ hoveredCell
       (gameBoard
          (press_keys demo_play_turn demo_defaults
             ["ArrowUp"; "ArrowLeft"; "ArrowLeft"; "ArrowDown"] alice_in_corner running_db).1)
     = Some (0, 1).
Proof.
  assert (Hkeys : Forall (fun key => key ∈ arrowKeys)
                    ["ArrowUp"; "ArrowLeft"; "ArrowLeft"; "ArrowDown"]).
  { repeat constructor. }
  assert (Hgrid : cursor_in_grid alice_in_corner).
  { cbn. lia. }
  split; [exact Hkeys|]. split; [exact Hgrid|].
  exact (arrow_keys_keep_cursor_in_grid demo_play_turn demo_defaults
           ["ArrowUp"; "ArrowLeft"; "ArrowLeft"; "ArrowDown"] alice_in_corner running_db
           Hkeys Hgrid).
Defined.


Lemma forfeit_then_forfeit_again_witness :
  currentGame (gameStore (viewer "alice")) = Some running_game
  /\ truthy (userId (viewer "alice")) = true
  /\ seat_of (viewer "alice") = Some A
  /\ tbl_games running_db !! games.id running_game = Some running_game
  /\ games.status running_game = playing
  /\ exists s1 db1 row1,
       run demo_play_turn demo_defaults
         (forfeitGame "2024-05-01T10:05:00.000Z" "2024-05-01T10:05:00.001Z" (viewer "alice"))
         running_db
       = (Return tt, s1, db1)
       /\ tbl_games db1 !! "g1" = Some row1
       /\ games.status row1 = finished
       /\ games.winner row1 = Some B
       /\ games.finished_at row1 = Some "2024-05-01T10:05:00.000Z"
       /\ games.score_a row1 = Some 3
       /\ games.score_b row1 = Some 2
       /\ exists s2 db2 row2,
            run demo_play_turn demo_defaults
              (forfeitGame "2024-05-01T10:09:00.000Z" "2024-05-01T10:09:00.001Z"
                 (with_gameStore (put_currentGame (Some row1)) s1)) db1
            = (Return tt, s2, db2)
            /\ tbl_games db2 !! "g1" = Some row2
            /\ games.status row2 = finished
            /\ games.winner row2 = games.winner row1
            /\ games.score_a row2 = games.score_a row1
            /\ games.score_b row2 = games.score_b row1
            /\ games.finished_at row2 = Some "2024-05-01T10:09:00.000Z".
Proof.
  do 5 (split; [reflexivity|]).
  exact (forfeit_then_forfeit_again demo_play_turn demo_defaults
           "2024-05-01T10:05:00.000Z" "2024-05-01T10:05:00.001Z"
           "2024-05-01T10:09:00.000Z" "2024-05-01T10:09:00.001Z"
           (viewer "alice") running_db running_game A
           eq_refl eq_refl eq_refl eq_refl eq_refl).
Defined.

Lemma realtime_events_replace_or_refetch_witness :
  subscription (gameStore (viewer "bob")) = Some (mkChannel "game:g1" "g1")
  /\ run demo_play_turn demo_defaults
       (deliver (games_change (UPDATE running_game forfeited_game)) (viewer "bob")) forfeited_db
     = (Return tt, with_gameStore (put_currentGame (Some forfeited_game)) (viewer "bob"),
        forfeited_db)
  /\ run demo_play_turn demo_defaults
       (deliver (cells_change (DELETE (cells.mk "g1" 0 0 none))) (viewer "bob")) forfeited_db
     = (Return tt, with_gameStore (put_board (cells_of "g1" (tbl_cells forfeited_db)))
                     (viewer "bob"),
        forfeited_db).
Proof.
  split; [reflexivity|]. split.
  - exact (realtime_events_replace_or_refetch demo_play_turn demo_defaults
             (games_change (UPDATE running_game forfeited_game)) (viewer "bob") forfeited_db
             (mkChannel "game:g1" "g1") eq_refl).
  - exact (realtime_events_replace_or_refetch demo_play_turn demo_defaults
             (cells_change (DELETE (cells.mk "g1" 0 0 none))) (viewer "bob") forfeited_db
             (mkChannel "game:g1" "g1") eq_refl).
Defined.

(** ** Where the code departs from the specification *)

(** A [forfeitGame] on a session that is already finished, in the store
    and in the caller's cache, is not rejected. *)
Lemma forfeit_of_finished_session_is_not_rejected :
  ~ (forall now1 now2 s db g,
       currentGame (gameStore s) = Some g ->
       truthy (userId s) = true ->
       tbl_games db !! games.id g = Some g ->
       games.status g = finished ->
       exists e s',
         run demo_play_turn demo_defaults (forfeitGame now1 now2 s) db = (Throw e, s', db)).
Proof.
  intros H.
  destruct (H "2024-05-01T10:09:00.000Z" "2024-05-01T10:09:00.001Z"
              alice_after_forfeit forfeited_db forfeited_game
              eq_refl eq_refl eq_refl eq_refl) as (e & s' & E).
  rewrite (run_forfeitGame demo_play_turn demo_defaults _ _ alice_after_forfeit
             forfeited_db forfeited_game eq_refl eq_refl) in E.
  discriminate E.
Qed.

(** A forfeit by the other seat, whose cache holds the finished row, is
    not rejected either, and replaces the recorded winner. *)
Lemma forfeit_by_other_seat_replaces_winner :
  match run demo_play_turn demo_defaults
          (forfeitGame "2024-05-01T10:09:00.000Z" "2024-05-01T10:09:00.001Z"
             (with_gameStore (put_currentGame (Some forfeited_game)) (viewer "bob")))
          forfeited_db
  with
  | (Return _, _, db') =>
      games.winner <$> tbl_games forfeited_db !! "g1" = Some (Some B)
      /\ games.winner <$> tbl_games db' !! "g1" = Some (Some A)
  | (Throw _, _, _) => False
  end.
Proof. vm_compute. by split. Qed.

(** C2, at the failing input: Alice (seat A) forfeits the running
    session, which ends [finished] with Bob (seat B) as winner.  Bob's
    client still holds the playing row, so the page's gate on the cached
    status offers him the forfeit; [forfeitGame] writes by id without
    looking at the stored status.  His call on the now-finished session
    returns normally with the success toast, and the recorded winner is
    replaced by A, the finish timestamp by the time of the later call. *)
Theorem stale_forfeit_replaces_winner :
  match run demo_play_turn demo_defaults
          (forfeitGame "2024-05-01T10:05:00.000Z" "2024-05-01T10:05:00.001Z"
             (viewer "alice")) running_db
  with
  | (Return _, _, db1) =>
      games.status <$> tbl_games db1 !! "g1" = Some finished
      /\ games.winner <$> tbl_games db1 !! "g1" = Some (Some B)
      /\ games.finished_at <$> tbl_games db1 !! "g1" = Some (Some "2024-05-01T10:05:00.000Z")
      /\ isPlayer (viewer "bob") = true
      /\ gameStatus (viewer "bob") = playing
      /\ match run demo_play_turn demo_defaults
                 (forfeitGame "2024-05-01T10:09:00.000Z" "2024-05-01T10:09:00.001Z"
                    (viewer "bob")) db1
         with
         | (Return _, s_bob, db2) =>
             games.status <$> tbl_games db2 !! "g1" = Some finished
             /\ games.winner <$> tbl_games db2 !! "g1" = Some (Some A)
             /\ games.finished_at <$> tbl_games db2 !! "g1"
                = Some (Some "2024-05-01T10:09:00.000Z")
             /\ toasts s_bob = [toast_info "You have forfeited the game"]
         | (Throw _, _, _) => False
         end
  | (Throw _, _, _) => False
  end.
Proof. vm_compute. repeat split. Qed.

(** C7 as stated fails: a DELETE event of the session row does not
    replace the cached session by the payload's (empty) new row. *)
Lemma session_delete_event_keeps_cache :
  ~ (forall payload s ch,
       subscription (gameStore s) = Some ch ->
       exists s',
         deliver (games_change payload) s = Done (Return tt, s')
         /\ currentGame (gameStore s') = payload_new payload).
Proof.
  intros H.
  destruct (H (DELETE running_game) (viewer "bob") (mkChannel "game:g1" "g1") eq_refl)
    as (s' & E & Hcache).
  change (deliver (games_change (DELETE running_game)) (viewer "bob"))
    with (Done (Return tt, viewer "bob")) in E.
  injection E as <-. discriminate Hcache.
Qed.

(** C1, at the failing schedule: Bob and Carol both join Alice's waiting
    game, each fetching the session before the other has written.  Both
    calls return normally; the store ends with Carol in seat B while Bob's
    client holds a session with Bob in seat B. *)
Theorem concurrent_joins_both_succeed :
  match interleave demo_play_turn demo_defaults [true; false]
          (joinGame "2024-05-01T10:01:00.000Z" "g1" (client (Some "bob")))
          (joinGame "2024-05-01T10:01:00.002Z" "g1" (client (Some "carol")))
          waiting_db
  with
  | ((Return g_bob, s_bob), (Return g_carol, s_carol), db') =>
      games.player_b g_bob = Some "bob"
      /\ games.status g_bob = playing
      /\ currentGame (gameStore s_bob) = Some g_bob
      /\ games.player_b g_carol = Some "carol"
      /\ games.status g_carol = playing
      /\ currentGame (gameStore s_carol) = Some g_carol
      /\ tbl_games db' !! "g1" = Some g_carol
  | _ => False
  end.
Proof. vm_compute. repeat split. Qed.

(** The same two joins one after the other: the second is rejected. *)
Lemma sequential_joins_second_rejected :
  match interleave demo_play_turn demo_defaults []
          (joinGame "2024-05-01T10:01:00.000Z" "g1" (client (Some "bob")))
          (joinGame "2024-05-01T10:01:00.002Z" "g1" (client (Some "carol")))
          waiting_db
  with
  | ((Return g_bob, _), (Throw e, _), db') =>
      e = GAME_FULL /\ tbl_games db' !! "g1" = Some g_bob
      /\ games.player_b g_bob = Some "bob"
  | _ => False
  end.
Proof. vm_compute. repeat split. Qed.

(** C3, at the failing input: [createGame] of a signed-out client on the
    empty store returns normally; the store then holds a waiting session
    whose seat A is empty, with its 81 cells and 20 cards. *)
Theorem createGame_signed_out_creates_session :
  match run demo_play_turn demo_defaults (createGame (client None)) empty_db with
  | (Return g, s', db') =>
      games.player_a g = None
      /\ games.status g = waiting
      /\ tbl_games db' !! games.id g = Some g
      /\ length (tbl_cells db') = 81%nat
      /\ length (tbl_cards db') = 20%nat
      /\ currentGame (gameStore s') = Some g
      /\ error (gameStore s') = None
      /\ toasts s' = []
  | (Throw _, _, _) => False
  end.
Proof. vm_compute. repeat split. Qed.

(** * Further properties of the store, the board and the page *)

Section StoreProperties.
Context (play_turn : option string -> PlayTurnBody -> Database -> Response string * Database).
Context (games_default : Game).
Local Abbreviation run := (run play_turn games_default).
Local Abbreviation exec := (exec play_turn games_default).

Ltac run_step :=
  first
    [ rewrite run_bind | rewrite run_try_catch | rewrite run_finally
    | rewrite run_await | rewrite run_get | rewrite run_gets | rewrite run_store_set
    | rewrite run_board_set | rewrite run_toast | rewrite run_modify
    | rewrite run_ret | rewrite run_throw | rewrite run_check ];
  cbv beta iota.

(** ** joinGame: guards *)

Lemma run_joinGame_signed_out now gameId s :
  truthy (userId s) = false ->
  joinGame now gameId s
  = Done (Throw NOT_LOGGED_IN,
          with_gameStore (put_isLoading false)
            (with_toast (toast_error "You must be logged in to join a game")
               (with_gameStore
                  (put_error (Some "You must be logged in to join a game")) s))).
Proof.
  intros Hu. unfold joinGame, finally, try_catch, attempt, bind, gets. cbn.
  rewrite Hu. reflexivity.
Qed.

(** X1. A signed-out client cannot join: [joinGame] throws "You must be
    logged in to join a game" before any request is sent, so the backend
    is as it was; on the client only the [error] ref, the toasts and
    [isLoading] (set to false) are written. *)
Theorem joinGame_signed_out now gameId s :
  truthy (userId s) = false ->
  exists s',
    joinGame now gameId s = Done (Throw NOT_LOGGED_IN, s')
    /\ (forall db, run (joinGame now gameId s) db = (Throw NOT_LOGGED_IN, s', db))
    /\ error (gameStore s') = Some "You must be logged in to join a game"
    /\ isLoading (gameStore s') = false
    /\ toasts s' = (toasts s ++ [toast_error "You must be logged in to join a game"])%list
    /\ currentGame (gameStore s') = currentGame (gameStore s)
    /\ board (gameStore s') = board (gameStore s)
    /\ cards (gameStore s') = cards (gameStore s)
    /\ moves (gameStore s') = moves (gameStore s)
    /\ subscription (gameStore s') = subscription (gameStore s)
    /\ gameBoard s' = gameBoard s.
Proof.
  intros Hu. pose proof (run_joinGame_signed_out now gameId s Hu) as E.
  eexists. split; [exact E|]. split; [intros db; by rewrite E|].
  repeat split; reflexivity.
Qed.

Lemma run_joinGame_unknown now gameId s db :
  truthy (userId s) = true ->
  tbl_games db !! gameId = None ->
  run (joinGame now gameId s) db
  = (Throw (PostgrestError NO_ROW),
     with_gameStore (put_isLoading false)
       (with_toast (toast_error NO_ROW)
          (with_gameStore (put_error (Some NO_ROW))
             (with_gameStore (put_error None) (with_gameStore (put_isLoading true) s)))),
     db).
Proof.
  intros Hu Hg. unfold joinGame.
  repeat run_step. rewrite Hu. cbv [negb]. repeat run_step.
  cbn [exec]. rewrite Hg. cbn [fst snd]. repeat run_step. reflexivity.
Qed.

(** X2. Joining a session the store does not hold: the call throws the
    error of [.single()], the store is as it was, no session is cached
    and nothing is subscribed; [isLoading] ends false and the error
    message is shown. *)
Theorem joinGame_unknown_session now gameId s db :
  truthy (userId s) = true ->
  tbl_games db !! gameId = None ->
  exists s',
    run (joinGame now gameId s) db = (Throw (PostgrestError NO_ROW), s', db)
    /\ error (gameStore s') = Some NO_ROW
    /\ isLoading (gameStore s') = false
    /\ toasts s' = (toasts s ++ [toast_error NO_ROW])%list
    /\ currentGame (gameStore s') = currentGame (gameStore s)
    /\ board (gameStore s') = board (gameStore s)
    /\ cards (gameStore s') = cards (gameStore s)
    /\ subscription (gameStore s') = subscription (gameStore s).
Proof.
  intros Hu Hg. rewrite (run_joinGame_unknown now gameId s db Hu Hg).
  eexists. split; [reflexivity|]. repeat split; reflexivity.
Qed.

(** ** fetchPlayers *)

Lemma players_map_lookup (d : list profiles.Row) (m0 : gmap string profiles.Row) id p :
  foldl (fun m player => <[profiles.id player := player]> m) m0 d !! id = Some p ->
  m0 !! id = Some p \/ (p ∈ d /\ profiles.id p = id).
Proof.
  revert m0. induction d as [|q d IH]; intros m0 H; [by left|].
  cbn [foldl] in H. apply IH in H as [H|[H1 H2]].
  - destruct (decide (profiles.id q = id)) as [E|E].
    + rewrite E, lookup_insert_eq in H. injection H as ->. right. split; [left|exact E].
    + rewrite lookup_insert_ne in H by exact E. by left.
  - right. split; [by right|exact H2].
Qed.

Lemma players_map_keeps (d : list profiles.Row) (m0 : gmap string profiles.Row) k :
  is_Some (m0 !! k) ->
  is_Some (foldl (fun m player => <[profiles.id player := player]> m) m0 d !! k).
Proof.
  revert m0. induction d as [|q d IH]; intros m0 H; [exact H|].
  cbn [foldl]. apply IH. apply lookup_insert_is_Some.
  destruct (decide (profiles.id q = k)); [by left|by right].
Qed.

Lemma players_map_covers (d : list profiles.Row) (m0 : gmap string profiles.Row) p :
  p ∈ d ->
  is_Some (foldl (fun m player => <[profiles.id player := player]> m) m0 d
             !! profiles.id p).
Proof.
  revert m0. induction d as [|q d IH]; intros m0 Hp; [by apply elem_of_nil in Hp|].
  cbn [foldl]. apply elem_of_cons in Hp as [->|Hp]; [|by apply IH].
  apply players_map_keeps. rewrite lookup_insert_eq. by eexists.
Qed.

Lemma truthy_seats (pa pb : option string) id :
  id ∈ omap (fun p : option string => if truthy p then p else None) [pa; pb]
  <-> (pa = Some id \/ pb = Some id) /\ id <> "".
Proof.
  assert (Hone : forall p : option string,
             (if truthy p then p else None) = Some id <-> p = Some id /\ id <> "").
  { intros [c|]; cbn; [|split; [discriminate|by intros [? _]]].
    destruct (String.eqb_spec c ""); cbn.
    - split; [discriminate|]. intros [[= ->] ?]. contradiction.
    - split; [intros [= ->]; by split|by intros [? _]]. }
  rewrite list_elem_of_omap. split.
  - intros (p & Hp & E). apply Hone in E as [-> Hne].
    split; [|exact Hne].
    apply elem_of_cons in Hp as [->|Hp]; [by left|].
    apply elem_of_cons in Hp as [->|Hp]; [by right|by apply elem_of_nil in Hp].
  - intros [[->| ->] Hne].
    + exists (Some id). split; [left|by apply Hone].
    + exists (Some id). split; [right; left|by apply Hone].
Qed.

Lemma run_fetchPlayers_exact gameId s db g :
  currentGame (gameStore s) = Some g ->
  run (fetchPlayers gameId s) db
  = (Return tt,
     with_gameStore
       (put_players
          (foldl (fun m player => <[profiles.id player := player]> m) ∅
             (filter
                (fun p => profiles.id p ∈
                   omap (fun p : option string => if truthy p then p else None)
                     [games.player_a g; games.player_b g])
                (tbl_profiles db)))) s,
     db).
Proof.
  intros Hg. unfold fetchPlayers. rewrite run_bind, run_gets, Hg. repeat run_step.
  cbn [exec fst snd]. repeat run_step. reflexivity.
Qed.

(** X3. [fetchPlayers] ignores its argument and works from the cached
    session: without one it sends no request and changes nothing; with one
    it loads the profiles of the filled seats, and the [players] map then
    holds, under each id, a profile of the store with that id whose id is
    a filled (non-empty) seat of the cached session, and has an entry for
    every such profile. *)
Theorem fetchPlayers_loads_seated gameId s db :
  match currentGame (gameStore s) with
  | None => fetchPlayers gameId s = Done (Return tt, s)
  | Some g =>
      exists pm,
        run (fetchPlayers gameId s) db = (Return tt, with_gameStore (put_players pm) s, db)
        /\ (forall id p, pm !! id = Some p ->
              profiles.id p = id /\ p ∈ tbl_profiles db /\ id <> ""
              /\ (games.player_a g = Some id \/ games.player_b g = Some id))
        /\ (forall p, p ∈ tbl_profiles db -> profiles.id p <> "" ->
              games.player_a g = Some (profiles.id p)
              \/ games.player_b g = Some (profiles.id p) ->
              is_Some (pm !! profiles.id p))
  end.
Proof.
  destruct (currentGame (gameStore s)) as [g|] eqn:Hg.
  - eexists. split; [by apply run_fetchPlayers_exact|]. split.
    + intros id p Hp. apply players_map_lookup in Hp as [Hp|[Hp Hid]].
      { by rewrite lookup_empty in Hp. }
      apply list_elem_of_filter in Hp as [Hin Hp]. rewrite Hid in Hin.
      apply truthy_seats in Hin as [Hseat Hne]. by repeat split.
    + intros p Hp Hne Hseat. apply players_map_covers.
      apply list_elem_of_filter. split; [|exact Hp].
      apply truthy_seats. by split.
  - unfold fetchPlayers. by rewrite bind_gets, Hg.
Qed.

(** ** joinGame: what a successful join leaves on the client *)

Lemma run_promise_all_cons t rest s db s1 db1 :
  run (t s) db = (Return tt, s1, db1) ->
  run (promise_all (t :: rest) s) db = run (promise_all rest s1) db1.
Proof.
  intros H. cbn [promise_all]. rewrite run_bind, run_attempt, H. cbv beta iota.
  rewrite run_bind, run_attempt.
  by destruct (run (promise_all rest s1) db1) as [[[[]|e] s2] db2].
Qed.

(** The client and the store after a successful [joinGame], in full. *)
Lemma run_joinGame_success now gameId s db g :
  truthy (userId s) = true ->
  tbl_games db !! gameId = Some g ->
  truthy (games.player_a g) && truthy (games.player_b g) = false ->
  exists pm,
    run (joinGame now gameId s) db
    = (Return (join_patch (userId s) now g),
       with_gameStore (put_isLoading false)
         (with_gameStore
            (put_subscription (Some (mkChannel ("game:" ++ gameId) gameId)))
            (with_gameStore (put_players pm)
               (with_gameStore
                  (put_moves (merge_sort created_le (moves_of gameId (tbl_moves db))))
                  (with_gameStore
                     (put_cards (merge_sort deck_le (cards_of gameId (tbl_cards db))))
                     (with_gameStore (put_board (cells_of gameId (tbl_cells db)))
                        (with_gameStore
                           (put_currentGame (Some (join_patch (userId s) now g)))
                           (with_gameStore (put_error None)
                              (with_gameStore (put_isLoading true) s)))))))),
       with_games (<[gameId := join_patch (userId s) now g]> (tbl_games db)) db).
Proof.
  intros Hu Hg Hfull. unfold joinGame.
  repeat run_step. rewrite Hu. cbv [negb]. repeat run_step.
  cbn [exec]. rewrite Hg. cbn [fst snd]. repeat run_step.
  rewrite Hfull. repeat run_step.
  cbn [exec]. rewrite Hg. cbn [fst snd]. repeat run_step.
  erewrite run_promise_all_cons by apply run_fetchBoard.
  erewrite run_promise_all_cons by apply run_fetchCards.
  erewrite run_promise_all_cons by apply run_fetchMoves.
  erewrite run_promise_all_cons
    by (apply (run_fetchPlayers_exact _ _ _ (join_patch (userId s) now g)); reflexivity).
  cbn [promise_all]. rewrite run_ret.
  cbv beta iota. repeat run_step.
  rewrite run_subscribeToGame. cbv beta iota. repeat run_step.
  eexists. reflexivity.
Qed.

Lemma isPlayerB_seated s1 (u : option string) g' :
  userId s1 = u ->
  truthy u = true ->
  currentGame (gameStore s1) = Some g' ->
  games.player_b g' = u ->
  isPlayerB s1 = true.
Proof.
  intros E1 Hu E2 E3. unfold isPlayerB. rewrite E2, E1, Hu, E3. cbn.
  by rewrite bool_decide_eq_true_2.
Qed.

(** What the page and the other actions need of a successful join. *)
Lemma joinGame_success_view now gameId s db g :
  truthy (userId s) = true ->
  tbl_games db !! gameId = Some g ->
  truthy (games.player_a g) && truthy (games.player_b g) = false ->
  exists s',
    run (joinGame now gameId s) db
    = (Return (join_patch (userId s) now g), s',
       with_games (<[gameId := join_patch (userId s) now g]> (tbl_games db)) db)
    /\ userId s' = userId s
    /\ currentGame (gameStore s') = Some (join_patch (userId s) now g)
    /\ isPlayerB s' = true
    /\ toasts s' = toasts s
    /\ board (gameStore s') = cells_of gameId (tbl_cells db)
    /\ cards (gameStore s') = merge_sort deck_le (cards_of gameId (tbl_cards db)).
Proof.
  intros Hu Hg Hfull.
  destruct (run_joinGame_success now gameId s db g Hu Hg Hfull) as [pm E].
  eexists. split; [exact E|]. split; [reflexivity|]. split; [reflexivity|].
  split; [by eapply isPlayerB_seated|]. repeat split; reflexivity.
Qed.

(** X4. A successful [joinGame] leaves the caller seated: the client then
    caches the updated session, counts as player B (never as spectator),
    holds all cells, cards (in deck order) and moves (in time order) the
    store has for the session, is subscribed to the session's channel, and
    has [isLoading] false, no error and no new toast. *)
Theorem joinGame_loads_session now gameId s db g :
  truthy (userId s) = true ->
  tbl_games db !! gameId = Some g ->
  truthy (games.player_a g) && truthy (games.player_b g) = false ->
  exists s',
    run (joinGame now gameId s) db
    = (Return (join_patch (userId s) now g), s',
       with_games (<[gameId := join_patch (userId s) now g]> (tbl_games db)) db)
    /\ currentGame (gameStore s') = Some (join_patch (userId s) now g)
    /\ isPlayerB s' = true
    /\ isPlayer s' = true
    /\ isSpectator s' = false
    /\ board (gameStore s') = cells_of gameId (tbl_cells db)
    /\ cards (gameStore s') = merge_sort deck_le (cards_of gameId (tbl_cards db))
    /\ moves (gameStore s') = merge_sort created_le (moves_of gameId (tbl_moves db))
    /\ subscription (gameStore s') = Some (mkChannel ("game:" ++ gameId) gameId)
    /\ isLoading (gameStore s') = false
    /\ error (gameStore s') = None
    /\ toasts s' = toasts s
    /\ userId s' = userId s
    /\ gameBoard s' = gameBoard s.
Proof.
  intros Hu Hg Hfull.
  destruct (run_joinGame_success now gameId s db g Hu Hg Hfull) as [pm E].
  eexists. split; [exact E|].
  split; [reflexivity|].
  match goal with
  | |- isPlayerB ?s1 = true /\ _ =>
      assert (HB : isPlayerB s1 = true) by (by eapply isPlayerB_seated)
  end.
  split; [exact HB|].
  split; [unfold isPlayer; rewrite HB; apply orb_true_r|].
  split; [unfold isSpectator, isPlayer; rewrite HB; by rewrite orb_true_r|].
  repeat split; reflexivity.
Qed.

(** X5. [joinGame] does not compare the joiner with seat A: the creator
    of a waiting session who joins it takes seat B as well, the session
    starts playing with the same identity in both seats, and with the
    turn on A it is this client's turn. *)
Theorem joinGame_by_creator now gameId s db g :
  truthy (userId s) = true ->
  tbl_games db !! gameId = Some g ->
  games.player_a g = userId s ->
  truthy (games.player_b g) = false ->
  games.turn g = seat A ->
  exists s' g',
    run (joinGame now gameId s) db
    = (Return g', s', with_games (<[gameId := g']> (tbl_games db)) db)
    /\ games.player_a g' = userId s
    /\ games.player_b g' = userId s
    /\ games.status g' = playing
    /\ isPlayerA s' = true
    /\ isPlayerB s' = true
    /\ isPlayerTurn s' = true.
Proof.
  intros Hu Hg Ha Hb Hturn.
  destruct (joinGame_success_view now gameId s db g Hu Hg) as
    (s' & E & Hu' & Hc & HB & _).
  { by rewrite Hb, andb_false_r. }
  assert (HA : isPlayerA s' = true).
  { unfold isPlayerA. rewrite Hc, Hu', Hu. cbn. by rewrite bool_decide_eq_true_2. }
  exists s', (join_patch (userId s) now g).
  split; [exact E|]. split; [exact Ha|]. do 2 (split; [reflexivity|]).
  split; [exact HA|]. split; [exact HB|].
  unfold isPlayerTurn. rewrite Hc, Hu', Hu, HA, HB. cbn.
  by rewrite (bool_decide_eq_true_2 _ Hturn).
Qed.

(** ** forfeitGame *)

(** X6. Without a cached session or without a signed-in user,
    [forfeitGame] throws "No active game or user not authenticated"
    before any request: the store is untouched, and the client only gets
    the error message and its toast. *)
Theorem forfeitGame_needs_game_and_user now1 now2 s :
  currentGame (gameStore s) = None \/ truthy (userId s) = false ->
  exists s',
    forfeitGame now1 now2 s = Done (Throw NO_GAME_OR_USER, s')
    /\ (forall db, run (forfeitGame now1 now2 s) db = (Throw NO_GAME_OR_USER, s', db))
    /\ s' = with_toast (toast_error "No active game or user not authenticated")
              (with_gameStore
                 (put_error (Some "No active game or user not authenticated")) s).
Proof.
  intros H.
  assert (E : forfeitGame now1 now2 s
              = Done (Throw NO_GAME_OR_USER,
                      with_toast (toast_error "No active game or user not authenticated")
                        (with_gameStore
                           (put_error (Some "No active game or user not authenticated")) s))).
  { unfold forfeitGame, try_catch, attempt, bind, get. cbn.
    destruct (currentGame (gameStore s)) as [g|]; [|reflexivity].
    destruct H as [H|H]; [discriminate|]. by rewrite H. }
  eexists. split; [exact E|]. split; [intros db; by rewrite E|reflexivity].
Qed.

(** X7. [forfeitGame] decides the winner from seat A alone and checks
    neither the caller's seat nor the status: the stored session ends
    [finished] with winner B when the caller is seat A and winner A
    otherwise - also for a signed-in user who holds no seat; a session no
    longer in the store is left absent and the call still reports
    success.  Every other row, and on the client everything but one info
    toast (in particular the cached session), stays as it was. *)
Theorem forfeitGame_awards_by_seat_A now1 now2 s db g :
  currentGame (gameStore s) = Some g ->
  truthy (userId s) = true ->
  exists db',
    run (forfeitGame now1 now2 s) db
    = (Return tt, with_toast (toast_info "You have forfeited the game") s, db')
    /\ tbl_cells db' = tbl_cells db /\ tbl_cards db' = tbl_cards db
    /\ tbl_moves db' = tbl_moves db /\ tbl_profiles db' = tbl_profiles db
    /\ (forall i, i <> games.id g -> tbl_games db' !! i = tbl_games db !! i)
    /\ match tbl_games db !! games.id g with
       | None => tbl_games db' !! games.id g = None
       | Some row =>
           exists row',
             tbl_games db' !! games.id g = Some row'
             /\ games.status row' = finished
             /\ games.winner row' = Some (if isPlayerA s then B else A)
             /\ (isPlayer s = false -> games.winner row' = Some A)
             /\ games.finished_at row' = Some now1
             /\ games.updated_at row' = Some now2
             /\ games.player_a row' = games.player_a row
             /\ games.player_b row' = games.player_b row
             /\ games.turn row' = games.turn row
             /\ games.score_a row' = games.score_a row
             /\ games.score_b row' = games.score_b row
       end.
Proof.
  intros Hg Hu. rewrite (run_forfeitGame _ _ now1 now2 s db g Hg Hu).
  eexists. split; [reflexivity|]. cbn [tbl_cells tbl_cards tbl_moves tbl_profiles
    tbl_games with_games].
  do 4 (split; [reflexivity|]).
  split; [intros i Hi; by rewrite lookup_alter_ne|].
  rewrite lookup_alter_eq.
  destruct (tbl_games db !! games.id g) as [row|]; [|reflexivity].
  eexists. split; [reflexivity|]. cbn.
  repeat split; try reflexivity.
  unfold isPlayer. intros H. apply orb_false_iff in H as [-> _]. reflexivity.
Qed.

(** ** makeMove *)

(** X8. On the caller's turn [makeMove] sends exactly the cached
    session's id, the card and the target to [play-turn] (whatever the
    session's status) and passes the answer on: data is returned and the
    error ref cleared; a failure is thrown on, its message (or "Failed to
    make move") stored and toasted.  Either way [isLoading] ends false and
    the cached session, board, cards and moves are not touched. *)
Theorem makeMove_in_turn cardId toX toY s db g :
  isPlayerTurn s = true ->
  currentGame (gameStore s) = Some g ->
  run (makeMove cardId toX toY s) db =
  match play_turn (userId s) (mkBody (games.id g) cardId toX toY) db with
  | (Data d, db') =>
      (Return d,
       with_gameStore (put_isLoading false)
         (with_gameStore (put_error None) (with_gameStore (put_isLoading true) s)),
       db')
  | (Err e, db') =>
      (Throw e,
       with_gameStore (put_isLoading false)
         (with_toast (toast_error (message_or e "Failed to make move"))
            (with_gameStore (put_error (Some (message_or e "Failed to make move")))
               (with_gameStore (put_error None) (with_gameStore (put_isLoading true) s)))),
       db')
  end.
Proof.
  intros Hturn Hg. unfold makeMove.
  rewrite run_finally, run_try_catch, run_bind, run_get, Hg, Hturn. cbn [negb].
  repeat run_step. cbn [exec].
  destruct (play_turn (userId s) (mkBody (games.id g) cardId toX toY) db) as [[d|e] db'];
    cbn [fst snd]; repeat run_step; reflexivity.
Qed.


(** ** createGame: the creator's client *)

Lemma find_initialCells gameId x y :
  0 <= x <= 8 -> 0 <= y <= 8 ->
  List.find (fun cell => Z.eqb (cells.x cell) x && Z.eqb (cells.y cell) y)
    (initialCells gameId)
  = Some (cells.mk gameId x y (if Z.eqb x 4 && Z.eqb y 4 then seat A else none)).
Proof.
  intros Hx Hy.
  assert (x = 0 \/ x = 1 \/ x = 2 \/ x = 3 \/ x = 4 \/ x = 5 \/ x = 6 \/ x = 7 \/ x = 8)
    as Ex by lia.
  assert (y = 0 \/ y = 1 \/ y = 2 \/ y = 3 \/ y = 4 \/ y = 5 \/ y = 6 \/ y = 7 \/ y = 8)
    as Ey by lia.
  clear Hx Hy.
  repeat (destruct Ex as [->|Ex]); try subst x;
    repeat (destruct Ey as [->|Ey]); try subst y; vm_compute; reflexivity.
Qed.

Lemma initialCells_in_grid gameId cell :
  cell ∈ initialCells gameId ->
  0 <= cells.x cell <= 8 /\ 0 <= cells.y cell <= 8.
Proof.
  intros Hc.
  assert (H : forallb (fun c => (0 <=? cells.x c) && (cells.x c <=? 8)
                                && (0 <=? cells.y c) && (cells.y c <=? 8))
                (initialCells gameId) = true) by reflexivity.
  rewrite forallb_forall in H. apply list_elem_of_In, H in Hc. lia.
Qed.

Lemma find_initialCells_outside gameId x y :
  ~ (0 <= x <= 8 /\ 0 <= y <= 8) ->
  List.find (fun cell => Z.eqb (cells.x cell) x && Z.eqb (cells.y cell) y)
    (initialCells gameId) = None.
Proof.
  intros Hout.
  destruct (List.find _ (initialCells gameId)) as [c|] eqn:E; [|reflexivity].
  apply find_some in E as [Hin Hc]. apply list_elem_of_In, initialCells_in_grid in Hin. lia.
Qed.

(** The client and the store after [createGame], in full. *)
Lemma run_createGame_exact s db :
  let i := fresh (dom (tbl_games db)) in
  let g := insert_row games_default i (games.mkInsert (userId s) waiting (seat A) 4 4) in
  let new := zip_with cards.with_id
               (fresh_list (length (allCards i)) (card_ids (tbl_cards db))) (allCards i) in
  run (createGame s) db
  = (Return g,
     with_gameStore (put_isLoading false)
       (with_gameStore (put_subscription (Some (mkChannel ("game:" ++ i) i)))
          (with_gameStore (put_cards new)
             (with_gameStore (put_board (initialCells i))
                (with_gameStore (put_currentGame (Some g))
                   (with_gameStore (put_error None)
                      (with_gameStore (put_isLoading true) s)))))),
     mkDatabase (<[i := g]> (tbl_games db)) (tbl_cells db ++ initialCells i)
       (tbl_cards db ++ new) (tbl_moves db) (tbl_profiles db)).
Proof.
  intros i g new. unfold createGame.
  rewrite run_finally, run_try_catch. repeat run_step.
  cbn [exec fst snd]. repeat run_step.
  unfold initializeBoard. repeat run_step. cbn [exec fst snd]. repeat run_step.
  unfold initializeCards. repeat run_step. cbn [exec fst snd]. repeat run_step.
  rewrite run_subscribeToGame. cbv beta iota. repeat run_step.
  reflexivity.
Qed.

(** X9. After [createGame], [getCell] on the creator's client finds, for
    every coordinate pair of the grid, the cell with exactly these
    coordinates (owned by A at the centre (4,4), unowned elsewhere), and
    finds nothing for any coordinate outside the grid. *)
Theorem createGame_then_getCell s db x y :
  exists g s' db',
    run (createGame s) db = (Return g, s', db')
    /\ getCell s' x y =
       if (0 <=? x) && (x <=? 8) && (0 <=? y) && (y <=? 8)
       then Some (cells.mk (games.id g) x y (if Z.eqb x 4 && Z.eqb y 4 then seat A else none))
       else None.
Proof.
  pose proof (run_createGame_exact s db) as E. cbv zeta in E.
  eexists _, _, _. split; [exact E|].
  unfold getCell.
  cbn [board gameStore with_gameStore put_isLoading put_subscription put_cards put_board].
  change (games.id (insert_row games_default _ _)) with (fresh (dom (tbl_games db))).
  destruct ((0 <=? x) && (x <=? 8) && (0 <=? y) && (y <=? 8)) eqn:Hin.
  - apply find_initialCells; lia.
  - apply find_initialCells_outside. lia.
Qed.

Lemma new_cards_hands gameId (ids : list string) :
  length ids = 20%nat ->
  let new := zip_with cards.with_id ids (allCards gameId) in
  forall p : Player,
    cards.order_in_deck
      <$> List.filter (fun card => bool_decide (cards.owner card = Some p)
                                    && negb (cards.is_used card)) new
    = Some <$> seqZ 0 10.
Proof.
  intros Hlen.
  do 20 (destruct ids as [|? ids]; [discriminate Hlen|]).
  destruct ids; [|discriminate Hlen].
  intros new []; vm_compute; reflexivity.
Qed.

(** X10. After [createGame] each side's hand on the creator's client
    ([getPlayerCards]) is its ten cards in deck order 0..9; the cached
    session is waiting, and a signed-in creator is player A and already
    holds the turn. *)
Theorem createGame_hands_and_turn s db :
  exists g s' db',
    run (createGame s) db = (Return g, s', db')
    /\ (forall p, cards.order_in_deck <$> getPlayerCards s' p = Some <$> seqZ 0 10)
    /\ gameStatus s' = waiting
    /\ userId s' = userId s
    /\ isPlayerA s' = truthy (userId s)
    /\ isPlayerTurn s' = truthy (userId s).
Proof.
  pose proof (run_createGame_exact s db) as E. cbv zeta in E.
  eexists _, _, _. split; [exact E|].
  split.
  { intros p. unfold getPlayerCards.
    cbn [cards gameStore with_gameStore put_isLoading put_subscription put_cards].
    apply new_cards_hands. by rewrite length_fresh_list. }
  split; [reflexivity|]. split; [reflexivity|].
  assert (HA : forall u : option string, truthy u && bool_decide (u = u) = truthy u).
  { intros u. rewrite bool_decide_eq_true_2 by reflexivity. apply andb_true_r. }
  split; [apply HA|].
  unfold isPlayerTurn, isPlayerA, isPlayerB.
  cbn [currentGame gameStore with_gameStore put_isLoading put_subscription put_cards
       put_board put_currentGame userId].
  cbn [games.turn games.player_a insert_row games.set_crown games.set_turn
       games.set_status games.set_player_a games.i_turn games.i_player_a].
  rewrite HA, bool_decide_eq_true_2 by reflexivity.
  by destruct (truthy (userId s)).
Qed.


(** ** createGame, then joinGame from a second client *)

Lemma sorted_new_cards_hands gameId (ids : list string) :
  length ids = 20%nat ->
  let sorted := merge_sort deck_le (zip_with cards.with_id ids (allCards gameId)) in
  forall p : Player,
    cards.order_in_deck
      <$> List.filter (fun card => bool_decide (cards.owner card = Some p)
                                    && negb (cards.is_used card)) sorted
    = Some <$> seqZ 0 10.
Proof.
  intros Hlen.
  do 20 (destruct ids as [|? ids]; [discriminate Hlen|]).
  destruct ids; [|discriminate Hlen].
  intros sorted []; vm_compute; reflexivity.
Qed.

(** X11. A session made by [createGame] on one client and joined with
    [joinGame] from a second, signed-in client (in a store whose cell and
    card rows refer to existing games, the schema leaving seat B of a new
    row empty): the join succeeds; the session is playing with the creator
    in seat A, the joiner in seat B, turn A and the crown at (4,4); the
    joiner's client holds the same 81 cells as the creator's, the same
    cards up to order, and each side's hand of ten cards in deck order;
    the joiner is player B and, unless it is the creator's own identity,
    does not hold the turn. *)
Theorem createGame_then_joinGame now s_a s_b db :
  references_ok db ->
  games.player_b games_default = None ->
  truthy (userId s_b) = true ->
  exists g s_a' db1 g' s_b' db2,
    run (createGame s_a) db = (Return g, s_a', db1)
    /\ run (joinGame now (games.id g) s_b) db1 = (Return g', s_b', db2)
    /\ games.id g' = games.id g
    /\ games.player_a g' = userId s_a
    /\ games.player_b g' = userId s_b
    /\ games.status g' = playing
    /\ games.turn g' = seat A
    /\ (games.crown_x g', games.crown_y g') = (4, 4)
    /\ tbl_games db2 !! games.id g = Some g'
    /\ currentGame (gameStore s_b') = Some g'
    /\ board (gameStore s_b') = board (gameStore s_a')
    /\ length (board (gameStore s_b')) = 81%nat
    /\ cards (gameStore s_b') ≡ₚ cards (gameStore s_a')
    /\ (forall p, cards.order_in_deck <$> getPlayerCards s_b' p = Some <$> seqZ 0 10)
    /\ isPlayerB s_b' = true
    /\ (userId s_b <> userId s_a -> isPlayerTurn s_b' = false).
Proof.
  intros Hrefs Hdefault Hu.
  pose proof (run_createGame_exact s_a db) as E. cbv zeta in E.
  destruct (fresh_game_id_unreferenced db Hrefs) as [Hcells_old Hcards_old].
  set (i := fresh (dom (tbl_games db))) in *.
  set (g := insert_row games_default i (games.mkInsert (userId s_a) waiting (seat A) 4 4)) in *.
  set (ids := fresh_list (length (allCards i)) (card_ids (tbl_cards db))) in *.
  set (new := zip_with cards.with_id ids (allCards i)) in *.
  assert (Hlen : length ids = 20%nat) by apply length_fresh_list.
  destruct (new_cards_decks i ids Hlen) as (Hgid & _).
  fold new in Hgid.
  assert (Hcs : cells_of i (tbl_cells db ++ initialCells i) = initialCells i).
  { unfold cells_of. rewrite filter_app, filter_none_of, filter_all_of; [done| |done].
    intros c Hc. exact (all_of_replicate _ _ _ _ _ (initialCells_game_id i) Hc). }
  assert (Hds : cards_of i (tbl_cards db ++ new) = new).
  { unfold cards_of. rewrite filter_app, filter_none_of, filter_all_of; [done| |done].
    intros c Hc. exact (all_of_replicate _ _ _ _ _ Hgid Hc). }
  match type of E with
  | _ = (_, ?s1, ?d1) => set (s_a' := s1) in *; set (db1 := d1) in *
  end.
  destruct (joinGame_success_view now i s_b db1 g Hu) as
    (s_b' & Ej & Hu' & Hc & HB & _ & Hboard & Hcards).
  { unfold db1. cbn [tbl_games]. apply lookup_insert_eq. }
  { change (games.player_b g) with (games.player_b games_default).
    rewrite Hdefault. apply andb_false_r. }
  exists g, s_a', db1, (join_patch (userId s_b) now g), s_b'.
  eexists. split; [exact E|]. split; [exact Ej|].
  do 6 (split; [reflexivity|]).
  split; [cbn [tbl_games with_games]; apply lookup_insert_eq|].
  split; [exact Hc|].
  assert (Hb : board (gameStore s_b') = initialCells i).
  { rewrite Hboard. unfold db1. cbn [tbl_cells]. exact Hcs. }
  assert (Hk : cards (gameStore s_b') = merge_sort deck_le new).
  { rewrite Hcards. unfold db1. cbn [tbl_cards]. by rewrite Hds. }
  split; [rewrite Hb; reflexivity|].
  split; [rewrite Hb; apply initialCells_length|].
  split; [rewrite Hk; apply merge_sort_Permutation|].
  split.
  { intros p. unfold getPlayerCards. rewrite Hk. by apply sorted_new_cards_hands. }
  split; [exact HB|].
  intros Hne. unfold isPlayerTurn, isPlayerA. rewrite Hc, Hu', Hu.
  cbn [andb games.turn games.player_a join_patch games.set_updated_at games.set_status
       games.set_player_b].
  change (games.player_a g) with (userId s_a).
  change (games.turn g) with (seat A).
  rewrite (bool_decide_eq_false_2 (userId s_a = userId s_b)) by congruence.
  rewrite (bool_decide_eq_false_2 (seat A = seat B)) by discriminate.
  by rewrite andb_false_r.
Qed.

(** ** Subscription and realtime events *)

Lemma run_deliver_cells payload s db ch :
  subscription (gameStore s) = Some ch ->
  run (deliver (cells_change payload) s) db
  = (Return tt, with_gameStore (put_board (cells_of (channel_gameId ch) (tbl_cells db))) s,
     db).
Proof.
  intros Hsub. unfold deliver. rewrite run_bind, run_gets, Hsub. apply run_fetchBoard.
Qed.

Lemma run_deliver_cards payload s db ch :
  subscription (gameStore s) = Some ch ->
  run (deliver (cards_change payload) s) db
  = (Return tt,
     with_gameStore
       (put_cards (merge_sort deck_le (cards_of (channel_gameId ch) (tbl_cards db)))) s,
     db).
Proof.
  intros Hsub. unfold deliver. rewrite run_bind, run_gets, Hsub. apply run_fetchCards.
Qed.

(** X12. [subscribeToGame] first asks to remove exactly the channel the
    store holds (and asks for nothing when it holds none), then holds the
    channel of the new session alone; after subscribing to one session and
    then to another, a cell event re-fetches the cells of the second. *)
Theorem subscribeToGame_replaces_channel gameId other s db payload :
  first_removed (subscribeToGame gameId s) = subscription (gameStore s)
  /\ run (subscribeToGame gameId s) db
     = (Return tt,
        with_gameStore (put_subscription (Some (mkChannel ("game:" ++ gameId) gameId))) s,
        db)
  /\ exists s',
       run ((subscribeToGame other ;; subscribeToGame gameId ;;
             deliver (cells_change payload)) s) db = (Return tt, s', db)
       /\ subscription (gameStore s') = Some (mkChannel ("game:" ++ gameId) gameId)
       /\ board (gameStore s') = cells_of gameId (tbl_cells db).
Proof.
  split; [|split].
  - unfold subscribeToGame. rewrite bind_gets.
    by destruct (subscription (gameStore s)).
  - apply run_subscribeToGame.
  - rewrite run_bind, run_subscribeToGame. cbv beta iota.
    rewrite run_bind, run_subscribeToGame. cbv beta iota.
    erewrite run_deliver_cells by reflexivity.
    eexists. split; [reflexivity|]. split; reflexivity.
Qed.

(** X13. [resetGame] asks to remove exactly the channel the store holds
    (nothing when it holds none) and empties the store (session, board,
    cards, moves, players, error, subscription), leaving [isLoading], the
    board component and the backend as they are.  Afterwards it is
    nobody's turn, [makeMove] throws "It's not your turn" without a
    request, a later [subscribeToGame] has no channel to remove, and a
    change event finds no handler. *)
Theorem resetGame_clears_store c gameId cardId toX toY s db :
  exists s0,
    first_removed (resetGame s) = subscription (gameStore s)
    /\ run (resetGame s) db = (Return tt, s0, db)
    /\ gameStore s0 = mkGameStore None [] [] [] ∅ (isLoading (gameStore s)) None None
    /\ gameBoard s0 = gameBoard s
    /\ userId s0 = userId s
    /\ isPlayerTurn s0 = false
    /\ (exists s1, makeMove cardId toX toY s0 = Done (Throw NOT_YOUR_TURN, s1))
    /\ first_removed (subscribeToGame gameId s0) = None
    /\ deliver c s0 = Done (Return tt, s0).
Proof.
  exists (with_gameStore
            (fun st => mkGameStore None [] [] [] ∅ (isLoading st) None None) s).
  assert (Hturn : isPlayerTurn
                    (with_gameStore
                       (fun st => mkGameStore None [] [] [] ∅ (isLoading st) None None) s)
                  = false).
  { reflexivity. }
  split; [unfold resetGame, bind, gets, store_set, modify;
          destruct (subscription (gameStore s)); reflexivity|].
  split; [unfold resetGame, bind, gets, store_set, modify;
          destruct (subscription (gameStore s)); reflexivity|].
  do 3 (split; [reflexivity|]). split; [exact Hturn|].
  split; [|split; reflexivity].
  eexists. reflexivity.
Qed.

(** X14. Re-fetching events are idempotent and do not depend on their
    order across streams: a second cell (card) event right after a first
    leaves the client as the first did, and a cell event followed by a
    card event leaves the same client as the card event followed by the
    cell event. *)
Theorem refetch_events_idempotent_and_commute s db (p p' : Payload Cell) (q q' : Payload Card) :
  run ((deliver (cells_change p) ;; deliver (cells_change p')) s) db
  = run (deliver (cells_change p) s) db
  /\ run ((deliver (cards_change q) ;; deliver (cards_change q')) s) db
     = run (deliver (cards_change q) s) db
  /\ run ((deliver (cells_change p) ;; deliver (cards_change q)) s) db
     = run ((deliver (cards_change q) ;; deliver (cells_change p)) s) db.
Proof.
  destruct (subscription (gameStore s)) as [ch|] eqn:Hsub.
  - repeat split; rewrite !run_bind;
      repeat (first [ erewrite run_deliver_cells by (cbn; exact Hsub)
                    | erewrite run_deliver_cards by (cbn; exact Hsub) ];
              cbv beta iota);
      reflexivity.
  - assert (Hnone : forall c, run (deliver c s) db = (Return tt, s, db)).
    { intros c. unfold deliver. by rewrite run_bind, run_gets, Hsub. }
    repeat split; rewrite !run_bind, ?Hnone; cbv beta iota; by rewrite ?Hnone.
Qed.


(** ** The page: loading a game, hand cards, cell clicks *)



(** X16. A click on a card of the current player's hand, as the page
    mounts the card, never selects it: the card is either disabled or
    playable, a playable card emits [play], and the page listens to
    [select] only.  The page's selected card (and everything else) stays
    as it was. *)
Theorem hand_card_click_never_selects card s :
  GamePage_handCardClick card s = Done (Return tt, s)
  /\ GameCard_handleClick (negb (isPlayerTurn s) || negb (isPlayer s))
       (isPlayerTurn s && isPlayer s) card <> Some (card_select (cards.id card)).
Proof.
  unfold GamePage_handCardClick, GameCard_handleClick. rewrite bind_get.
  by destruct (isPlayerTurn s), (isPlayer s).
Qed.

(** X17. The page's [cell-click] listener: without the turn or without a
    selected card it does nothing.  Otherwise it makes the move with the
    page's selected card: on success the card is deselected and "Move
    made successfully" shown; on failure the card stays selected and the
    failure is toasted twice (by the store and by the page); the listener
    itself never throws. *)
Theorem GamePage_handleCellClick_outcome x y s db :
  run (GamePage_handleCellClick (x, y) s) db =
  if negb (isPlayerTurn s) || negb (truthy (selectedCardId s)) then (Return tt, s, db)
  else
    match run (makeMove (default "" (selectedCardId s)) x y s) db with
    | (Return _, s1, db1) =>
        (Return tt,
         with_toast (toast_success "Move made successfully") (with_selectedCardId None s1),
         db1)
    | (Throw e, s1, db1) =>
        (Return tt, with_toast (toast_error (message_or e "Failed to make move")) s1, db1)
    end.
Proof.
  unfold GamePage_handleCellClick. rewrite run_bind, run_get. cbv beta iota.
  destruct (negb (isPlayerTurn s) || negb (truthy (selectedCardId s))); [reflexivity|].
  rewrite run_try_catch, run_bind. cbn [fst snd].
  destruct (run (makeMove (default "" (selectedCardId s)) x y s) db) as [[[d|e] s1] db1];
    repeat run_step; reflexivity.
Qed.

(** X18. The board's own [playCard]: without a cached session it does
    nothing; otherwise it makes the move and never throws: on success the
    board's selected card is cleared and "Move made successfully" shown,
    on failure the card stays selected and "Failed to make move" is
    shown. *)
Theorem playCard_outcome cardId x y s db :
  run (playCard cardId x y s) db =
  match currentGame (gameStore s) with
  | None => (Return tt, s, db)
  | Some _ =>
      match run (makeMove cardId x y s) db with
      | (Return _, s1, db1) =>
          (Return tt,
           with_toast (toast_success "Move made successfully")
             (with_gameBoard (put_selectedCard None) s1),
           db1)
      | (Throw _, s1, db1) =>
          (Return tt, with_toast (toast_error "Failed to make move") s1, db1)
      end
  end.
Proof.
  unfold playCard. rewrite run_bind, run_gets. cbv beta iota.
  destruct (currentGame (gameStore s)); [|reflexivity].
  rewrite run_try_catch, run_bind.
  destruct (run (makeMove cardId x y s) db) as [[[d|e] s1] db1];
    repeat run_step; reflexivity.
Qed.

End StoreProperties.

(** ** The board controller: highlights *)

Lemma in_bounds_true x y :
  0 <= x < 9 -> 0 <= y < 9 ->
  (0 <=? x) && (x <? 9) && (0 <=? y) && (y <? 9) = true.
Proof.
  intros Hx Hy. repeat (apply andb_true_iff; split);
    first [apply Z.leb_le | apply Z.ltb_lt]; lia.
Qed.

Lemma in_bounds_inv x y :
  (0 <=? x) && (x <? 9) && (0 <=? y) && (y <? 9) = true ->
  0 <= x < 9 /\ 0 <= y < 9.
Proof.
  intros H. repeat (apply andb_true_iff in H as [H ?]).
  apply Z.leb_le in H. repeat match goal with
  | H : (_ <=? _) = true |- _ => apply Z.leb_le in H
  | H : (_ <? _) = true |- _ => apply Z.ltb_lt in H
  end. lia.
Qed.

(** Whether the board lets the cell at [(x, y)] be highlighted. *)
Lemma candidate_cell_ok s x y :
  match getCell s x y with
  | None => [(x, y)]
  | Some cell =>
      if bool_decide (cells.owner cell = none)
         || negb (bool_decide (Some (cells.owner cell) = currentPlayer s))
      then [(x, y)] else []
  end = [(x, y)]
  <-> match getCell s x y with
      | None => True
      | Some cell => cells.owner cell = none \/ Some (cells.owner cell) <> currentPlayer s
      end.
Proof.
  destruct (getCell s x y) as [cell|]; [|done].
  destruct (decide (cells.owner cell = none)) as [E|E].
  - rewrite (bool_decide_eq_true_2 _ E). cbn. split; [by left|done].
  - rewrite (bool_decide_eq_false_2 _ E). cbn.
    destruct (decide (Some (cells.owner cell) = currentPlayer s)) as [E'|E'].
    + rewrite (bool_decide_eq_true_2 _ E'). cbn. split; [discriminate|by intros [?|?]].
    + rewrite (bool_decide_eq_false_2 _ E'). cbn. split; [by right|done].
Qed.

Lemma candidates_spec s fromX fromY x y :
  (x, y) ∈ candidates s fromX fromY
  <-> adjacent fromX fromY x y
      /\ 0 <= x < 9 /\ 0 <= y < 9
      /\ match getCell s x y with
         | None => True
         | Some cell => cells.owner cell = none \/ Some (cells.owner cell) <> currentPlayer s
         end.
Proof.
  unfold candidates, adjacent. rewrite list_elem_of_In, in_flat_map. split.
  - intros ([dx dy] & Hdir & Hin). cbn [fst snd] in Hin.
    destruct ((0 <=? fromX + dx) && (fromX + dx <? 9) && (0 <=? fromY + dy)
              && (fromY + dy <? 9)) eqn:Hb; [|destruct Hin].
    apply in_bounds_inv in Hb.
    assert (Hxy : (x, y) = (fromX + dx, fromY + dy) /\
                  match getCell s (fromX + dx) (fromY + dy) with
                  | None => True
                  | Some cell =>
                      cells.owner cell = none \/ Some (cells.owner cell) <> currentPlayer s
                  end).
    { pose proof (candidate_cell_ok s (fromX + dx) (fromY + dy)) as Hok.
      destruct (getCell s (fromX + dx) (fromY + dy)) as [cell|].
      - destruct (bool_decide (cells.owner cell = none)
                  || negb (bool_decide (Some (cells.owner cell) = currentPlayer s)));
          [|destruct Hin].
        destruct Hin as [<-|[]]. split; [reflexivity|by apply Hok].
      - destruct Hin as [<-|[]]. by split. }
    destruct Hxy as [[= -> ->] Hcell].
    split; [|by repeat split; try lia].
    unfold directions in Hdir. cbn in Hdir.
    repeat (destruct Hdir as [[= <- <-]|Hdir]; [lia|]). destruct Hdir.
  - intros (Hadj & Hx & Hy & Hcell).
    exists (x - fromX, y - fromY). cbn [fst snd].
    replace (fromX + (x - fromX)) with x by lia.
    replace (fromY + (y - fromY)) with y by lia.
    split.
    + assert ((x - fromX = -1 \/ x - fromX = 0 \/ x - fromX = 1)
              /\ (y - fromY = -1 \/ y - fromY = 0 \/ y - fromY = 1)
              /\ ~ (x - fromX = 0 /\ y - fromY = 0)) as (Hdx & Hdy & Hnz) by lia.
      unfold directions.
      destruct Hdx as [Ex|[Ex|Ex]], Hdy as [Ey|[Ey|Ey]]; rewrite Ex, Ey; cbn;
        first [ solve [repeat (first [ (left; reflexivity) | right ])]
              | (exfalso; apply Hnz; split; assumption) ].
    + rewrite (in_bounds_true x y Hx Hy).
      apply candidate_cell_ok in Hcell. rewrite Hcell. by left.
Qed.

Lemma flat_map_length_le {T U : Type} (f : T -> list U) (l : list T) :
  (forall a, (length (f a) <= 1)%nat) -> (length (flat_map f l) <= length l)%nat.
Proof.
  intros Hf. induction l as [|a l IH]; [done|].
  cbn [flat_map]. rewrite length_app. specialize (Hf a). cbn [length]. lia.
Qed.

Lemma candidates_length s fromX fromY : (length (candidates s fromX fromY) <= 8)%nat.
Proof.
  unfold candidates. etransitivity; [apply flat_map_length_le|reflexivity].
  intros dir.
  repeat match goal with
  | |- context [if ?b then _ else _] => destruct b
  | |- context [match getCell ?s0 ?a ?b with _ => _ end] => destruct (getCell s0 a b)
  end; cbn [length]; lia.
Qed.

(** X19. The highlight set computed around an origin holds exactly the
    cells of the 9 x 9 grid that are one king's move away from it and
    that the board does not know, or knows as unowned or as owned by
    someone other than the side whose turn it is; so it never holds the
    origin itself, and it has at most eight cells. *)
Theorem highlights_are_free_neighbours s fromX fromY :
  (forall x y,
     (x, y) ∈ candidates s fromX fromY
     <-> adjacent fromX fromY x y
         /\ 0 <= x < 9 /\ 0 <= y < 9
         /\ match getCell s x y with
            | None => True
            | Some cell =>
                cells.owner cell = none \/ Some (cells.owner cell) <> currentPlayer s
            end)
  /\ ~ ((fromX, fromY) ∈ candidates s fromX fromY)
  /\ (length (candidates s fromX fromY) <= 8)%nat.
Proof.
  split; [intros x y; apply candidates_spec|].
  split; [|apply candidates_length].
  intros H. apply candidates_spec in H as [Hadj _]. unfold adjacent in Hadj. lia.
Qed.

Lemma isValidMove_elem s x y :
  isValidMove s x y = bool_decide ((x, y) ∈ validMoves (gameBoard s)).
Proof.
  unfold isValidMove. destruct (existsb _ _) eqn:E.
  - symmetry. apply bool_decide_eq_true_2.
    apply existsb_exists in E as ([a b] & Hin & Hab). cbn [fst snd] in Hab.
    apply andb_true_iff in Hab as [->%Z.eqb_eq ->%Z.eqb_eq]. by apply list_elem_of_In.
  - symmetry. apply bool_decide_eq_false_2. intros Hin.
    assert (existsb (fun move : Z * Z => (move.1 =? x) && (move.2 =? y))
              (validMoves (gameBoard s)) = true) as E'; [|congruence].
    apply existsb_exists. exists (x, y). split; [by apply list_elem_of_In|].
    cbn. by rewrite !Z.eqb_refl.
Qed.

(** ** The board controller: pointer input *)

(** X20. A board that is not interactive ignores clicks, mouse-downs and
    every key: nothing is emitted, sent or changed. *)
Theorem non_interactive_board_ignores_input s x y key :
  isInteractive s = false ->
  handleCellClick x y s = Done (Return tt, s)
  /\ handleMouseDown x y s = Done (Return tt, s)
  /\ handleKeyDown key s = Done (Return tt, s).
Proof.
  intros Hi. repeat split.
  - unfold handleCellClick. by rewrite bind_get, Hi.
  - unfold handleMouseDown. by rewrite bind_get, Hi.
  - by apply handleKeyDown_not_interactive.
Qed.

Lemma release_differs fromX fromY x y :
  negb (fromX =? x) || negb (fromY =? y) = bool_decide ((fromX, fromY) <> (x, y)).
Proof.
  destruct (Z.eqb_spec fromX x) as [->|Hx], (Z.eqb_spec fromY y) as [->|Hy]; cbn;
    symmetry; first [apply bool_decide_eq_true_2 | apply bool_decide_eq_false_2];
    congruence.
Qed.

(** A release while a drag is pending, in full. *)
Lemma handleMouseUp_dragging x y s :
  isDragging (gameBoard s) = true ->
  handleMouseUp x y s =
  Done (Return tt,
        with_gameBoard
          (fun b => mkGameBoard (interactive b) false None None (hoveredCell b) []
                      (selectedCard b)
                      (emitted b ++
                       match dragStartCell (gameBoard s) with
                       | Some from =>
                           if bool_decide (from <> (x, y))
                              && bool_decide ((x, y) ∈ validMoves (gameBoard s))
                           then [move_made (Some from) (x, y)] else []
                       | None => []
                       end)) s).
Proof.
  intros Hd. unfold handleMouseUp. rewrite bind_get, Hd. cbn [negb].
  rewrite bind_board_set.
  destruct (dragStartCell (gameBoard s)) as [[fromX fromY]|] eqn:Hstart.
  - rewrite <- isValidMove_elem, release_differs.
    destruct (bool_decide ((fromX, fromY) <> (x, y))); cbn [andb];
      [destruct (isValidMove s x y)|];
      unfold emit, resetDragState; rewrite ?bind_board_set, ?bind_ret;
      unfold board_set, modify, with_gameBoard; cbn; by rewrite ?app_nil_r.
  - unfold resetDragState. rewrite bind_ret, !bind_board_set.
    unfold board_set, modify, with_gameBoard. cbn. by rewrite app_nil_r.
Qed.

(** X21. [handleMouseUp] acts on a pending drag whether or not the board
    is (still) interactive.  Without a pending drag it does nothing.  With
    one it always ends with the drag state cleared, and emits one
    [move-made], from the drag origin to the cell of the release, exactly
    when that cell is highlighted and is not the origin; card selection,
    cursor and store are not touched. *)
Theorem handleMouseUp_outcome x y s :
  exists s',
    handleMouseUp x y s = Done (Return tt, s')
    /\ if isDragging (gameBoard s)
       then isDragging (gameBoard s') = false
            /\ dragStartCell (gameBoard s') = None
            /\ dragEndCell (gameBoard s') = None
            /\ validMoves (gameBoard s') = []
            /\ emitted (gameBoard s')
               = (emitted (gameBoard s) ++
                  match dragStartCell (gameBoard s) with
                  | Some from =>
                      if bool_decide (from <> (x, y))
                         && bool_decide ((x, y) ∈ validMoves (gameBoard s))
                      then [move_made (Some from) (x, y)] else []
                  | None => []
                  end)%list
            /\ selectedCard (gameBoard s') = selectedCard (gameBoard s)
            /\ hoveredCell (gameBoard s') = hoveredCell (gameBoard s)
            /\ interactive (gameBoard s') = interactive (gameBoard s)
            /\ gameStore s' = gameStore s
            /\ selectedCardId s' = selectedCardId s
            /\ toasts s' = toasts s
       else s' = s.
Proof.
  destruct (isDragging (gameBoard s)) eqn:Hd.
  - rewrite (handleMouseUp_dragging x y s Hd). eexists. split; [reflexivity|].
    repeat split; reflexivity.
  - exists s. split; [|reflexivity].
    unfold handleMouseUp. by rewrite bind_get, Hd.
Qed.

(** X22. A drag on an interactive board: mouse-down on an origin, then
    mouse-up on a cell.  One [move-made] from the origin to that cell is
    emitted exactly when the cell is in the highlight set of the origin
    (a release on the origin itself emits nothing); either way the drag
    state is cleared afterwards and nothing else changes. *)
Theorem drag_and_release fromX fromY x y s :
  isInteractive s = true ->
  exists s',
    (handleMouseDown fromX fromY ;; handleMouseUp x y) s = Done (Return tt, s')
    /\ emitted (gameBoard s')
       = (emitted (gameBoard s) ++
          if bool_decide ((x, y) ∈ candidates s fromX fromY)
          then [move_made (Some (fromX, fromY)) (x, y)] else [])%list
    /\ isDragging (gameBoard s') = false
    /\ dragStartCell (gameBoard s') = None
    /\ dragEndCell (gameBoard s') = None
    /\ validMoves (gameBoard s') = []
    /\ selectedCard (gameBoard s') = selectedCard (gameBoard s)
    /\ hoveredCell (gameBoard s') = hoveredCell (gameBoard s)
    /\ gameStore s' = gameStore s.
Proof.
  intros Hi.
  assert (Hturn : isPlayerTurn s = true).
  { unfold isInteractive in Hi. by apply andb_true_iff in Hi as [_ ?]. }
  destruct (isPlayerTurn_currentGame s Hturn) as [g Hg].
  set (s1 := with_gameBoard (put_validMoves (candidates s fromX fromY))
               (with_gameBoard (put_dragEndCell None)
                  (with_gameBoard (put_dragStartCell (Some (fromX, fromY)))
                     (with_gameBoard (put_isDragging true) s)))).
  assert (E1 : handleMouseDown fromX fromY s = Done (Return tt, s1)).
  { unfold handleMouseDown. rewrite bind_get, Hi. cbn [negb].
    rewrite !bind_board_set. unfold updateValidMoves. rewrite bind_get.
    cbn [currentGame gameStore with_gameBoard]. rewrite Hg. reflexivity. }
  eexists. split.
  { unfold bind. rewrite E1. cbn [proc_bind].
    apply (handleMouseUp_dragging x y s1). reflexivity. }
  cbn [emitted dragStartCell validMoves isDragging dragEndCell selectedCard hoveredCell
       gameBoard gameStore with_gameBoard s1 put_validMoves put_dragEndCell
       put_dragStartCell put_isDragging].
  split; [|by repeat split].
  f_equal.
  destruct (bool_decide ((x, y) ∈ candidates s fromX fromY)) eqn:Hc;
    [|by rewrite andb_false_r].
  rewrite bool_decide_eq_true_2; [reflexivity|].
  apply bool_decide_eq_true_1 in Hc. intros [= -> ->].
  apply candidates_spec in Hc as [Hadj _]. unfold adjacent in Hadj. lia.
Qed.

(** A click on an interactive board without a selected card: the click is
    forwarded, then it either completes a move to a highlighted cell or
    makes the clicked cell the new origin. *)
Lemma handleCellClick_no_card x y s g :
  isInteractive s = true ->
  truthy (selectedCard (gameBoard s)) = false ->
  currentGame (gameStore s) = Some g ->
  handleCellClick x y s =
  Done (Return tt,
        if isValidMove s x y
        then with_gameBoard
               (fun b => mkGameBoard (interactive b) false None None (hoveredCell b) []
                           (selectedCard b)
                           (emitted b ++ [cell_click x y;
                                          move_made (dragStartCell (gameBoard s)) (x, y)])) s
        else with_gameBoard
               (fun b => mkGameBoard (interactive b) (isDragging b) (Some (x, y))
                           (dragEndCell b) (hoveredCell b) (candidates s x y)
                           (selectedCard b) (emitted b ++ [cell_click x y])) s).
Proof.
  intros Hi Hc Hg. unfold handleCellClick.
  rewrite bind_get, Hi, Hc. cbn [negb].
  unfold emit at 1. rewrite bind_board_set, bind_get.
  change (isValidMove (with_gameBoard _ s) x y) with (isValidMove s x y).
  destruct (isValidMove s x y).
  - unfold emit, resetDragState. rewrite !bind_board_set.
    unfold board_set, modify, with_gameBoard. cbn. by rewrite <- app_assoc.
  - rewrite bind_board_set. unfold updateValidMoves. rewrite bind_get.
    cbn [currentGame gameStore with_gameBoard]. rewrite Hg. reflexivity.
Qed.

(** A mouse click on an interactive board without a selected card, in
    full. *)
Lemma mouse_click_no_card x y s :
  isInteractive s = true ->
  truthy (selectedCard (gameBoard s)) = false ->
  mouse_click x y s =
  Done (Return tt,
        with_gameBoard
          (fun b => mkGameBoard (interactive b) false (Some (x, y)) None (hoveredCell b)
                      (candidates s x y) (selectedCard b)
                      (emitted b ++ [cell_click x y])) s).
Proof.
  intros Hi Hc.
  assert (Hturn : isPlayerTurn s = true).
  { unfold isInteractive in Hi. by apply andb_true_iff in Hi as [_ ?]. }
  destruct (isPlayerTurn_currentGame s Hturn) as [g Hg].
  set (s1 := with_gameBoard (put_validMoves (candidates s x y))
               (with_gameBoard (put_dragEndCell None)
                  (with_gameBoard (put_dragStartCell (Some (x, y)))
                     (with_gameBoard (put_isDragging true) s)))).
  assert (E1 : handleMouseDown x y s = Done (Return tt, s1)).
  { unfold handleMouseDown. rewrite bind_get, Hi. cbn [negb].
    rewrite !bind_board_set. unfold updateValidMoves. rewrite bind_get.
    cbn [currentGame gameStore with_gameBoard]. rewrite Hg. reflexivity. }
  unfold mouse_click. unfold bind at 1. rewrite E1. cbn [proc_bind].
  unfold bind at 1. rewrite (handleMouseUp_dragging x y s1 eq_refl). cbn [proc_bind].
  cbn [dragStartCell gameBoard with_gameBoard s1 put_validMoves put_dragEndCell
       put_dragStartCell put_isDragging].
  rewrite (bool_decide_eq_false_2 ((x, y) <> (x, y))) by (intros H; by apply H).
  cbn [andb].
  match goal with
  | |- handleCellClick x y ?s2 = _ =>
      rewrite (handleCellClick_no_card x y s2 g Hi Hc Hg); rewrite (isValidMove_elem s2)
  end.
  cbn [validMoves gameBoard with_gameBoard].
  rewrite bool_decide_eq_false_2 by (by intros H%elem_of_nil).
  unfold with_gameBoard. cbn. rewrite app_nil_r. reflexivity.
Qed.

(** X23. Mouse clicks on an interactive board without a selected card
    never make a move.  The release that precedes each click empties the
    highlight set, so the click finds its cell not highlighted: every
    sequence of clicks emits one [cell-click] per click, in order, and
    nothing else, and leaves the cell clicked last as origin with its own
    highlight set; a move comes from a drag or from the keyboard only. *)
Theorem mouse_clicks_never_move cells s :
  isInteractive s = true ->
  truthy (selectedCard (gameBoard s)) = false ->
  exists s',
    mouse_clicks cells s = Done (Return tt, s')
    /\ emitted (gameBoard s')
       = (emitted (gameBoard s) ++ map (fun c => cell_click c.1 c.2) cells)%list
    /\ gameStore s' = gameStore s
    /\ selectedCard (gameBoard s') = selectedCard (gameBoard s)
    /\ hoveredCell (gameBoard s') = hoveredCell (gameBoard s)
    /\ match last cells with
       | Some c =>
           dragStartCell (gameBoard s') = Some c
           /\ validMoves (gameBoard s') = candidates s c.1 c.2
           /\ isDragging (gameBoard s') = false
       | None => s' = s
       end.
Proof.
  revert s. induction cells as [|[x y] cells IH]; intros s Hi Hc.
  - exists s. cbn. by rewrite app_nil_r.
  - cbn [mouse_clicks]. unfold bind at 1.
    rewrite (mouse_click_no_card x y s Hi Hc). cbn [proc_bind].
    match goal with
    | |- context [mouse_clicks cells ?s1] =>
        destruct (IH s1 Hi Hc) as (s' & E & Hem & Hst & Hsel & Hhov & Hlast)
    end.
    exists s'. split; [exact E|].
    split; [rewrite Hem; cbn; by rewrite <- app_assoc|].
    split; [exact Hst|]. split; [exact Hsel|]. split; [exact Hhov|].
    rewrite last_cons. destruct (last cells) as [c|].
    + exact Hlast.
    + rewrite Hlast. by repeat split.
Qed.

(** ** The board controller: hover and card selection *)

(** X24. [handleCellHover] and [handleCellLeave] work on any board,
    interactive or not: a hover sets the hovered cell, emits
    [cell-hover], and records the cell as drag target only while a drag
    with an origin is pending; a following leave clears the hovered cell
    and emits [cell-leave] but keeps the recorded drag target. *)
Theorem hover_then_leave x y s :
  exists s1 s2,
    handleCellHover x y s = Done (Return tt, s1)
    /\ hoveredCell (gameBoard s1) = Some (x, y)
    /\ dragEndCell (gameBoard s1)
       = (if isDragging (gameBoard s) && bool_decide (is_Some (dragStartCell (gameBoard s)))
          then Some (x, y) else dragEndCell (gameBoard s))
    /\ emitted (gameBoard s1) = (emitted (gameBoard s) ++ [cell_hover x y])%list
    /\ handleCellLeave s1 = Done (Return tt, s2)
    /\ hoveredCell (gameBoard s2) = None
    /\ dragEndCell (gameBoard s2) = dragEndCell (gameBoard s1)
    /\ emitted (gameBoard s2) = (emitted (gameBoard s) ++ [cell_hover x y; cell_leave])%list
    /\ dragStartCell (gameBoard s2) = dragStartCell (gameBoard s)
    /\ validMoves (gameBoard s2) = validMoves (gameBoard s)
    /\ gameStore s2 = gameStore s.
Proof.
  unfold handleCellHover, handleCellLeave.
  rewrite bind_board_set. unfold emit. rewrite bind_board_set, bind_get.
  cbn [isDragging dragStartCell gameBoard with_gameBoard put_emitted put_hoveredCell].
  destruct (isDragging (gameBoard s) && bool_decide (is_Some (dragStartCell (gameBoard s))));
    (eexists _, _; do 5 (split; [reflexivity|]); cbn; rewrite <- app_assoc;
     by repeat split).
Qed.

(** X25. Selecting a card on the board, or on the page, is a toggle on
    that card: it deselects the card when that very card was selected and
    selects it otherwise (replacing any other card), so doing it twice
    leaves a selection only if the card was selected before.  On the
    board it also empties the highlight set but keeps a pending drag
    origin. *)
Theorem selectCard_toggles cardId s :
  exists s1 s2 p1 p2,
    selectCard cardId s = Done (Return tt, s1)
    /\ selectedCard (gameBoard s1)
       = (if bool_decide (selectedCard (gameBoard s) = Some cardId) then None else Some cardId)
    /\ validMoves (gameBoard s1) = []
    /\ dragStartCell (gameBoard s1) = dragStartCell (gameBoard s)
    /\ isDragging (gameBoard s1) = isDragging (gameBoard s)
    /\ selectCard cardId s1 = Done (Return tt, s2)
    /\ selectedCard (gameBoard s2)
       = (if bool_decide (selectedCard (gameBoard s) = Some cardId) then Some cardId else None)
    /\ GamePage_selectCard cardId s = Done (Return tt, p1)
    /\ selectedCardId p1
       = (if bool_decide (selectedCardId s = Some cardId) then None else Some cardId)
    /\ gameBoard p1 = gameBoard s
    /\ GamePage_selectCard cardId p1 = Done (Return tt, p2)
    /\ selectedCardId p2
       = (if bool_decide (selectedCardId s = Some cardId) then Some cardId else None).
Proof.
  eexists _, _, _, _.
  split; [reflexivity|]. split; [reflexivity|]. do 3 (split; [reflexivity|]).
  split; [reflexivity|]. split.
  { cbn. destruct (bool_decide (selectedCard (gameBoard s) = Some cardId));
      [by rewrite bool_decide_eq_false_2|by rewrite bool_decide_eq_true_2]. }
  split; [reflexivity|]. split; [reflexivity|]. split; [reflexivity|].
  split; [reflexivity|].
  cbn. destruct (bool_decide (selectedCardId s = Some cardId));
    [by rewrite bool_decide_eq_false_2|by rewrite bool_decide_eq_true_2].
Qed.

(** ** The board controller: keyboard *)

Section KeyboardProperties.
Context (play_turn : option string -> PlayTurnBody -> Database -> Response string * Database).
Context (games_default : Game).
Local Abbreviation run := (run play_turn games_default).
Local Abbreviation press_keys := (press_keys play_turn games_default).

Lemma Enter_not_arrow : ~ ("Enter" ∈ arrowKeys).
Proof.
  unfold arrowKeys. intros H.
  repeat (apply elem_of_cons in H as [H|H]; [discriminate H|]).
  by apply elem_of_nil in H.
Qed.

(** X26. On an interactive board Enter activates the cursor cell as a
    click there does: the two calls leave the same client and store and
    end the same way; without a cursor Enter does nothing. *)
Theorem Enter_clicks_cursor_cell s db :
  isInteractive s = true ->
  run (handleKeyDown "Enter" s) db =
  match hoveredCell (gameBoard s) with
  | Some (x, y) => run (handleCellClick x y s) db
  | None => (Return tt, s, db)
  end.
Proof.
  intros Hi. unfold handleKeyDown.
  rewrite run_bind, run_get. cbv beta iota. rewrite Hi. cbn [negb].
  rewrite (bool_decide_eq_false_2 _ Enter_not_arrow).
  rewrite run_bind, run_ret. cbv beta iota.
  rewrite run_bind, run_get. cbv beta iota.
  cbn [String.eqb Ascii.eqb Bool.eqb andb].
  rewrite run_bind.
  destruct (hoveredCell (gameBoard s)) as [[x y]|].
  - destruct (run (handleCellClick x y s) db) as [[[[]|e] s1] db1]; reflexivity.
  - reflexivity.
Qed.

Lemma press_keys_app keys1 keys2 s db :
  press_keys (keys1 ++ keys2) s db
  = press_keys keys2 (press_keys keys1 s db).1 (press_keys keys1 s db).2.
Proof.
  revert s db. induction keys1 as [|key keys1 IH]; intros s db; [reflexivity|].
  cbn [app]. rewrite !press_keys_cons. apply IH.
Qed.

Lemma press_arrow key s c db :
  key ∈ arrowKeys ->
  cursor_at s c ->
  cursor_at (press_keys [key] s db).1 (clamped_step key c)
  /\ (press_keys [key] s db).2 = db.
Proof.
  intros Hkey (Hi & Hc & Hx & Hy).
  destruct (handleKeyDown_arrow key s Hkey Hi) as (s' & E & Hi' & Hc').
  { unfold cursor_in_grid. rewrite Hc. by destruct c. }
  rewrite press_keys_cons, E, run_Done. cbn [fst snd]. rewrite Hc in Hc'.
  split; [|reflexivity]. split; [exact Hi'|]. split; [exact Hc'|].
  destruct c as [cx cy]. apply clamped_step_in_grid; assumption.
Qed.

Lemma press_replicate key n s c db :
  key ∈ arrowKeys ->
  cursor_at s c ->
  cursor_at (press_keys (replicate n key) s db).1 (Nat.iter n (clamped_step key) c)
  /\ (press_keys (replicate n key) s db).2 = db.
Proof.
  intros Hkey. revert s c. induction n as [|n IH]; intros s c Hat; [by split|].
  destruct (press_arrow key s c db Hkey Hat) as [Hat1 Hdb1].
  change (replicate (S n) key) with ([key] ++ replicate n key)%list.
  rewrite press_keys_app, Hdb1, Nat.iter_succ_r. by apply IH.
Qed.

Lemma iter_ArrowLeft n cx cy :
  0 <= cx <= 8 ->
  Nat.iter n (clamped_step "ArrowLeft") (cx, cy) = (Z.max 0 (cx - Z.of_nat n), cy).
Proof.
  intros Hx. induction n as [|n IH]; [cbn; f_equal; lia|].
  rewrite Nat.iter_succ, IH. unfold clamped_step. cbn. f_equal. lia.
Qed.

Lemma iter_ArrowUp n cx cy :
  0 <= cy <= 8 ->
  Nat.iter n (clamped_step "ArrowUp") (cx, cy) = (cx, Z.max 0 (cy - Z.of_nat n)).
Proof.
  intros Hy. induction n as [|n IH]; [cbn; f_equal; lia|].
  rewrite Nat.iter_succ, IH. unfold clamped_step. cbn. f_equal. lia.
Qed.

Lemma iter_ArrowRight n cx cy :
  0 <= cx <= 8 ->
  Nat.iter n (clamped_step "ArrowRight") (cx, cy) = (Z.min 8 (cx + Z.of_nat n), cy).
Proof.
  intros Hx. induction n as [|n IH]; [cbn; f_equal; lia|].
  rewrite Nat.iter_succ, IH. unfold clamped_step. cbn. f_equal. lia.
Qed.

Lemma iter_ArrowDown n cx cy :
  0 <= cy <= 8 ->
  Nat.iter n (clamped_step "ArrowDown") (cx, cy) = (cx, Z.min 8 (cy + Z.of_nat n)).
Proof.
  intros Hy. induction n as [|n IH]; [cbn; f_equal; lia|].
  rewrite Nat.iter_succ, IH. unfold clamped_step. cbn. f_equal. lia.
Qed.

(** X27. On an interactive board the keyboard reaches every cell: from
    any cursor inside the grid, or from no cursor, some sequence of arrow
    keys puts the cursor on any given cell of [0,8] x [0,8], without
    touching the store. *)
Theorem every_cell_reachable_by_arrows s db x y :
  isInteractive s = true ->
  cursor_in_grid s ->
  0 <= x <= 8 -> 0 <= y <= 8 ->
  exists keys,
    Forall (fun key => key ∈ arrowKeys) keys
    /\ hoveredCell (gameBoard (press_keys keys s db).1) = Some (x, y)
    /\ (press_keys keys s db).2 = db.
Proof.
  intros Hi Hgrid Hx Hy.
  assert (HU : "ArrowUp" ∈ arrowKeys) by (unfold arrowKeys; repeat constructor).
  assert (HL : "ArrowLeft" ∈ arrowKeys) by (unfold arrowKeys; repeat constructor).
  assert (HR : "ArrowRight" ∈ arrowKeys) by (unfold arrowKeys; repeat constructor).
  assert (HD : "ArrowDown" ∈ arrowKeys) by (unfold arrowKeys; repeat constructor).
  exists (["ArrowUp"] ++ replicate 8 "ArrowLeft" ++ replicate 8 "ArrowUp"
          ++ replicate (Z.to_nat x) "ArrowRight" ++ replicate (Z.to_nat y) "ArrowDown")%list.
  split.
  { repeat (apply Forall_app; split); try (apply Forall_replicate; assumption).
    by apply Forall_singleton. }
  (* the first key gives a cursor inside the grid *)
  destruct (handleKeyDown_arrow "ArrowUp" s HU Hi Hgrid) as (s1 & E1 & Hi1 & Hc1).
  assert (exists c1, cursor_at s1 c1) as [[cx cy] Hat1].
  { unfold cursor_in_grid in Hgrid.
    destruct (hoveredCell (gameBoard s)) as [[ax ay]|].
    - exists (clamped_step "ArrowUp" (ax, ay)). split; [exact Hi1|]. split; [exact Hc1|].
      destruct Hgrid. by apply clamped_step_in_grid.
    - exists (4, 4). split; [exact Hi1|]. split; [exact Hc1|]. cbn. lia. }
  rewrite press_keys_app.
  assert (Es1 : press_keys ["ArrowUp"] s db = (s1, db)).
  { by rewrite press_keys_cons, E1, run_Done. }
  rewrite Es1. cbn [fst snd].
  pose proof Hat1 as (_ & _ & Hcx & Hcy). cbn [fst snd] in Hcx, Hcy.
  destruct (press_replicate "ArrowLeft" 8 s1 (cx, cy) db HL Hat1) as [Hat2 Hdb2].
  rewrite iter_ArrowLeft in Hat2 by assumption.
  rewrite press_keys_app, Hdb2.
  destruct (press_replicate "ArrowUp" 8 _ _ db HU Hat2) as [Hat3 Hdb3].
  rewrite iter_ArrowUp in Hat3 by assumption.
  rewrite press_keys_app, Hdb3.
  destruct (press_replicate "ArrowRight" (Z.to_nat x) _ _ db HR Hat3) as [Hat4 Hdb4].
  rewrite iter_ArrowRight in Hat4 by lia.
  rewrite press_keys_app, Hdb4.
  destruct (press_replicate "ArrowDown" (Z.to_nat y) _ _ db HD Hat4) as [Hat5 Hdb5].
  rewrite iter_ArrowDown in Hat5 by lia.
  split; [|exact Hdb5].
  destruct Hat5 as (_ & -> & _). f_equal. f_equal; lia.
Qed.

(** ** Moving by keyboard *)

Lemma put_hoveredCell_same s c :
  hoveredCell (gameBoard s) = Some c ->
  with_gameBoard (put_hoveredCell (Some c)) s = s.
Proof. destruct s as [u st [] sel t]. cbn. by intros ->. Qed.

(** An arrow key on an interactive board with a cursor, in full. *)
Lemma handleKeyDown_arrow_exact key s c :
  key ∈ arrowKeys ->
  isInteractive s = true ->
  hoveredCell (gameBoard s) = Some c ->
  0 <= c.1 <= 8 -> 0 <= c.2 <= 8 ->
  handleKeyDown key s
  = Done (Return tt, with_gameBoard (put_hoveredCell (Some (clamped_step key c))) s).
Proof.
  intros Hkey Hi Hc Hx Hy. destruct c as [x y]. cbn [fst snd] in Hx, Hy.
  destruct (arrow_not_Enter_Escape key Hkey) as [HEnter HEsc].
  unfold handleKeyDown. rewrite bind_get, Hi. cbn [negb].
  rewrite (bool_decide_eq_true_2 _ Hkey), Hc.
  assert (E : moveCursor key x y s
              = Done (Return tt,
                      with_gameBoard (put_hoveredCell (Some (clamped_step key (x, y)))) s)).
  { unfold arrowKeys in Hkey.
    repeat (apply elem_of_cons in Hkey as [->|Hkey]); [..|by apply elem_of_nil in Hkey];
      unfold moveCursor, clamped_step; cbn [String.eqb Ascii.eqb Bool.eqb fst snd].
    - destruct (Z.ltb_spec 0 y).
      + rewrite Z.max_r by lia. reflexivity.
      + rewrite Z.max_l by lia. replace 0 with y by lia.
        by rewrite put_hoveredCell_same.
    - destruct (Z.ltb_spec y 8).
      + rewrite Z.min_r by lia. reflexivity.
      + rewrite Z.min_l by lia. replace 8 with y by lia.
        by rewrite put_hoveredCell_same.
    - destruct (Z.ltb_spec 0 x).
      + rewrite Z.max_r by lia. reflexivity.
      + rewrite Z.max_l by lia. replace 0 with x by lia.
        by rewrite put_hoveredCell_same.
    - destruct (Z.ltb_spec x 8).
      + rewrite Z.min_r by lia. reflexivity.
      + rewrite Z.min_l by lia. replace 8 with x by lia.
        by rewrite put_hoveredCell_same. }
  unfold bind at 1. rewrite E. cbn [proc_bind].
  rewrite bind_get, HEnter, bind_ret, HEsc. reflexivity.
Qed.

(** Enter on an interactive board, when the click on the cursor cell
    sends no request. *)
Lemma handleKeyDown_Enter_Done s x y r :
  isInteractive s = true ->
  hoveredCell (gameBoard s) = Some (x, y) ->
  handleCellClick x y s = Done r ->
  handleKeyDown "Enter" s = Done r.
Proof.
  intros Hi Hc E. unfold handleKeyDown. rewrite bind_get, Hi. cbn [negb].
  rewrite (bool_decide_eq_false_2 _ Enter_not_arrow), bind_ret, bind_get, Hc.
  cbn [String.eqb Ascii.eqb Bool.eqb].
  unfold bind at 1. rewrite E. destruct r as [[[]|e] s1]; reflexivity.
Qed.

(** X29. A move by keyboard.  On an interactive board without a selected
    card, with the cursor on a cell that is not highlighted: Enter makes
    the cursor cell the origin, an arrow key moves the cursor one clamped
    step, and a second Enter clicks the cell reached.  If that cell is in
    the origin's highlight set, the board emits the two [cell-click]s and
    then one [move-made] from the origin to it and clears the drag state;
    if not (as at an edge, where the cursor stays on the origin), only the
    two [cell-click]s are emitted and the cell reached becomes the
    origin.  No request is sent. *)
Theorem Enter_arrow_Enter_moves key s db c :
  isInteractive s = true ->
  truthy (selectedCard (gameBoard s)) = false ->
  key ∈ arrowKeys ->
  hoveredCell (gameBoard s) = Some c ->
  0 <= c.1 <= 8 -> 0 <= c.2 <= 8 ->
  isValidMove s c.1 c.2 = false ->
  exists s',
    press_keys ["Enter"; key; "Enter"] s db = (s', db)
    /\ gameStore s' = gameStore s
    /\ hoveredCell (gameBoard s') = Some (clamped_step key c)
    /\ if bool_decide (clamped_step key c ∈ candidates s c.1 c.2)
       then emitted (gameBoard s')
            = (emitted (gameBoard s)
               ++ [cell_click c.1 c.2;
                   cell_click (clamped_step key c).1 (clamped_step key c).2;
                   move_made (Some c) (clamped_step key c)])%list
            /\ dragStartCell (gameBoard s') = None
            /\ validMoves (gameBoard s') = []
       else emitted (gameBoard s')
            = (emitted (gameBoard s)
               ++ [cell_click c.1 c.2;
                   cell_click (clamped_step key c).1 (clamped_step key c).2])%list
            /\ dragStartCell (gameBoard s') = Some (clamped_step key c)
            /\ validMoves (gameBoard s')
               = candidates s (clamped_step key c).1 (clamped_step key c).2.
Proof.
  intros Hi Hcard Hkey Hc Hx Hy Hnv.
  assert (Hturn : isPlayerTurn s = true).
  { unfold isInteractive in Hi. by apply andb_true_iff in Hi as [_ ?]. }
  destruct (isPlayerTurn_currentGame s Hturn) as [g Hg].
  destruct c as [x y]. cbn [fst snd] in *.
  destruct (clamped_step key (x, y)) as [x' y'] eqn:Estep. cbn [fst snd].
  pose proof (handleCellClick_no_card x y s g Hi Hcard Hg) as E1. rewrite Hnv in E1.
  apply (handleKeyDown_Enter_Done s x y _ Hi Hc) in E1.
  rewrite press_keys_cons, E1, run_Done. cbn [fst snd].
  match goal with
  | |- context [press_keys _ ?s1 db] =>
      pose proof (handleKeyDown_arrow_exact key s1 (x, y) Hkey Hi Hc Hx Hy) as E2
  end.
  rewrite Estep in E2.
  rewrite press_keys_cons, E2, run_Done. cbn [fst snd].
  match goal with
  | |- context [press_keys _ ?s2 db] =>
      pose proof (handleCellClick_no_card x' y' s2 g Hi Hcard Hg) as E3;
      rewrite (isValidMove_elem s2) in E3;
      apply (handleKeyDown_Enter_Done s2 x' y' _ Hi eq_refl) in E3
  end.
  cbn [validMoves gameBoard with_gameBoard put_hoveredCell] in E3.
  rewrite press_keys_cons, E3, run_Done. cbn [fst snd].
  destruct (bool_decide ((x', y') ∈ candidates s x y));
    (eexists; split; [reflexivity|]; split; [reflexivity|]; split; [reflexivity|]); cbn;
    rewrite <- app_assoc; by repeat split.
Qed.

End KeyboardProperties.

(** ** The hands on the page *)

Lemma getPlayerCards_elem s p c :
  c ∈ getPlayerCards s p
  <-> c ∈ cards (gameStore s) /\ cards.owner c = Some p /\ cards.is_used c = false.
Proof.
  unfold getPlayerCards. rewrite !list_elem_of_In, filter_In, andb_true_iff,
    bool_decide_eq_true, negb_true_iff. tauto.
Qed.

Lemma filter_lengths {X : Type} (f g : X -> bool) (l : list X) :
  (forall x, f x = true -> g x = true -> False) ->
  (length (List.filter f l) + length (List.filter g l) <= length l)%nat.
Proof.
  intros Hfg. induction l as [|x l IH]; [reflexivity|]. cbn [List.filter].
  destruct (f x) eqn:Ef, (g x) eqn:Eg; cbn [length]; try lia.
  exfalso. exact (Hfg x Ef Eg).
Qed.

(** X28. The two hands the page shows split the unused cards by owner:
    the own hand holds exactly the unused cards of A for seat A and of B
    for everybody else (so a viewer without a seat is shown B's hand as
    its own), the other hand holds exactly the unused cards of the other
    side, no card is in both, and used cards are in neither. *)
Theorem hands_split_unused_cards s :
  (forall c, c ∈ currentPlayerCards s
             <-> c ∈ cards (gameStore s) /\ cards.is_used c = false
                 /\ cards.owner c = Some (if isPlayerA s then A else B))
  /\ (forall c, c ∈ opponentCards s
                <-> c ∈ cards (gameStore s) /\ cards.is_used c = false
                    /\ cards.owner c = Some (if isPlayerA s then B else A))
  /\ (forall c, c ∈ currentPlayerCards s -> ~ (c ∈ opponentCards s))
  /\ (isPlayer s = false -> currentPlayerCards s = getPlayerCards s B)
  /\ (length (currentPlayerCards s) + length (opponentCards s)
      <= length (cards (gameStore s)))%nat.
Proof.
  unfold currentPlayerCards, opponentCards, isPlayer.
  split; [|split; [|split; [|split]]].
  - intros c. destruct (isPlayerA s); rewrite getPlayerCards_elem; tauto.
  - intros c. destruct (isPlayerA s); rewrite getPlayerCards_elem; tauto.
  - intros c. destruct (isPlayerA s); rewrite !getPlayerCards_elem;
      intros (_ & E1 & _) (_ & E2 & _); congruence.
  - intros H. apply orb_false_iff in H as [-> _]. reflexivity.
  - destruct (isPlayerA s); unfold getPlayerCards; apply filter_lengths; intros c;
      rewrite !andb_true_iff, !bool_decide_eq_true; intros [E1 _] [E2 _]; congruence.
Qed.

(** ** The further properties at the sample data *)

Lemma joinGame_signed_out_witness :
  truthy (userId (client None)) = false
  /\ exists s',
       joinGame "2024-05-01T10:01:00.000Z" "g1" (client None)
       = Done (Throw NOT_LOGGED_IN, s')
       /\ toasts s' = [toast_error "You must be logged in to join a game"].
Proof.
  split; [reflexivity|].
  destruct (joinGame_signed_out demo_play_turn demo_defaults
              "2024-05-01T10:01:00.000Z" "g1" (client None) eq_refl)
    as (s' & E & _ & _ & _ & Ht & _).
  exists s'. split; [exact E|exact Ht].
Defined.

Lemma joinGame_unknown_session_witness :
  truthy (userId (client (Some "bob"))) = true
  /\ tbl_games waiting_db !! "g7" = None
  /\ exists s',
       run demo_play_turn demo_defaults
         (joinGame "2024-05-01T10:01:00.000Z" "g7" (client (Some "bob"))) waiting_db
       = (Throw (PostgrestError NO_ROW), s', waiting_db)
       /\ currentGame (gameStore s') = None.
Proof.
  split; [reflexivity|]. split; [reflexivity|].
  destruct (joinGame_unknown_session demo_play_turn demo_defaults
              "2024-05-01T10:01:00.000Z" "g7" (client (Some "bob")) waiting_db
              eq_refl eq_refl)
    as (s' & E & _ & _ & _ & Hc & _).
  exists s'. split; [exact E|exact Hc].
Defined.

Lemma joinGame_loads_session_witness :
  truthy (userId (client (Some "bob"))) = true
  /\ tbl_games waiting_db !! "g1" = Some alice_game
  /\ truthy (games.player_a alice_game) && truthy (games.player_b alice_game) = false
  /\ exists s' g' db',
       run demo_play_turn demo_defaults
         (joinGame "2024-05-01T10:01:00.000Z" "g1" (client (Some "bob"))) waiting_db
       = (Return g', s', db')
       /\ isPlayerB s' = true
       /\ isSpectator s' = false
       /\ subscription (gameStore s') = Some (mkChannel "game:g1" "g1").
Proof.
  do 3 (split; [reflexivity|]).
  destruct (joinGame_loads_session demo_play_turn demo_defaults
              "2024-05-01T10:01:00.000Z" "g1" (client (Some "bob")) waiting_db alice_game
              eq_refl eq_refl eq_refl)
    as (s' & E & _ & HB & _ & HS & _ & _ & _ & Hsub & _).
  exists s'. eexists _, _. split; [exact E|]. split; [exact HB|]. split; [exact HS|exact Hsub].
Defined.

Lemma joinGame_by_creator_witness :
  truthy (userId (client (Some "alice"))) = true
  /\ tbl_games waiting_db !! "g1" = Some alice_game
  /\ games.player_a alice_game = userId (client (Some "alice"))
  /\ truthy (games.player_b alice_game) = false
  /\ games.turn alice_game = seat A
  /\ exists s' g',
       run demo_play_turn demo_defaults
         (joinGame "2024-05-01T10:01:00.000Z" "g1" (client (Some "alice"))) waiting_db
       = (Return g', s', with_games (<["g1" := g']> (tbl_games waiting_db)) waiting_db)
       /\ games.player_a g' = Some "alice"
       /\ games.player_b g' = Some "alice"
       /\ games.status g' = playing
       /\ isPlayerA s' = true
       /\ isPlayerB s' = true
       /\ isPlayerTurn s' = true.
Proof.
  do 5 (split; [reflexivity|]).
  exact (joinGame_by_creator demo_play_turn demo_defaults
           "2024-05-01T10:01:00.000Z" "g1" (client (Some "alice")) waiting_db alice_game
           eq_refl eq_refl eq_refl eq_refl eq_refl).
Defined.

Lemma forfeitGame_needs_game_and_user_witness :
  (currentGame (gameStore (client (Some "bob"))) = None
   \/ truthy (userId (client (Some "bob"))) = false)
  /\ exists s',
       forfeitGame "2024-05-01T10:05:00.000Z" "2024-05-01T10:05:00.001Z"
         (client (Some "bob"))
       = Done (Throw NO_GAME_OR_USER, s')
       /\ toasts s' = [toast_error "No active game or user not authenticated"].
Proof.
  assert (H : currentGame (gameStore (client (Some "bob"))) = None
              \/ truthy (userId (client (Some "bob"))) = false) by (left; reflexivity).
  split; [exact H|].
  destruct (forfeitGame_needs_game_and_user demo_play_turn demo_defaults
              "2024-05-01T10:05:00.000Z" "2024-05-01T10:05:00.001Z"
              (client (Some "bob")) H) as (s' & E & _ & ->).
  eexists. split; [exact E|reflexivity].
Defined.

Lemma forfeitGame_awards_by_seat_A_witness :
  currentGame (gameStore (viewer "carol")) = Some running_game
  /\ truthy (userId (viewer "carol")) = true
  /\ isPlayer (viewer "carol") = false
  /\ exists db' row',
       run demo_play_turn demo_defaults
         (forfeitGame "2024-05-01T10:05:00.000Z" "2024-05-01T10:05:00.001Z"
            (viewer "carol")) running_db
       = (Return tt, with_toast (toast_info "You have forfeited the game") (viewer "carol"),
          db')
       /\ tbl_games db' !! "g1" = Some row'
       /\ games.status row' = finished
       /\ games.winner row' = Some A.
Proof.
  do 3 (split; [reflexivity|]).
  destruct (forfeitGame_awards_by_seat_A demo_play_turn demo_defaults
              "2024-05-01T10:05:00.000Z" "2024-05-01T10:05:00.001Z"
              (viewer "carol") running_db running_game eq_refl eq_refl)
    as (db' & E & _ & _ & _ & _ & _ & Hrow).
  assert (Hlook : tbl_games running_db !! games.id running_game = Some running_game)
    by reflexivity.
  rewrite Hlook in Hrow. destruct Hrow as (row' & Hl & Hs & _ & Hw & _).
  exists db', row'. split; [exact E|]. split; [exact Hl|]. split; [exact Hs|].
  exact (Hw eq_refl).
Defined.

Lemma makeMove_in_turn_witness :
  isPlayerTurn (viewer "alice") = true
  /\ currentGame (gameStore (viewer "alice")) = Some running_game
  /\ exists s',
       run demo_play_turn demo_defaults (makeMove "c1" 3 4 (viewer "alice")) running_db
       = (Throw (FunctionsError "play-turn is not deployed"), s', running_db)
       /\ error (gameStore s') = Some "play-turn is not deployed"
       /\ currentGame (gameStore s') = Some running_game.
Proof.
  do 2 (split; [reflexivity|]).
  rewrite (makeMove_in_turn demo_play_turn demo_defaults "c1" 3 4 (viewer "alice")
             running_db running_game eq_refl eq_refl).
  eexists. split; [reflexivity|]. split; reflexivity.
Defined.

Lemma createGame_then_joinGame_witness :
  references_ok empty_db
  /\ games.player_b demo_defaults = None
  /\ truthy (userId (client (Some "bob"))) = true
  /\ exists g g' s_b' db2,
       run demo_play_turn demo_defaults
         (joinGame "2024-05-01T10:01:00.000Z" (games.id g) (client (Some "bob")))
         (run demo_play_turn demo_defaults (createGame (client (Some "alice"))) empty_db).2
       = (Return g', s_b', db2)
       /\ games.player_a g' = Some "alice"
       /\ games.player_b g' = Some "bob"
       /\ games.status g' = playing
       /\ length (board (gameStore s_b')) = 81%nat
       /\ isPlayerTurn s_b' = false.
Proof.
  assert (Hrefs : references_ok empty_db).
  { split; intros c Hc; cbn in Hc; by apply elem_of_nil in Hc. }
  split; [exact Hrefs|]. do 2 (split; [reflexivity|]).
  destruct (createGame_then_joinGame demo_play_turn demo_defaults
              "2024-05-01T10:01:00.000Z" (client (Some "alice")) (client (Some "bob"))
              empty_db Hrefs eq_refl eq_refl)
    as (g & s_a' & db1 & g' & s_b' & db2 & E1 & E2 & _ & Ha & Hb & Hst & _ & _ & _ & _ & _
        & Hlen & _ & _ & _ & Hturn).
  exists g, g', s_b', db2. rewrite E1. cbn [snd].
  split; [exact E2|]. split; [exact Ha|]. split; [exact Hb|]. split; [exact Hst|].
  split; [exact Hlen|]. apply Hturn. discriminate.
Defined.

Lemma non_interactive_board_ignores_input_witness :
  isInteractive (viewer "bob") = false
  /\ handleCellClick 3 4 (viewer "bob") = Done (Return tt, viewer "bob")
  /\ handleMouseDown 3 4 (viewer "bob") = Done (Return tt, viewer "bob")
  /\ handleKeyDown "Escape" (viewer "bob") = Done (Return tt, viewer "bob").
Proof.
  split; [reflexivity|].
  exact (non_interactive_board_ignores_input (viewer "bob") 3 4 "Escape" eq_refl).
Defined.

Lemma drag_and_release_witness :
  isInteractive (viewer "alice") = true
  /\ exists s',
       (handleMouseDown 4 4 ;; handleMouseUp 4 5) (viewer "alice") = Done (Return tt, s')
       /\ emitted (gameBoard s') = [move_made (Some (4, 4)) (4, 5)]
       /\ dragStartCell (gameBoard s') = None.
Proof.
  split; [reflexivity|].
  destruct (drag_and_release 4 4 4 5 (viewer "alice") eq_refl)
    as (s' & E & Hem & _ & Hs & _).
  exists s'. split; [exact E|]. split; [|exact Hs].
  rewrite Hem. reflexivity.
Defined.

Lemma mouse_clicks_never_move_witness :
  isInteractive (viewer "alice") = true
  /\ truthy (selectedCard (gameBoard (viewer "alice"))) = false
  /\ (5, 5) ∈ candidates (viewer "alice") 4 4
  /\ exists s',
       mouse_clicks [(4, 4); (5, 5)] (viewer "alice") = Done (Return tt, s')
       /\ emitted (gameBoard s') = [cell_click 4 4; cell_click 5 5]
       /\ dragStartCell (gameBoard s') = Some (5, 5).
Proof.
  do 2 (split; [reflexivity|]).
  split; [by apply (bool_decide_eq_true_1 ((5, 5) ∈ candidates (viewer "alice") 4 4))|].
  destruct (mouse_clicks_never_move [(4, 4); (5, 5)] (viewer "alice") eq_refl eq_refl)
    as (s' & E & Hem & _ & _ & _ & Hs & _).
  exists s'. split; [exact E|]. split; [exact Hem|exact Hs].
Defined.

Lemma Enter_clicks_cursor_cell_witness :
  isInteractive alice_in_corner = true
  /\ run demo_play_turn demo_defaults (handleKeyDown "Enter" alice_in_corner) running_db
     = run demo_play_turn demo_defaults (handleCellClick 0 0 alice_in_corner) running_db.
Proof.
  split; [reflexivity|].
  exact (Enter_clicks_cursor_cell demo_play_turn demo_defaults alice_in_corner running_db
           eq_refl).
Defined.

Lemma every_cell_reachable_by_arrows_witness :
  isInteractive (viewer "alice") = true
  /\ cursor_in_grid (viewer "alice")
  /\ 0 <= 8 <= 8
  /\ exists keys,
       Forall (fun key => key ∈ arrowKeys) keys
       /\ hoveredCell
            (gameBoard (press_keys demo_play_turn demo_defaults keys (viewer "alice")
                          running_db).1)
          = Some (8, 8)
       /\ (press_keys demo_play_turn demo_defaults keys (viewer "alice") running_db).2
          = running_db.
Proof.
  assert (Hgrid : cursor_in_grid (viewer "alice")) by exact I.
  assert (H8 : 0 <= 8 <= 8) by lia.
  split; [reflexivity|]. split; [exact Hgrid|]. split; [exact H8|].
  exact (every_cell_reachable_by_arrows demo_play_turn demo_defaults (viewer "alice")
           running_db 8 8 eq_refl Hgrid H8 H8).
Defined.

Lemma Enter_arrow_Enter_moves_witness :
  isInteractive alice_in_corner = true
  /\ truthy (selectedCard (gameBoard alice_in_corner)) = false
  /\ "ArrowDown" ∈ arrowKeys
  /\ hoveredCell (gameBoard alice_in_corner) = Some (0, 0)
  /\ isValidMove alice_in_corner 0 0 = false
  /\ exists s',
       press_keys demo_play_turn demo_defaults ["Enter"; "ArrowDown"; "Enter"]
         alice_in_corner running_db
       = (s', running_db)
       /\ emitted (gameBoard s')
          = [cell_click 0 0; cell_click 0 1; move_made (Some (0, 0)) (0, 1)]
       /\ dragStartCell (gameBoard s') = None.
Proof.
  assert (Hkey : "ArrowDown" ∈ arrowKeys) by (unfold arrowKeys; repeat constructor).
  assert (H0 : 0 <= 0 <= 8) by lia.
  split; [reflexivity|]. split; [reflexivity|]. split; [exact Hkey|].
  do 2 (split; [reflexivity|]).
  destruct (Enter_arrow_Enter_moves demo_play_turn demo_defaults "ArrowDown"
              alice_in_corner running_db (0, 0) eq_refl eq_refl Hkey eq_refl H0 H0 eq_refl)
    as (s' & E & _ & _ & H).
  assert (Hin : bool_decide (clamped_step "ArrowDown" (0, 0)
                             ∈ candidates alice_in_corner (0, 0).1 (0, 0).2) = true)
    by (vm_compute; reflexivity).
  rewrite Hin in H. destruct H as (Hem & Hs & _).
  exists s'. split; [exact E|]. split; [exact Hem|exact Hs].
Defined.
